(** * The question relay bridge (skills/claude-code-bridge/bridge.py)

    A shallow embedding of the bridge between an agent session and an
    external supervisor, and the properties of its file-based
    question/answer protocol.

    The bridge is a Python program: it handles values decoded from JSON,
    reads and writes the files of one task directory, reads clocks, and
    sleeps while an external actor may drop an answer file.  The embedding
    keeps these as they are in the code:

    - Python values, with Python's truthiness, membership, subscript, [get]
      and dict assignment, each raising what Python raises;
    - the task directory as a finite map from paths to text, changed by
      the steps of [pathlib] and [open], writing a file being two steps;
    - a state and error monad for the effects, whose state also keeps every
      step taken and the directory it left, so that what an outside reader
      may see in between can be stated;
    - the [json] module, the process, the clocks, the external actor and
      the SDK session as interfaces, over which every theorem quantifies.

    The external actor moves while the bridge sleeps, which is where the
    bridge yields; it writes or removes [answer.json] and nothing else.
    The session is the sequence of things the SDK does to the bridge: it
    yields a message, calls the permission callback, or raises.  The loop
    [while True] takes the number of rounds it may run as fuel, and a run
    that needs more ends as [Pending]: that the bridge returns is proved by
    giving enough fuel, never assumed. *)

From Stdlib Require Import ZArith Ascii String.
From Stdlib Require Import Floats.PrimFloat Floats.SpecFloat Floats.FloatOps.
From stdpp Require Import gmap strings list pretty.

Set Warnings "-register-all".
Local Open Scope string_scope.
Local Open Scope list_scope.
Local Open Scope Z_scope.

(** ** Python values *)

(** The values [json.loads] produces, and the dicts the bridge builds from
    them.  A dict keeps its insertion order; its keys are values too, as the
    bridge uses decoded values as keys. *)
Inductive pyval : Type :=
| PNone
| PBool (b : bool)
| PInt (z : Z)
| PFloat (f : float)
| PStr (s : string)
| PList (l : list pyval)
| PDict (d : list (pyval * pyval)).

Abbreviation pydict := (list (pyval * pyval)).

(** What the SDK's message iterator may raise: the class name
    ([type(e).__name__]), the message ([str(e)]), and whether the class
    derives from [Exception] (as opposed to [BaseException] alone). *)
Record fault : Type := Fault {
  fault_class : string;
  fault_text : string;
  fault_is_Exception : bool
}.

(** Exceptions: the built-in ones the bridge's own operations raise, and
    the faults of the session. *)
Inductive pyerr : Type :=
| KeyError (key : pyval)
| IndexError
| TypeError
| AttributeError
| JSONDecodeError
| ValueError
| FileNotFoundError (dir name : string)
| Foreign (f : fault).

(** Pure Python expressions either yield a value or raise. *)
Definition res (A : Type) : Type := pyerr + A.

Definition ok {A} (a : A) : res A := inr a.
Definition throw {A} (e : pyerr) : res A := inl e.
Definition rbind {A B} (r : res A) (k : A → res B) : res B :=
  match r with
  | inl e => inl e
  | inr a => k a
  end.

(** [bool(v)]. *)
Definition truthy (v : pyval) : bool :=
  match v with
  | PNone => false
  | PBool b => b
  | PInt z => negb (z =? 0)
  | PFloat f => negb (PrimFloat.eqb f 0%float)
  | PStr s => negb (String.eqb s EmptyString)
  | PList l => match l with [] => false | _ => true end
  | PDict d => match d with [] => false | _ => true end
  end.

(** [hash(v)] succeeds. *)
Definition hashable (v : pyval) : bool :=
  match v with
  | PList _ | PDict _ => false
  | _ => true
  end.

(** [bool] is a subclass of [int]. *)
Definition as_int (v : pyval) : option Z :=
  match v with
  | PBool b => Some (if b then 1 else 0)
  | PInt z => Some z
  | _ => None
  end.

(** [f == z] for a float and an int compares the exact values. *)
Definition float_eq_int (f : float) (z : Z) : bool :=
  match Prim2SF f with
  | S754_zero _ => z =? 0
  | S754_finite s m e =>
      let v := if s then Z.neg m else Z.pos m in
      if 0 <=? e then z =? v * 2 ^ e
      else (v mod 2 ^ (- e) =? 0) && (z =? v / 2 ^ (- e))
  | _ => false
  end.

(** Equality of two dict keys: [a is b or a == b] on hashable values.
    Numbers compare across [bool], [int] and [float]; the decoder hands out
    one shared nan object, which a dict therefore finds again. *)
Definition key_eqb (a b : pyval) : bool :=
  match a, b with
  | PNone, PNone => true
  | PStr s, PStr t => String.eqb s t
  | PFloat f, PFloat g =>
      PrimFloat.eqb f g || (PrimFloat.is_nan f && PrimFloat.is_nan g)
  | PFloat f, _ =>
      match as_int b with Some z => float_eq_int f z | None => false end
  | _, PFloat g =>
      match as_int a with Some z => float_eq_int g z | None => false end
  | _, _ =>
      match as_int a, as_int b with
      | Some x, Some y => x =? y
      | _, _ => false
      end
  end.

(** The entry of a dict under a key. *)
Fixpoint dict_lookup (k : pyval) (d : pydict) : option pyval :=
  match d with
  | [] => None
  | (k', v) :: d' => if key_eqb k' k then Some v else dict_lookup k d'
  end.

(** [d[k] = v] on a dict: an existing key keeps its place and takes the
    new value, a new key goes to the end. *)
Fixpoint dict_store (k v : pyval) (d : pydict) : pydict :=
  match d with
  | [] => [(k, v)]
  | (k', v') :: d' =>
      if key_eqb k' k then (k', v) :: d' else (k', v') :: dict_store k v d'
  end.

Definition py_setitem (d : pydict) (k v : pyval) : res pydict :=
  if hashable k then ok (dict_store k v d) else throw TypeError.

(** [needle in hay] on strings. *)
Fixpoint contains (needle hay : string) : bool :=
  if String.prefix needle hay then true
  else match hay with
       | EmptyString => false
       | String _ rest => contains needle rest
       end.

(** [s in v] for a string [s]. *)
Definition py_contains (s : string) (v : pyval) : res bool :=
  match v with
  | PDict d => ok (existsb (λ kv, key_eqb kv.1 (PStr s)) d)
  | PList l => ok (existsb (λ x, key_eqb x (PStr s)) l)
  | PStr t => ok (contains s t)
  | _ => throw TypeError
  end.

(** Position [i] of a sequence of length [n]; negative positions count from
    the end. *)
Definition seq_index (i : Z) (n : nat) : option nat :=
  let j := if i <? 0 then i + Z.of_nat n else i in
  if (0 <=? j) && (j <? Z.of_nat n) then Some (Z.to_nat j) else None.

(** [v[k]]. *)
Definition py_getitem (v k : pyval) : res pyval :=
  match v with
  | PDict d =>
      if hashable k then
        match dict_lookup k d with
        | Some x => ok x
        | None => throw (KeyError k)
        end
      else throw TypeError
  | PList l =>
      match as_int k with
      | Some i =>
          match seq_index i (length l) with
          | Some j => match l !! j with Some x => ok x | None => throw IndexError end
          | None => throw IndexError
          end
      | None => throw TypeError
      end
  | PStr s =>
      match as_int k with
      | Some i =>
          match seq_index i (String.length s) with
          | Some j =>
              match String.get j s with
              | Some c => ok (PStr (String c EmptyString))
              | None => throw IndexError
              end
          | None => throw IndexError
          end
      | None => throw TypeError
      end
  | _ => throw TypeError
  end.

(** [v.get(k, default)]: only dicts have the method. *)
Definition py_get (v : pyval) (k : string) (default : pyval) : res pyval :=
  match v with
  | PDict d =>
      match dict_lookup (PStr k) d with
      | Some x => ok x
      | None => ok default
      end
  | _ => throw AttributeError
  end.

(** [for x in v]: the items the loop visits. *)
Definition py_iter (v : pyval) : res (list pyval) :=
  match v with
  | PList l => ok l
  | PDict d => ok (d.*1)
  | PStr s => ok ((λ c, PStr (String c EmptyString)) <$> String.list_ascii_of_string s)
  | _ => throw TypeError
  end.

(** ** The task directory and the world around the bridge *)

(** A path is a directory and a file name in it ([dir / name]). *)
Abbreviation path := (string * string)%type.

(** [PurePath.suffix]: the last dot of the name and what follows it, unless
    that dot opens or closes the name. *)
Fixpoint rfind_dot (s : string) (i : nat) : option nat :=
  match s with
  | EmptyString => None
  | String c rest =>
      match rfind_dot rest (S i) with
      | Some j => Some j
      | None => if Ascii.eqb c "."%char then Some i else None
      end
  end.

Definition suffix (name : string) : string :=
  match rfind_dot name 0 with
  | Some i =>
      if ((0 <? i) && (i <? String.length name - 1))%nat
      then String.substring i (String.length name - i) name
      else EmptyString
  | None => EmptyString
  end.

(** [PurePath.with_suffix]. *)
Definition with_suffix (p : path) (sfx : string) : res path :=
  let name := p.2 in
  if String.eqb name EmptyString then throw ValueError
  else
    let old := suffix name in
    ok (p.1, String.substring 0 (String.length name - String.length old) name +:+ sfx).

(** What the external actor does to [answer.json] while the bridge sleeps. *)
Inductive move : Type :=
| Idle
| Supply (text : string)
| Withdraw.

(** The steps that change the task directory.  Writing a file is two
    steps, as a reader may look in between: the file is opened, which
    empties or creates it, and then receives its text. *)
Inductive fs_op : Type :=
| Truncate (p : path)
| Extend (p : path) (text : string)
| Rename (src dst : path)
| Unlink (p : path)
| Touch (p : path)
| Actor (m : move).

(** The state the bridge runs in: the module's global [_task_dir], the
    files, every step taken so far with the files it left (latest first),
    and how many times the wall clock, [time.time] and [asyncio.sleep] were
    used. *)
Record world : Type := World {
  task_dir : string;
  files : gmap path string;
  hist : list (fs_op * gmap path string);
  stamps : nat;
  clock_reads : nat;
  sleeps : nat
}.

(** The [json] module, as far as the bridge uses it: [json.dumps(data,
    indent=2, default=str)] and [json.loads], which fails with
    [JSONDecodeError] on text that is not JSON.  [json_loads] gives [None]
    for every text from which [json.loads] returns no value; the embedding
    raises [JSONDecodeError] for all of them, also where Python raises
    another error (a nesting too deep, a number too long), so the
    properties of a failed read speak of [json_loads] and not of the name
    of the error. *)
Class Codec : Type := {
  json_dumps : pyval → string;
  json_loads : string → option pyval
}.

(** What the bridge sees of the agent SDK.  A message of the session is an
    assistant message with its content blocks, a result message, or a
    message of another kind; of a result message the bridge reads
    [subtype] and whichever of the other attributes it has. *)
Inductive block : Type :=
| TextBlock (text : string)
| ToolUseBlock (name : string) (input : pyval)
| OtherBlock.

Record result_message : Type := {
  subtype : pyval;
  result : option pyval;
  session_id : option pyval;
  num_turns : option pyval;
  total_cost_usd : option pyval;
  is_error : option pyval
}.

Inductive message : Type :=
| AssistantMessage (content : list block)
| ResultMessage (r : result_message)
| OtherMessage.

(** One thing the session does to the bridge: its iterator yields a
    message, the SDK calls the permission callback for a tool, or the
    iterator raises.  A session that runs out of events has ended. *)
Inductive sdk_event : Type :=
| Yields (m : message)
| Permission (tool_name : string) (input_data : pydict)
| Faults (f : fault).

(** The process and its surroundings: the pid, [TASKS_DIR], the successive
    results of [datetime.now().isoformat()] and of [time.time()], what the
    external actor does during each sleep, the interpreter's wording of
    [str(e)] for a built-in exception, and the session [query] runs for a
    prompt in a working directory. *)
Class Host : Type := {
  getpid : Z;
  TASKS_DIR : string;
  isoformat_now : nat → string;
  time_time : nat → float;
  actor : nat → move;
  wording : pyerr → string;
  query : string → string → list sdk_event
}.

(** ** The effect monad *)

(** A computation ends with a value, with an exception, or is still
    polling when its fuel is spent. *)
Inductive outcome (A : Type) : Type :=
| Done (a : A)
| Raised (e : pyerr)
| Pending.
Arguments Done {A} a.
Arguments Raised {A} e.
Arguments Pending {A}.

Definition M (A : Type) : Type := world → outcome A * world.

Definition ret {A} (a : A) : M A := λ w, (Done a, w).

Definition bind {A B} (m : M A) (k : A → M B) : M B :=
  λ w, match m w with
       | (Done a, w') => k a w'
       | (Raised e, w') => (Raised e, w')
       | (Pending, w') => (Pending, w')
       end.

Definition raise {A} (e : pyerr) : M A := λ w, (Raised e, w).

Definition lift {A} (r : res A) : M A :=
  match r with
  | inl e => raise e
  | inr a => ret a
  end.

Declare Scope bridge_scope.
Delimit Scope bridge_scope with bridge.
Notation "x <- m ;; k" := (bind m (λ x, k))
  (at level 100, m at next level, right associativity) : bridge_scope.
Notation "m ;; k" := (bind m (λ _, k))
  (at level 100, right associativity) : bridge_scope.
Notation "x <-! r ;; k" := (rbind r (λ x, k))
  (at level 100, r at next level, right associativity) : bridge_scope.
Local Open Scope bridge_scope.

(** One step on the files, recorded in the history. *)
Definition record (op : fs_op) (fs : gmap path string) (w : world) : world :=
  {| task_dir := task_dir w; files := fs; hist := (op, fs) :: hist w;
     stamps := stamps w; clock_reads := clock_reads w; sleeps := sleeps w |}.

Definition commit (op : fs_op) (fs : gmap path string) : M unit :=
  λ w, (Done tt, record op fs w).

Definition get_files : M (gmap path string) := λ w, (Done (files w), w).

(** The global [_task_dir], and [_task_dir / name]. *)
Definition get_task_dir : M string := λ w, (Done (task_dir w), w).

Definition task_path (name : string) : M path :=
  dir <- get_task_dir ;; ret (dir, name).

(** [p.exists()]. *)
Definition exists_ (p : path) : M bool :=
  fs <- get_files ;; ret (bool_decide (is_Some (fs !! p))).

(** [p.read_text()]. *)
Definition read_text (p : path) : M string :=
  fs <- get_files ;;
  match fs !! p with
  | Some text => ret text
  | None => raise (FileNotFoundError p.1 p.2)
  end.

(** Writing to an open file adds to its text. *)
Definition extend (p : path) (text : string) : M unit :=
  fs <- get_files ;;
  commit (Extend p text) (<[p := default EmptyString (fs !! p) +:+ text]> fs).

(** [p.write_text(text)]. *)
Definition write_text (p : path) (text : string) : M unit :=
  fs <- get_files ;;
  commit (Truncate p) (<[p := EmptyString]> fs) ;;
  extend p text.

(** [src.rename(dst)], which replaces [dst] in one step. *)
Definition rename (src dst : path) : M unit :=
  fs <- get_files ;;
  match fs !! src with
  | Some text => commit (Rename src dst) (<[dst := text]> (delete src fs))
  | None => raise (FileNotFoundError src.1 src.2)
  end.

(** [p.unlink(missing_ok=...)]. *)
Definition unlink (p : path) (missing_ok : bool) : M unit :=
  fs <- get_files ;;
  match fs !! p with
  | Some _ => commit (Unlink p) (delete p fs)
  | None => if missing_ok then ret tt else raise (FileNotFoundError p.1 p.2)
  end.

(** [p.touch()], and the opening of a file for appending: the file is
    created empty when it is not there. *)
Definition touch (p : path) : M unit :=
  fs <- get_files ;;
  match fs !! p with
  | Some _ => ret tt
  | None => commit (Touch p) (<[p := EmptyString]> fs)
  end.

(** The counters of the world, each moved on by one use. *)
Definition next_stamp (w : world) : world :=
  {| task_dir := task_dir w; files := files w; hist := hist w;
     stamps := S (stamps w); clock_reads := clock_reads w; sleeps := sleeps w |}.

(** [datetime.now().isoformat()]. *)
Definition now_isoformat `{Host} : M string :=
  λ w, (Done (isoformat_now (stamps w)), next_stamp w).

Definition next_clock_read (w : world) : world :=
  {| task_dir := task_dir w; files := files w; hist := hist w;
     stamps := stamps w; clock_reads := S (clock_reads w); sleeps := sleeps w |}.

(** [time.time()]. *)
Definition time_now `{Host} : M float :=
  λ w, (Done (time_time (clock_reads w)), next_clock_read w).

(** The actor's move on the answer file of a directory. *)
Definition apply_move (m : move) (dir : string) (fs : gmap path string) : gmap path string :=
  match m with
  | Idle => fs
  | Supply text => <[(dir, "answer.json") := text]> fs
  | Withdraw => delete (dir, "answer.json") fs
  end.

Definition next_sleep (w : world) : world :=
  {| task_dir := task_dir w; files := files w; hist := hist w;
     stamps := stamps w; clock_reads := clock_reads w; sleeps := S (sleeps w) |}.

(** [await asyncio.sleep(seconds)]: the bridge is suspended and the
    external actor has its turn. *)
Definition sleep `{Host} (seconds : float) : M unit :=
  λ w, let m := actor (sleeps w) in
       (Done tt, next_sleep (record (Actor m) (apply_move m (task_dir w) (files w)) w)).

(** The global assignment [_task_dir = ...]. *)
Definition set_task_dir (dir : string) : M unit :=
  λ w, (Done tt,
        {| task_dir := dir; files := files w; hist := hist w;
           stamps := stamps w; clock_reads := clock_reads w; sleeps := sleeps w |}).

(** ** The bridge *)

Definition POLL_INTERVAL : float := 2%float.

(** [ANSWER_TIMEOUT = 600]: an int in the source, compared with a float
    difference; the comparison is exact. *)
Definition ANSWER_TIMEOUT : float := 600%float.

(** Line 126: [now - start_time > ANSWER_TIMEOUT]. *)
Definition timed_out (start_time now : float) : bool :=
  PrimFloat.ltb ANSWER_TIMEOUT (PrimFloat.sub now start_time).

Definition nl : string := String (ascii_of_nat 10) EmptyString.

Section Bridge.
Context `{Codec} `{Host}.

(** [write_json_atomic]: the text goes to the temporary path, which is then
    renamed into place. *)
Definition write_json_atomic (filepath : path) (data : pyval) : M unit :=
  tmp <- lift (with_suffix filepath ".tmp") ;;
  write_text tmp (json_dumps data) ;;
  rename tmp filepath.

(** [read_json]: [None] when the file is not there. *)
Definition read_json (filepath : path) : M pyval :=
  present <- exists_ filepath ;;
  if present then
    text <- read_text filepath ;;
    match json_loads text with
    | Some v => ret v
    | None => raise JSONDecodeError
    end
  else ret PNone.

(** The dict [write_status] serializes. *)
Definition status_record (status detail updated_at : string) (pid : Z) : pyval :=
  PDict [(PStr "status", PStr status);
         (PStr "detail", PStr detail);
         (PStr "updated_at", PStr updated_at);
         (PStr "pid", PInt pid)].

Definition write_status (dir : string) (status detail : string) : M unit :=
  updated_at <- now_isoformat ;;
  write_json_atomic (dir, "status.json") (status_record status detail updated_at getpid).

Definition append_log (dir : string) (text : string) : M unit :=
  touch (dir, "output.log") ;;
  extend (dir, "output.log") text.

(** The results of a permission callback. *)
Inductive permission : Type :=
| PermissionResultAllow (updated_input : pyval)
| PermissionResultDeny (message : string).

(** Lines 112 to 118: the answers handed back for an observed answer
    file.  [a and b] does not evaluate [b] when [a] is falsy. *)
Definition resolve_answers (questions answer_data : pyval) : res pyval :=
  has_answers <-! (if truthy answer_data then py_contains "answers" answer_data
                   else ok false) ;;
  if has_answers then py_getitem answer_data (PStr "answers")
  else
    has_text <-! (if truthy answer_data then py_contains "text" answer_data
                  else ok false) ;;
    if has_text then
      if truthy questions then
        q <-! py_getitem questions (PInt 0) ;;
        k <-! py_getitem q (PStr "question") ;;
        text <-! py_getitem answer_data (PStr "text") ;;
        d <-! py_setitem [] k text ;;
        ok (PDict d)
      else ok (PDict [])
    else ok (PDict []).

(** Lines 131 to 137: the loop that fills [default_answers].  An
    assignment evaluates its right-hand side before the subscript of its
    target. *)
Fixpoint default_answers (qs : list pyval) (acc : pydict) : res pydict :=
  match qs with
  | [] => ok acc
  | q :: rest =>
      options <-! py_get q "options" (PList []) ;;
      acc' <-! (if truthy options then
                  o <-! py_getitem options (PInt 0) ;;
                  label <-! py_getitem o (PStr "label") ;;
                  k <-! py_getitem q (PStr "question") ;;
                  py_setitem acc k label
                else
                  k <-! py_getitem q (PStr "question") ;;
                  py_setitem acc k (PStr "No preference")) ;;
      default_answers rest acc'
  end.

(** The dict both exits of the polling loop hand to the SDK. *)
Definition updated (questions answers : pyval) : pyval :=
  PDict [(PStr "questions", questions); (PStr "answers", answers)].

(** The polling loop of [handle_ask_user_question], with [fuel] bounding
    the number of rounds. *)
Fixpoint poll (fuel : nat) (questions : pyval) (answer_path : path)
    (start_time : float) : M permission :=
  match fuel with
  | O => λ w, (Pending, w)
  | S fuel' =>
      present <- exists_ answer_path ;;
      if present then
        answer_data <- read_json answer_path ;;
        question_path <- task_path "question.json" ;;
        unlink question_path true ;;
        unlink answer_path true ;;
        dir <- get_task_dir ;;
        write_status dir "running" "Received answer, continuing" ;;
        answers <- lift (resolve_answers questions answer_data) ;;
        ret (PermissionResultAllow (updated questions answers))
      else
        now <- time_now ;;
        if timed_out start_time now then
          question_path <- task_path "question.json" ;;
          unlink question_path true ;;
          dir <- get_task_dir ;;
          write_status dir "running" "Answer timed out, continuing with default" ;;
          qs <- lift (py_iter questions) ;;
          answers <- lift (default_answers qs []) ;;
          ret (PermissionResultAllow (updated questions (PDict answers)))
        else
          sleep POLL_INTERVAL ;;
          poll fuel' questions answer_path start_time
  end.

Definition handle_ask_user_question (fuel : nat) (input_data : pydict) : M permission :=
  let questions := default (PList []) (dict_lookup (PStr "questions") input_data) in
  question_path <- task_path "question.json" ;;
  asked_at <- now_isoformat ;;
  write_json_atomic question_path
    (PDict [(PStr "questions", questions); (PStr "asked_at", PStr asked_at)]) ;;
  dir <- get_task_dir ;;
  write_status dir "waiting_for_answer" "Claude is asking a clarifying question" ;;
  answer_path <- task_path "answer.json" ;;
  present <- exists_ answer_path ;;
  (if present then unlink answer_path false else ret tt) ;;
  start_time <- time_now ;;
  poll fuel questions answer_path start_time.

Definition can_use_tool (fuel : nat) (tool_name : string) (input_data : pydict) : M permission :=
  if String.eqb tool_name "AskUserQuestion" then handle_ask_user_question fuel input_data
  else ret (PermissionResultAllow (PDict input_data)).

(** The body of the [async for] loop of [run_bridge]. *)
Definition on_block (b : block) : M unit :=
  match b with
  | TextBlock text => dir <- get_task_dir ;; append_log dir (text +:+ nl)
  | ToolUseBlock name _ =>
      dir <- get_task_dir ;; append_log dir ("[Tool: " +:+ name +:+ "]" +:+ nl)
  | OtherBlock => ret tt
  end.

Fixpoint for_each {A} (f : A → M unit) (l : list A) : M unit :=
  match l with
  | [] => ret tt
  | x :: l' => f x ;; for_each f l'
  end.

Definition set_if_has (k : string) (attr : option pyval) (d : pydict) : pydict :=
  match attr with
  | Some v => dict_store (PStr k) v d
  | None => d
  end.

Definition result_data (r : result_message) (completed_at : string) : pydict :=
  set_if_has "is_error" (is_error r)
    (set_if_has "total_cost_usd" (total_cost_usd r)
       (set_if_has "num_turns" (num_turns r)
          (set_if_has "session_id" (session_id r)
             (set_if_has "result" (result r)
                [(PStr "subtype", subtype r);
                 (PStr "completed_at", PStr completed_at)])))).

Definition on_message (m : message) : M unit :=
  match m with
  | AssistantMessage content => for_each on_block content
  | ResultMessage r =>
      completed_at <- now_isoformat ;;
      result_path <- task_path "result.json" ;;
      write_json_atomic result_path (PDict (result_data r completed_at)) ;;
      dir <- get_task_dir ;;
      if truthy (default (PBool false) (is_error r))
      then write_status dir "error" "Claude Code reported an error"
      else write_status dir "complete" "Task finished successfully"
  | OtherMessage => ret tt
  end.

(** The SDK takes what the callback returns or raises; only a callback
    that is still polling holds the session up. *)
Definition deliver {A} (m : M A) : M unit :=
  λ w, match m w with
       | (Pending, w') => (Pending, w')
       | (_, w') => (Done tt, w')
       end.

(** [async for message in query(...)]. *)
Fixpoint session_loop (fuel : nat) (events : list sdk_event) : M unit :=
  match events with
  | [] => ret tt
  | Yields m :: rest => on_message m ;; session_loop fuel rest
  | Permission tool_name input_data :: rest =>
      deliver (can_use_tool fuel tool_name input_data) ;; session_loop fuel rest
  | Faults f :: _ => raise (Foreign f)
  end.

(** [type(e).__name__], [str(e)], and whether [except Exception] takes
    [e]: the built-in errors all derive from [Exception]. *)
Definition type_name (e : pyerr) : string :=
  match e with
  | KeyError _ => "KeyError"
  | IndexError => "IndexError"
  | TypeError => "TypeError"
  | AttributeError => "AttributeError"
  | JSONDecodeError => "JSONDecodeError"
  | ValueError => "ValueError"
  | FileNotFoundError _ _ => "FileNotFoundError"
  | Foreign f => fault_class f
  end.

Definition str_of (e : pyerr) : string :=
  match e with
  | Foreign f => fault_text f
  | _ => wording e
  end.

Definition is_Exception (e : pyerr) : bool :=
  match e with
  | Foreign f => fault_is_Exception f
  | _ => true
  end.

(** [try: body except Exception as e: handler]. *)
Definition try_except {A} (body : M A) (handler : pyerr → M A) : M A :=
  λ w, match body w with
       | (Raised e, w') => if is_Exception e then handler e w' else (Raised e, w')
       | r => r
       end.

(** [a / b] on paths, for the two cases the bridge meets: an absolute
    [b] stands alone, any other is put under [a]. *)
Definition joinpath (a b : string) : string :=
  if String.prefix "/" b then b else a +:+ "/" +:+ b.

(** Directories are not tracked: every directory a path names is taken to
    be there, which [mkdir(parents=True, exist_ok=True)] makes true of the
    task directory. *)
Definition mkdir (dir : string) : M unit := ret tt.

Definition run_bridge (fuel : nat) (task_id workdir prompt : string) : M unit :=
  set_task_dir (joinpath TASKS_DIR task_id) ;;
  dir <- get_task_dir ;;
  mkdir dir ;;
  pid_path <- task_path "bridge.pid" ;;
  write_text pid_path (pretty getpid) ;;
  task_json <- task_path "task.json" ;;
  created_at <- now_isoformat ;;
  write_json_atomic task_json
    (PDict [(PStr "task_id", PStr task_id);
            (PStr "workdir", PStr workdir);
            (PStr "prompt", PStr prompt);
            (PStr "created_at", PStr created_at)]) ;;
  dir <- get_task_dir ;;
  write_status dir "starting" "Initializing Claude Code session" ;;
  log_path <- task_path "output.log" ;;
  touch log_path ;;
  dir <- get_task_dir ;;
  write_status dir "running" "Claude Code session active" ;;
  try_except (session_loop fuel (query prompt workdir))
    (λ e,
       dir <- get_task_dir ;;
       write_status dir "error" (type_name e +:+ ": " +:+ str_of e) ;;
       dir <- get_task_dir ;;
       append_log dir (nl +:+ "[BRIDGE ERROR] " +:+ type_name e +:+ ": " +:+ str_of e +:+ nl) ;;
       raise e).

End Bridge.

(** * Definitions for the statements *)
(** ** Histories *)

(** The files after the latest step of a history that started from [fs0]. *)
Definition latest (h : list (fs_op * gmap path string)) (fs0 : gmap path string)
    : gmap path string :=
  match h with
  | [] => fs0
  | s :: _ => s.2
  end.

(** Every step of a history (latest first) satisfies [P], which relates
    the files before the step, the step, and the files after it. *)
Fixpoint linked (P : gmap path string → fs_op → gmap path string → Prop)
    (h : list (fs_op * gmap path string)) (fs0 : gmap path string) : Prop :=
  match h with
  | [] => True
  | s :: h' => P (latest h' fs0) s.1 s.2 ∧ linked P h' fs0
  end.

(** Running [m] from [w] adds steps that all satisfy [P], and ends with an
    outcome and a world that satisfy [Q]. *)
Definition wp {A : Type} (P : gmap path string → fs_op → gmap path string → Prop)
    (m : M A) (Q : outcome A → world → Prop) (w : world) : Prop :=
  ∃ new, hist (m w).2 = new ++ hist w
         ∧ linked P new (files w)
         ∧ files (m w).2 = latest new (files w)
         ∧ Q (m w).1 (m w).2.

(** What [Q] asks of the three ways a computation can end. *)
Definition after {A B : Type} (P : gmap path string → fs_op → gmap path string → Prop)
    (k : A → M B) (Q : outcome B → world → Prop) (r : outcome A) (w : world) : Prop :=
  match r with
  | Done a => wp P (k a) Q w
  | Raised e => Q (Raised e) w
  | Pending => Q Pending w
  end.

(** No constraint on the steps. *)
Definition any_step : gmap path string → fs_op → gmap path string → Prop :=
  λ _ _ _, True.

(** The three steps of an atomic write of [text] to [dir / name] through
    [dir / tmpname]: the world they leave, and what they ask of a step
    predicate. *)
Definition replaced (dir name tmpname text : string) (w : world) : world :=
  let tmp := (dir, tmpname) in
  let fs1 := <[tmp := EmptyString]> (files w) in
  let fs2 := <[tmp := text]> fs1 in
  let fs3 := <[(dir, name) := text]> (delete tmp fs2) in
  record (Rename tmp (dir, name)) fs3
    (record (Extend tmp text) fs2 (record (Truncate tmp) fs1 w)).

Definition replacing (P : gmap path string → fs_op → gmap path string → Prop)
    (dir name tmpname text : string) (fs : gmap path string) : Prop :=
  let tmp := (dir, tmpname) in
  let fs1 := <[tmp := EmptyString]> fs in
  let fs2 := <[tmp := text]> fs1 in
  let fs3 := <[(dir, name) := text]> (delete tmp fs2) in
  P fs (Truncate tmp) fs1 ∧ P fs1 (Extend tmp text) fs2
  ∧ P fs2 (Rename tmp (dir, name)) fs3.

(** ** Scenarios of one wait *)

(** A move that leaves no answer file behind. *)
Definition quiet (m : move) : bool :=
  match m with
  | Supply _ => false
  | _ => true
  end.

Section Scenarios.
Context `{Host}.

(** [handle_ask_user_question] is called in world [w]: it reads the clock
    once for [start_time], and then once in every round that finds no
    answer file.  In the first [k] rounds the deadline has not passed and
    the actor supplies nothing during the sleep that follows. *)
Definition waits (w : world) (k : nat) : Prop :=
  ∀ i, (i < k)%nat →
    timed_out (time_time (clock_reads w)) (time_time (clock_reads w + 1 + i)) = false
    ∧ quiet (actor (sleeps w + i)) = true.

(** The answer file with [text] appears during the sleep of round [k],
    the deadline not having passed by then. *)
Definition answered (w : world) (k : nat) (text : string) : Prop :=
  waits w k
  ∧ timed_out (time_time (clock_reads w)) (time_time (clock_reads w + 1 + k)) = false
  ∧ actor (sleeps w + k) = Supply text.

(** Round [k] finds the deadline passed, no answer file having appeared. *)
Definition expires (w : world) (k : nat) : Prop :=
  waits w k
  ∧ timed_out (time_time (clock_reads w)) (time_time (clock_reads w + 1 + k)) = true.

End Scenarios.

(** What the callback does with the text of an observed answer file. *)
Definition observe `{Codec} (questions : pyval) (text : string) : outcome permission :=
  match json_loads text with
  | None => Raised JSONDecodeError
  | Some answer_data =>
      match resolve_answers questions answer_data with
      | inl e => Raised e
      | inr answers => Done (PermissionResultAllow (updated questions answers))
      end
  end.

(** The question set of a tool input: [input_data.get("questions", [])]. *)
Definition questions_of (input_data : pydict) : pyval :=
  default (PList []) (dict_lookup (PStr "questions") input_data).

(** What the callback does when the deadline has passed. *)
Definition expire `{Codec} (questions : pyval) : outcome permission :=
  match py_iter questions with
  | inl e => Raised e
  | inr qs =>
      match default_answers qs [] with
      | inl e => Raised e
      | inr answers => Done (PermissionResultAllow (updated questions (PDict answers)))
      end
  end.

Section Setup.
Context `{Codec} `{Host}.

(** The world once [handle_ask_user_question] has written the question
    and the status (lines 89 to 93). *)
Definition asked (input_data : pydict) (w : world) : world :=
  let d := task_dir w in
  let w1 :=
    replaced d "question.json" "question.tmp"
      (json_dumps (PDict [(PStr "questions", questions_of input_data);
                          (PStr "asked_at", PStr (isoformat_now (stamps w)))]))
      (next_stamp w) in
  replaced d "status.json" "status.tmp"
    (json_dumps (status_record "waiting_for_answer"
                   "Claude is asking a clarifying question"
                   (isoformat_now (stamps w1)) getpid))
    (next_stamp w1).

(** The world when the polling loop starts (line 102): a stale answer
    file is gone and the clock has been read. *)
Definition listening (input_data : pydict) (w : world) : world :=
  let w1 := asked input_data w in
  let answer_path := (task_dir w, "answer.json") in
  next_clock_read
    (match files w1 !! answer_path with
     | Some _ => record (Unlink answer_path) (delete answer_path (files w1)) w1
     | None => w1
     end).

(** The world in which [run_bridge] enters its [try] block (line 200):
    the pid file, the task metadata and the log are there and the status
    is [running]. *)
Definition entered (task_id workdir prompt : string) (w : world) : world :=
  let d := joinpath TASKS_DIR task_id in
  let pid_path := (d, "bridge.pid") in
  let log_path := (d, "output.log") in
  let w0 := {| task_dir := d; files := files w; hist := hist w; stamps := stamps w;
               clock_reads := clock_reads w; sleeps := sleeps w |} in
  let w1 :=
    record (Extend pid_path (pretty getpid))
      (<[pid_path := pretty getpid]> (<[pid_path := EmptyString]> (files w0)))
      (record (Truncate pid_path) (<[pid_path := EmptyString]> (files w0)) w0) in
  let w2 :=
    replaced d "task.json" "task.tmp"
      (json_dumps (PDict [(PStr "task_id", PStr task_id);
                          (PStr "workdir", PStr workdir);
                          (PStr "prompt", PStr prompt);
                          (PStr "created_at", PStr (isoformat_now (stamps w1)))]))
      (next_stamp w1) in
  let w3 :=
    replaced d "status.json" "status.tmp"
      (json_dumps (status_record "starting" "Initializing Claude Code session"
                     (isoformat_now (stamps w2)) getpid))
      (next_stamp w2) in
  let w4 :=
    match files w3 !! log_path with
    | Some _ => w3
    | None => record (Touch log_path) (<[log_path := EmptyString]> (files w3)) w3
    end in
  replaced d "status.json" "status.tmp"
    (json_dumps (status_record "running" "Claude Code session active"
                   (isoformat_now (stamps w4)) getpid))
    (next_stamp w4).

(** The [except] clause of [run_bridge] (lines 237 to 240). *)
Definition on_fault (e : pyerr) : M unit :=
  dir <- get_task_dir ;;
  write_status dir "error" (type_name e +:+ ": " +:+ str_of e) ;;
  dir <- get_task_dir ;;
  append_log dir (nl +:+ "[BRIDGE ERROR] " +:+ type_name e +:+ ": " +:+ str_of e +:+ nl) ;;
  raise e.

End Setup.

(** ** Well-formed question sets *)

(** A sub-question is a dict with a string under ["question"] and, if it
    has ["options"] at all, a list of dicts that each carry a ["label"]. *)
Definition option_ok (o : pyval) : bool :=
  match o with
  | PDict d => bool_decide (is_Some (dict_lookup (PStr "label") d))
  | _ => false
  end.

Definition sub_question_ok (q : pyval) : bool :=
  match q with
  | PDict d =>
      match dict_lookup (PStr "question") d with
      | Some (PStr _) =>
          match dict_lookup (PStr "options") d with
          | None => true
          | Some (PList opts) => forallb option_ok opts
          | Some _ => false
          end
      | _ => false
      end
  | _ => false
  end.

(** The question text, the options and the label of the first option, as
    the specification speaks of them. *)
Definition text_of (q : pyval) : string :=
  match q with
  | PDict d =>
      match dict_lookup (PStr "question") d with
      | Some (PStr text) => text
      | _ => EmptyString
      end
  | _ => EmptyString
  end.

Definition options_of (q : pyval) : list pyval :=
  match q with
  | PDict d =>
      match dict_lookup (PStr "options") d with
      | Some (PList opts) => opts
      | _ => []
      end
  | _ => []
  end.

Definition label_of (o : pyval) : pyval :=
  match o with
  | PDict d => default PNone (dict_lookup (PStr "label") d)
  | _ => PNone
  end.

(** The default answer the specification gives a sub-question: the label
    of its first listed option, or the placeholder when it lists none. *)
Definition expected_default (q : pyval) : pyval :=
  match options_of q with
  | o :: _ => label_of o
  | [] => PStr "No preference"
  end.

(** The dict the specification expects after a timeout: each sub-question
    in turn binds its text to its default. *)
Definition bind_default (acc : pydict) (q : pyval) : pydict :=
  dict_store (PStr (text_of q)) (expected_default q) acc.

(** Neither the question file nor the answer file is in the directory. *)
Definition clean (dir : string) (fs : gmap path string) : Prop :=
  fs !! (dir, "question.json") = None ∧ fs !! (dir, "answer.json") = None.

(** What a callback that returns leaves. *)
Definition returns_clean (dir : string) : outcome permission → world → Prop :=
  λ r w, match r with Done _ => clean dir (files w) | _ => True end.

(** ** The status while a question is out *)

(** [status.json] holds a status record with the state [tag]. *)
Definition status_is `{Codec} (dir tag : string) (fs : gmap path string) : Prop :=
  ∃ detail stamp pid,
    fs !! (dir, "status.json") = Some (json_dumps (status_record tag detail stamp pid)).

(** The question file is not there, or the status says the bridge is
    waiting for its answer. *)
Definition waiting_or_gone `{Codec} (dir : string) (fs : gmap path string) : Prop :=
  fs !! (dir, "question.json") = None ∨ status_is dir "waiting_for_answer" fs.

(** A step that does not break [waiting_or_gone]. *)
Definition keeps_waiting `{Codec} (dir : string) (prev : gmap path string) (op : fs_op)
    (next : gmap path string) : Prop :=
  waiting_or_gone dir prev → waiting_or_gone dir next.

(** ** Atomic writes *)

(** The JSON artifacts the bridge keeps in a task directory. *)
Definition durable (name : string) : bool :=
  existsb (String.eqb name) ["status.json"; "question.json"; "task.json"; "result.json"].

(** What one step may do to an artifact: leave it as it is, remove it, or
    replace it by renaming over it its temporary file, which at that moment
    holds a complete serialization. *)
Definition atomic_step `{Codec} (prev : gmap path string) (op : fs_op)
    (next : gmap path string) : Prop :=
  ∀ dir name, durable name = true →
    next !! (dir, name) = prev !! (dir, name)
    ∨ (op = Unlink (dir, name) ∧ next !! (dir, name) = None)
    ∨ ∃ tmpname data,
        with_suffix (dir, name) ".tmp" = ok (dir, tmpname)
        ∧ op = Rename (dir, tmpname) (dir, name)
        ∧ prev !! (dir, tmpname) = Some (json_dumps data)
        ∧ next !! (dir, name) = Some (json_dumps data).

(** However a computation ends, the global [_task_dir] is [dir]. *)
Definition in_dir {A : Type} (dir : string) : outcome A → world → Prop :=
  λ _ w, task_dir w = dir.

(** ** A codec to run the bridge with

    [json.dumps(data, indent=2, default=str)] and [json.loads] on the
    strings of this development, whose characters are the code points
    below 256.  The text of a float, [repr] one way and [float] the other,
    is the interpreter's business and comes as two parameters.  An escape
    that names a code point from 256 on has no counterpart here and is
    refused. *)

Definition dquote : ascii := ascii_of_nat 34.
Definition backslash : ascii := ascii_of_nat 92.

Definition hex_digit (n : nat) : ascii :=
  ascii_of_nat (if (n <? 10)%nat then 48 + n else 87 + n).

(** [ESCAPE_ASCII] and [ESCAPE_DCT] of [json.encoder]. *)
Definition escape_char (c : ascii) : string :=
  let n := nat_of_ascii c in
  if Ascii.eqb c dquote then String backslash (String dquote EmptyString)
  else if Ascii.eqb c backslash then String backslash (String backslash EmptyString)
  else if (n =? 10)%nat then String backslash "n"
  else if (n =? 13)%nat then String backslash "r"
  else if (n =? 9)%nat then String backslash "t"
  else if (n =? 8)%nat then String backslash "b"
  else if (n =? 12)%nat then String backslash "f"
  else if ((n <? 32) || (126 <? n))%nat then
    String backslash
      ("u00" +:+ String (hex_digit (n / 16)) (String (hex_digit (n mod 16)) EmptyString))
  else String c EmptyString.

Fixpoint escape (s : string) : string :=
  match s with
  | EmptyString => EmptyString
  | String c rest => escape_char c +:+ escape rest
  end.

Definition quote (s : string) : string :=
  String dquote (escape s +:+ String dquote EmptyString).

Fixpoint spaces (n : nat) : string :=
  match n with
  | O => EmptyString
  | S n' => String " " (spaces n')
  end.

(** A line break and the indentation of a nesting level. *)
Definition newline_indent (level : nat) : string := nl +:+ spaces (2 * level).

Section Encoder.
Variable float_repr : float → string.

Definition float_text (f : float) : string :=
  if PrimFloat.is_nan f then "NaN"
  else if PrimFloat.eqb f infinity then "Infinity"
  else if PrimFloat.eqb f neg_infinity then "-Infinity"
  else float_repr f.

(** The key of an item: a string stands for itself, the other scalars are
    turned into text. *)
Definition key_text (k : pyval) : string :=
  match k with
  | PStr s => s
  | PNone => "null"
  | PBool true => "true"
  | PBool false => "false"
  | PInt z => pretty z
  | PFloat f => float_repr f
  | _ => EmptyString
  end.

Fixpoint json_encode (level : nat) (v : pyval) {struct v} : string :=
  match v with
  | PNone => "null"
  | PBool true => "true"
  | PBool false => "false"
  | PInt z => pretty z
  | PFloat f => float_text f
  | PStr s => quote s
  | PList [] => "[]"
  | PList (x :: l) =>
      "[" +:+ newline_indent (S level) +:+ json_encode (S level) x
      +:+ (fix items (l : list pyval) : string :=
             match l with
             | [] => EmptyString
             | y :: l' =>
                 "," +:+ newline_indent (S level) +:+ json_encode (S level) y +:+ items l'
             end) l
      +:+ newline_indent level +:+ "]"
  | PDict [] => "{}"
  | PDict ((k, x) :: d) =>
      "{" +:+ newline_indent (S level) +:+ quote (key_text k) +:+ ": "
      +:+ json_encode (S level) x
      +:+ (fix items (d : pydict) : string :=
             match d with
             | [] => EmptyString
             | (k', y) :: d' =>
                 "," +:+ newline_indent (S level) +:+ quote (key_text k') +:+ ": "
                 +:+ json_encode (S level) y +:+ items d'
             end) d
      +:+ newline_indent level +:+ "}"
  end.

End Encoder.

Section Decoder.
Variable float_of_text : string → float.

Definition is_ws (c : ascii) : bool :=
  let n := nat_of_ascii c in
  ((n =? 32) || (n =? 9) || (n =? 10) || (n =? 13))%nat.

Fixpoint skip_ws (s : string) : string :=
  match s with
  | EmptyString => EmptyString
  | String c rest => if is_ws c then skip_ws rest else s
  end.

Definition is_digit (c : ascii) : bool :=
  let n := nat_of_ascii c in ((48 <=? n) && (n <=? 57))%nat.

Definition hex_value (c : ascii) : option nat :=
  let n := nat_of_ascii c in
  if ((48 <=? n) && (n <=? 57))%nat then Some (n - 48)%nat
  else if ((97 <=? n) && (n <=? 102))%nat then Some (n - 87)%nat
  else if ((65 <=? n) && (n <=? 70))%nat then Some (n - 55)%nat
  else None.

(** The character a two-character escape stands for. *)
Definition unescape (c : ascii) : option ascii :=
  if Ascii.eqb c dquote then Some dquote
  else if Ascii.eqb c backslash then Some backslash
  else if Ascii.eqb c "/" then Some "/"%char
  else if Ascii.eqb c "b" then Some (ascii_of_nat 8)
  else if Ascii.eqb c "f" then Some (ascii_of_nat 12)
  else if Ascii.eqb c "n" then Some (ascii_of_nat 10)
  else if Ascii.eqb c "r" then Some (ascii_of_nat 13)
  else if Ascii.eqb c "t" then Some (ascii_of_nat 9)
  else None.

(** The rest of a string literal after its opening quote, and what
    follows its closing quote. *)
Fixpoint scan_string (s : string) : option (string * string) :=
  match s with
  | EmptyString => None
  | String c rest =>
      if Ascii.eqb c dquote then Some (EmptyString, rest)
      else if Ascii.eqb c backslash then
        match rest with
        | String e rest' =>
            if Ascii.eqb e "u" then
              match rest' with
              | String a (String b (String x (String y rest''))) =>
                  match hex_value a, hex_value b, hex_value x, hex_value y with
                  | Some 0%nat, Some 0%nat, Some h, Some l =>
                      match scan_string rest'' with
                      | Some (text, after_) =>
                          Some (String (ascii_of_nat (16 * h + l)) text, after_)
                      | None => None
                      end
                  | _, _, _, _ => None
                  end
              | _ => None
              end
            else
              match unescape e, scan_string rest' with
              | Some c', Some (text, after_) => Some (String c' text, after_)
              | _, _ => None
              end
        | EmptyString => None
        end
      else if (nat_of_ascii c <? 32)%nat then None
      else
        match scan_string rest with
        | Some (text, after_) => Some (String c text, after_)
        | None => None
        end
  end.

Fixpoint take_digits (s : string) : string * string :=
  match s with
  | String c rest =>
      if is_digit c then let (ds, r) := take_digits rest in (String c ds, r)
      else (EmptyString, s)
  | EmptyString => (EmptyString, EmptyString)
  end.

Definition digits_value (ds : string) : Z :=
  foldl (λ acc c, 10 * acc + Z.of_nat (nat_of_ascii c - 48)) 0
    (String.list_ascii_of_string ds).

(** [NUMBER_RE]: an integer part, then a fraction and an exponent if they
    are complete. *)
Definition scan_number (s : string) : option (pyval * string) :=
  let (sign, s1) :=
    match s with
    | String "-" r => ("-", r)
    | _ => (EmptyString, s)
    end in
  let (int_part, s2) :=
    match s1 with
    | String "0" r => ("0", r)
    | _ => take_digits s1
    end in
  if String.eqb int_part EmptyString then None
  else
    let (frac, s3) :=
      match s2 with
      | String "." r =>
          let (ds, r') := take_digits r in
          if String.eqb ds EmptyString then (EmptyString, s2) else ("." +:+ ds, r')
      | _ => (EmptyString, s2)
      end in
    let (expo, s4) :=
      match s3 with
      | String e r =>
          if Ascii.eqb e "e" || Ascii.eqb e "E" then
            let (sg, r1) :=
              match r with
              | String "+" r1 => ("+", r1)
              | String "-" r1 => ("-", r1)
              | _ => (EmptyString, r)
              end in
            let (ds, r2) := take_digits r1 in
            if String.eqb ds EmptyString then (EmptyString, s3)
            else (String e sg +:+ ds, r2)
          else (EmptyString, s3)
      | EmptyString => (EmptyString, s3)
      end in
    if String.eqb frac EmptyString && String.eqb expo EmptyString then
      Some (PInt (if String.eqb sign EmptyString then digits_value int_part
                  else - digits_value int_part), s4)
    else Some (PFloat (float_of_text (sign +:+ int_part +:+ frac +:+ expo)), s4).

(** The text after its first [n] characters. *)
Definition skip (n : nat) (s : string) : string :=
  String.substring n (String.length s - n) s.

(** [scan_once]: one value at the head of the text. *)
Fixpoint scan_value (fuel : nat) (s : string) : option (pyval * string) :=
  match fuel with
  | O => None
  | S fuel' =>
      match s with
      | EmptyString => None
      | String c rest =>
          if Ascii.eqb c dquote then
            match scan_string rest with
            | Some (text, r) => Some (PStr text, r)
            | None => None
            end
          else if Ascii.eqb c "{" then
            let r := skip_ws rest in
            match r with
            | String "}" r' => Some (PDict [], r')
            | _ =>
                (fix members (n : nat) (r : string) (acc : pydict) : option (pyval * string) :=
                   match n with
                   | O => None
                   | S n' =>
                       match r with
                       | String q r1 =>
                           if Ascii.eqb q dquote then
                             match scan_string r1 with
                             | Some (key, r2) =>
                                 match skip_ws r2 with
                                 | String ":" r3 =>
                                     match scan_value fuel' (skip_ws r3) with
                                     | Some (v, r4) =>
                                         let acc' := dict_store (PStr key) v acc in
                                         match skip_ws r4 with
                                         | String "}" r5 => Some (PDict acc', r5)
                                         | String "," r5 => members n' (skip_ws r5) acc'
                                         | _ => None
                                         end
                                     | None => None
                                     end
                                 | _ => None
                                 end
                             | None => None
                             end
                           else None
                       | EmptyString => None
                       end
                   end) (String.length r) r []
            end
          else if Ascii.eqb c "[" then
            let r := skip_ws rest in
            match r with
            | String "]" r' => Some (PList [], r')
            | _ =>
                (fix elements (n : nat) (r : string) (acc : list pyval) : option (pyval * string) :=
                   match n with
                   | O => None
                   | S n' =>
                       match scan_value fuel' r with
                       | Some (v, r1) =>
                           match skip_ws r1 with
                           | String "]" r2 => Some (PList (acc ++ [v]), r2)
                           | String "," r2 => elements n' (skip_ws r2) (acc ++ [v])
                           | _ => None
                           end
                       | None => None
                       end
                   end) (String.length r) r []
            end
          else if String.prefix "null" s then Some (PNone, skip 4 s)
          else if String.prefix "true" s then Some (PBool true, skip 4 s)
          else if String.prefix "false" s then Some (PBool false, skip 5 s)
          else
            match scan_number s with
            | Some r => Some r
            | None =>
                if String.prefix "NaN" s then Some (PFloat nan, skip 3 s)
                else if String.prefix "Infinity" s then Some (PFloat infinity, skip 8 s)
                else if String.prefix "-Infinity" s
                then Some (PFloat neg_infinity, skip 9 s)
                else None
            end
      end
  end.

(** [JSONDecoder.decode]: one value, with white space around it and
    nothing else. *)
Definition json_decode (s : string) : option pyval :=
  match scan_value (S (String.length s)) (skip_ws s) with
  | Some (v, rest) => if String.eqb (skip_ws rest) EmptyString then Some v else None
  | None => None
  end.

End Decoder.

Definition python_codec (float_repr : float → string) (float_of_text : string → float)
    : Codec :=
  {| json_dumps := json_encode float_repr 0; json_loads := json_decode float_of_text |}.

(** ** Examples to run *)

(** [waits] as a check that computes. *)
Definition waits_check `{Host} (w : world) (k : nat) : bool :=
  forallb
    (λ i, negb (timed_out (time_time (clock_reads w)) (time_time (clock_reads w + 1 + i)))
          && quiet (actor (sleeps w + i)))
    (seq 0 k).

(** The examples hold no float, so what stands for the two conversions of
    float text is never called. *)
Definition example_codec : Codec := python_codec (λ _, "0.0") (λ _, 0%float).

(** A clock that is read every two seconds. *)
Fixpoint steady (n : nat) : float :=
  match n with
  | O => 1000%float
  | S n' => PrimFloat.add (steady n') 2%float
  end.

(** A host whose external actor makes one move, during the sleep of round
    [at_round], and whose SDK runs the session [events]. *)
Definition example_host (at_round : nat) (m : move) (events : list sdk_event) : Host :=
  {| getpid := 4242;
     TASKS_DIR := "/home/user/.claude-bridge/tasks";
     isoformat_now := λ n, "2026-01-01T00:00:" +:+ pretty n;
     time_time := steady;
     actor := λ n, if (n =? at_round)%nat then m else Idle;
     wording := λ _, EmptyString;
     query := λ _ _, events |}.

(** Scenario A of the specification, with a second sub-question that
    lists no options. *)
Definition proceed : pyval :=
  PDict [(PStr "question", PStr "Proceed?");
         (PStr "options", PList [PDict [(PStr "label", PStr "Yes")];
                                 PDict [(PStr "label", PStr "No")]])].

Definition colour : pyval := PDict [(PStr "question", PStr "Colour?")].

Definition two_questions : pydict := [(PStr "questions", PList [proceed; colour])].

Definition no_questions : pydict := [(PStr "questions", PList [])].

(** Texts the external actor may put into [answer.json]. *)
Definition mapping_text : string :=
  @json_dumps example_codec
    (PDict [(PStr "answers", PDict [(PStr "Proceed?", PStr "No")])]).

Definition free_text : string :=
  @json_dumps example_codec (PDict [(PStr "text", PStr "Blue")]).

Definition other_text : string :=
  @json_dumps example_codec (PDict [(PStr "comment", PStr "later")]).

(** An answer file caught half written. *)
Definition torn_text : string := String.substring 0 14 mapping_text.

(** A directory nothing has been written to. *)
Definition blank : world :=
  {| task_dir := "/home/user/.claude-bridge/tasks/t1"; files := ∅; hist := [];
     stamps := 0; clock_reads := 0; sleeps := 0 |}.

(** A session in which the agent speaks, runs a tool, and breaks. *)
Definition before_fault : list sdk_event :=
  [Yields (AssistantMessage [TextBlock "Looking."; ToolUseBlock "Bash" (PDict [])]);
   Permission "Bash" [(PStr "command", PStr "ls")]].

Definition connection_lost : fault := Fault "RuntimeError" "connection lost" true.

Definition broken_host : Host :=
  example_host 0 Idle (before_fault ++ [Faults connection_lost]).

(** A session in which the agent asks its question, which is answered
    during the first sleep; and the world [run_bridge] leaves. *)
Definition asking_host : Host :=
  example_host 0 (Supply mapping_text) [Permission "AskUserQuestion" two_questions].

Definition asking_run : world :=
  (@run_bridge example_codec asking_host 5 "t1" "/work" "Fix it" blank).2.

(** ** The signal handler *)

(** [sys.exit(code)] raises [SystemExit], which derives from
    [BaseException] alone and whose text is the code. *)
Definition sys_exit {A : Type} (code : Z) : M A :=
  raise (Foreign (Fault "SystemExit" (pretty code) false)).

Section Main.
Context `{Codec} `{Host}.

(** The handler [main] installs for [SIGTERM] (lines 251 to 254), with
    the task id of the command line. *)
Definition sigterm_handler (task_id : string) : M unit :=
  write_status (joinpath TASKS_DIR task_id) "error" "Process terminated by signal" ;;
  sys_exit 1.

End Main.

(** ** The steps the bridge takes *)

(** The bridge works in three nested phases: it starts up, it follows the
    session, and within the session it waits for answers. *)
Inductive phase : Type :=
| Wait
| Session
| Startup.

(** The JSON artifacts a phase writes, each with its temporary file. *)
Definition artifacts (ph : phase) : list (string * string) :=
  [("status.json", "status.tmp"); ("question.json", "question.tmp")]
  ++ match ph with Wait => [] | _ => [("result.json", "result.tmp")] end
  ++ match ph with Startup => [("task.json", "task.tmp")] | _ => [] end.

(** The states a phase gives the status. *)
Definition tags (ph : phase) : list string :=
  ["waiting_for_answer"; "running"]
  ++ match ph with Wait => [] | _ => ["complete"; "error"] end
  ++ match ph with Startup => ["starting"] | _ => [] end.

Section Steps.
Context `{Codec} `{Host}.

(** What goes into [status.json] is a status record of this process. *)
Definition written (ph : phase) (name : string) (data : pyval) : Prop :=
  name = "status.json" →
  ∃ tag detail stamp, tag ∈ tags ph ∧ data = status_record tag detail stamp getpid.

(** The steps of a phase in the task directory [d]: the three steps of
    an atomic write of an artifact, the removal of the question or the
    answer, a move of the external actor, and, outside a wait, the creation
    and the growth of the log; the pid file is written at startup only. *)
Inductive bridge_step (ph : phase) (d : string)
    : gmap path string → fs_op → gmap path string → Prop :=
| step_open name tmpname fs :
    (name, tmpname) ∈ artifacts ph →
    bridge_step ph d fs (Truncate (d, tmpname)) (<[(d, tmpname) := EmptyString]> fs)
| step_fill name tmpname data fs :
    (name, tmpname) ∈ artifacts ph →
    written ph name data →
    bridge_step ph d fs (Extend (d, tmpname) (json_dumps data))
      (<[(d, tmpname) := json_dumps data]> fs)
| step_replace name tmpname data fs :
    (name, tmpname) ∈ artifacts ph →
    written ph name data →
    fs !! (d, tmpname) = Some (json_dumps data) →
    bridge_step ph d fs (Rename (d, tmpname) (d, name))
      (<[(d, name) := json_dumps data]> (delete (d, tmpname) fs))
| step_unlink name fs :
    name = "question.json" ∨ name = "answer.json" →
    bridge_step ph d fs (Unlink (d, name)) (delete (d, name) fs)
| step_actor m fs :
    bridge_step ph d fs (Actor m) (apply_move m d fs)
| step_touch fs :
    ph ≠ Wait →
    fs !! (d, "output.log") = None →
    bridge_step ph d fs (Touch (d, "output.log")) (<[(d, "output.log") := EmptyString]> fs)
| step_log text fs :
    ph ≠ Wait →
    bridge_step ph d fs (Extend (d, "output.log") text)
      (<[(d, "output.log") := default EmptyString (fs !! (d, "output.log")) +:+ text]> fs)
| step_pid_open fs :
    ph = Startup →
    bridge_step ph d fs (Truncate (d, "bridge.pid")) (<[(d, "bridge.pid") := EmptyString]> fs)
| step_pid fs :
    ph = Startup →
    bridge_step ph d fs (Extend (d, "bridge.pid") (pretty getpid))
      (<[(d, "bridge.pid") := pretty getpid]> fs).

(** ** What a run keeps *)

(** A step that leaves the text of the log where it is, at most with more
    after it. *)
Definition log_kept (d : string) (prev : gmap path string) (op : fs_op)
    (next : gmap path string) : Prop :=
  ∀ text, prev !! (d, "output.log") = Some text →
    ∃ more, next !! (d, "output.log") = Some (text +:+ more).




(** [status.json] holds a status record of this process with one of the
    five states. *)
Definition status_valid (d : string) (fs : gmap path string) : Prop :=
  ∃ tag detail stamp,
    tag ∈ tags Startup
    ∧ fs !! (d, "status.json") = Some (json_dumps (status_record tag detail stamp getpid)).

(** The pid file and the task metadata as [run_bridge] writes them when
    it starts in world [w]. *)
Definition marked (task_id workdir prompt : string) (w : world) (fs : gmap path string)
    : Prop :=
  let d := joinpath TASKS_DIR task_id in
  fs !! (d, "bridge.pid") = Some (pretty getpid)
  ∧ fs !! (d, "task.json")
    = Some (json_dumps (PDict [(PStr "task_id", PStr task_id);
                               (PStr "workdir", PStr workdir);
                               (PStr "prompt", PStr prompt);
                               (PStr "created_at", PStr (isoformat_now (stamps w)))])).

(** ** How a wait ends *)

(** What [handle_ask_user_question] leaves in the directory [d] for each
    way it can end.  When it returns, the result allows the tool and hands
    back the questions [qs], the files of the exchange are gone and the
    status is [running].  When it raises, either the answer file was there
    and could not be decoded, and then the question and the answer are
    still there and the status still says [waiting_for_answer], or the
    files are gone and the status is [running].  While it is still polling
    the question is out and the status says so. *)
Definition settled (d : string) (qs : pyval) (r : outcome permission) (w : world) : Prop :=
  match r with
  | Done p =>
      (∃ answers, p = PermissionResultAllow (updated qs answers))
      ∧ clean d (files w) ∧ status_is d "running" (files w)
  | Raised e =>
      (e = JSONDecodeError
       ∧ is_Some (files w !! (d, "question.json"))
       ∧ (∃ text, files w !! (d, "answer.json") = Some text ∧ json_loads text = None)
       ∧ status_is d "waiting_for_answer" (files w))
      ∨ (clean d (files w) ∧ status_is d "running" (files w))
  | Pending =>
      is_Some (files w !! (d, "question.json"))
      ∧ status_is d "waiting_for_answer" (files w)
  end.

(** ** The ways a question is resolved *)

(** A call of [handle_ask_user_question] in world [w] is resolved in round
    [k] of its wait in one of three ways: an answer file with an explicit
    mapping appears; an answer file with free text appears, the question
    set being empty or its first sub-question having a text; or the
    deadline passes, the question set being well formed. *)
Inductive resolution (input_data : pydict) (w : world) (k : nat) : Prop :=
| by_mapping text d mapping :
    answered w k text →
    json_loads text = Some (PDict d) →
    dict_lookup (PStr "answers") d = Some mapping →
    resolution input_data w k
| by_free_text text d free dq first rest :
    answered w k text →
    json_loads text = Some (PDict d) →
    dict_lookup (PStr "answers") d = None →
    dict_lookup (PStr "text") d = Some free →
    questions_of input_data = PList (PDict dq :: rest) →
    dict_lookup (PStr "question") dq = Some (PStr first) →
    resolution input_data w k
| by_free_text_unasked text d free :
    answered w k text →
    json_loads text = Some (PDict d) →
    dict_lookup (PStr "answers") d = None →
    dict_lookup (PStr "text") d = Some free →
    questions_of input_data = PList [] →
    resolution input_data w k
| by_timeout qs :
    expires w k →
    questions_of input_data = PList qs →
    forallb sub_question_ok qs = true →
    resolution input_data w k.

End Steps.

(** ** What the log receives *)

(** The line of a content block (lines 206 to 210). *)
Definition log_line (b : block) : string :=
  match b with
  | TextBlock text => text +:+ nl
  | ToolUseBlock name _ => "[Tool: " +:+ name +:+ "]" +:+ nl
  | OtherBlock => EmptyString
  end.

(** The lines of a message, and of the messages of a session, in order. *)
Definition message_lines (m : message) : string :=
  match m with
  | AssistantMessage content => foldr (λ b rest, log_line b +:+ rest) EmptyString content
  | _ => EmptyString
  end.

Definition transcript (events : list sdk_event) : string :=
  foldr (λ ev rest, match ev with
                    | Yields m => message_lines m +:+ rest
                    | _ => rest
                    end) EmptyString events.

(** An event that does not touch the status: a message other than a
    result message, or a permission request for a tool other than
    [AskUserQuestion]. *)
Definition silent (ev : sdk_event) : bool :=
  match ev with
  | Yields (ResultMessage _) => false
  | Yields _ => true
  | Permission tool_name _ => negb (String.eqb tool_name "AskUserQuestion")
  | Faults _ => false
  end.

(** ** More examples to run *)

(** A session in which the agent speaks and runs a tool, and which then
    ends; and the same session broken by an interrupt. *)
Definition speaking_host : Host := example_host 0 Idle before_fault.

Definition interrupt : fault := Fault "KeyboardInterrupt" EmptyString false.

Definition interrupted_host : Host :=
  example_host 0 Idle (before_fault ++ [Faults interrupt]).

(** A question set whose second sub-question has no text. *)
Definition untitled : pyval := PDict [(PStr "header", PStr "Scope")].

Definition untitled_questions : pydict := [(PStr "questions", PList [proceed; untitled])].

(** A directory in which an answer was left behind. *)
Definition stale : world :=
  {| task_dir := "/home/user/.claude-bridge/tasks/t1";
     files := {[ ("/home/user/.claude-bridge/tasks/t1", "answer.json") := mapping_text ]};
     hist := []; stamps := 0; clock_reads := 0; sleeps := 0 |}.

(** A directory in which a question and an answer were left behind. *)
Definition littered : world :=
  {| task_dir := "/home/user/.claude-bridge/tasks/t1";
     files := {[ ("/home/user/.claude-bridge/tasks/t1", "question.json") := other_text;
                 ("/home/user/.claude-bridge/tasks/t1", "answer.json") := mapping_text ]};
     hist := []; stamps := 0; clock_reads := 0; sleeps := 0 |}.

(** Data of the kind the bridge writes. *)
Definition sample_status : pyval := status_record "running" "Claude Code session active" "2026-01-01T00:00:2" 4242.

(** * Proofs *)

Section Logic.
Context {A B : Type}.
Implicit Types P : gmap path string → fs_op → gmap path string → Prop.

Lemma linked_app P h1 h2 fs0 :
  linked P h1 fs0 → linked P h2 (latest h1 fs0) →
  linked P (h2 ++ h1) fs0 ∧ latest (h2 ++ h1) fs0 = latest h2 (latest h1 fs0).
Proof.
  intros H1. induction h2 as [|s h2 IH]; simpl; intros H2; [done|].
  destruct H2 as [Hs H2]. destruct (IH H2) as [IH1 IH2].
  rewrite IH2. done.
Qed.

Lemma wp_ret P (a : A) (Q : outcome A → world → Prop) w :
  Q (Done a) w → wp P (ret a) Q w.
Proof. intros HQ. exists []. done. Qed.

Lemma wp_raise P e (Q : outcome A → world → Prop) w :
  Q (Raised e) w → wp P (raise e) Q w.
Proof. intros HQ. exists []. done. Qed.

Lemma wp_bind P (m : M A) (k : A → M B) (Q : outcome B → world → Prop) w :
  wp P m (after P k Q) w → wp P (bind m k) Q w.
Proof.
  unfold wp at 1. unfold bind, wp.
  destruct (m w) as [[a|e|] w1]; simpl; intros (new1 & Hh & Hl & Hf & HQ).
  - destruct HQ as (new2 & Hh2 & Hl2 & Hf2 & HQ2).
    rewrite Hf in Hl2. destruct (linked_app P new1 new2 (files w) Hl Hl2) as [? Hlat].
    exists (new2 ++ new1). rewrite Hh2, Hh, Hf2, Hf, Hlat, app_assoc. done.
  - exists new1. done.
  - exists new1. done.
Qed.

Lemma wp_mono P (m : M A) (Q Q' : outcome A → world → Prop) w :
  wp P m Q w → (∀ r w', Q r w' → Q' r w') → wp P m Q' w.
Proof. intros (new & ? & ? & ? & ?) HQ. exists new. eauto. Qed.

End Logic.

(** ** Rules for the primitive operations *)

Section Primitives.
Context `{Codec} `{Host}.
Context {A : Type}.
Implicit Types P : gmap path string → fs_op → gmap path string → Prop.
Implicit Types w : world.

(** A computation that takes no step on the files. *)
Lemma wp_still P (m : M A) (Q : outcome A → world → Prop) w r w' :
  m w = (r, w') → hist w' = hist w → files w' = files w → Q r w' → wp P m Q w.
Proof. intros Hm Hh Hf HQ. exists []. rewrite Hm. done. Qed.

(** A computation that takes one step. *)
Lemma wp_one P (m : M A) (Q : outcome A → world → Prop) w r op fs w' :
  m w = (r, record op fs w') → hist w' = hist w → files w' = files w →
  P (files w) op fs → Q r (record op fs w') → wp P m Q w.
Proof.
  intros Hm Hh Hf HP HQ. exists [(op, fs)]. rewrite Hm. simpl. rewrite Hh. done.
Qed.

Lemma wp_lift P (r : res A) (Q : outcome A → world → Prop) w :
  match r with inl e => Q (Raised e) w | inr a => Q (Done a) w end →
  wp P (lift r) Q w.
Proof. destruct r; intros; by eapply wp_still. Qed.

End Primitives.

Section FileRules.
Context `{Codec} `{Host}.
Implicit Types P : gmap path string → fs_op → gmap path string → Prop.
Implicit Types w : world.

Lemma wp_get_files P Q w : Q (Done (files w)) w → wp P get_files Q w.
Proof. intros. by eapply wp_still. Qed.

Lemma wp_get_task_dir P Q w : Q (Done (task_dir w)) w → wp P get_task_dir Q w.
Proof. intros. by eapply wp_still. Qed.

Lemma wp_task_path P name Q w : Q (Done (task_dir w, name)) w → wp P (task_path name) Q w.
Proof. intros. by eapply wp_still. Qed.

Lemma wp_exists P (p : path) Q w :
  Q (Done (bool_decide (is_Some (files w !! p)))) w → wp P (exists_ p) Q w.
Proof. intros. by eapply wp_still. Qed.

Lemma wp_now_isoformat P Q w :
  Q (Done (isoformat_now (stamps w))) (next_stamp w) → wp P now_isoformat Q w.
Proof. intros. by eapply wp_still. Qed.

Lemma wp_time_now P Q w :
  Q (Done (time_time (clock_reads w))) (next_clock_read w) → wp P time_now Q w.
Proof. intros. by eapply wp_still. Qed.

Lemma wp_read_text P (p : path) Q w :
  match files w !! p with
  | Some text => Q (Done text) w
  | None => Q (Raised (FileNotFoundError p.1 p.2)) w
  end → wp P (read_text p) Q w.
Proof.
  intros HQ. destruct (files w !! p) eqn:E;
    (eapply wp_still; [unfold read_text, bind; simpl; rewrite E; reflexivity|done..]).
Qed.

Lemma wp_commit P op fs Q w :
  P (files w) op fs → Q (Done tt) (record op fs w) → wp P (commit op fs) Q w.
Proof. intros. by eapply wp_one. Qed.

Lemma wp_extend P (p : path) text Q w :
  let fs := <[p := default EmptyString (files w !! p) +:+ text]> (files w) in
  P (files w) (Extend p text) fs → Q (Done tt) (record (Extend p text) fs w) →
  wp P (extend p text) Q w.
Proof. intros. by eapply wp_one. Qed.

Lemma wp_write_text P (p : path) text Q w :
  let fs1 := <[p := EmptyString]> (files w) in
  let fs2 := <[p := text]> fs1 in
  P (files w) (Truncate p) fs1 → P fs1 (Extend p text) fs2 →
  Q (Done tt) (record (Extend p text) fs2 (record (Truncate p) fs1 w)) →
  wp P (write_text p text) Q w.
Proof.
  intros fs1 fs2 H1 H2 HQ. unfold write_text.
  apply wp_bind, wp_get_files. simpl.
  apply wp_bind, wp_commit; [done|]. simpl.
  apply wp_extend; simpl; rewrite lookup_insert_eq; done.
Qed.

Lemma wp_rename P (src dst : path) Q w :
  match files w !! src with
  | Some text =>
      let fs := <[dst := text]> (delete src (files w)) in
      P (files w) (Rename src dst) fs ∧ Q (Done tt) (record (Rename src dst) fs w)
  | None => Q (Raised (FileNotFoundError src.1 src.2)) w
  end → wp P (rename src dst) Q w.
Proof.
  intros HQ. destruct (files w !! src) eqn:E.
  - destruct HQ. eapply wp_one; [unfold rename, bind; simpl; rewrite E; reflexivity|done..].
  - eapply wp_still; [unfold rename, bind; simpl; rewrite E; reflexivity|done..].
Qed.

Lemma wp_unlink P (p : path) (missing_ok : bool) Q w :
  match files w !! p with
  | Some _ =>
      P (files w) (Unlink p) (delete p (files w))
      ∧ Q (Done tt) (record (Unlink p) (delete p (files w)) w)
  | None =>
      Q (if missing_ok then Done tt else Raised (FileNotFoundError p.1 p.2)) w
  end → wp P (unlink p missing_ok) Q w.
Proof.
  intros HQ. destruct (files w !! p) eqn:E.
  - destruct HQ. eapply wp_one; [unfold unlink, bind; simpl; rewrite E; reflexivity|done..].
  - destruct missing_ok;
      (eapply wp_still; [unfold unlink, bind; simpl; rewrite E; reflexivity|done..]).
Qed.

Lemma wp_touch P (p : path) Q w :
  match files w !! p with
  | Some _ => Q (Done tt) w
  | None =>
      P (files w) (Touch p) (<[p := EmptyString]> (files w))
      ∧ Q (Done tt) (record (Touch p) (<[p := EmptyString]> (files w)) w)
  end → wp P (touch p) Q w.
Proof.
  intros HQ. destruct (files w !! p) eqn:E.
  - eapply wp_still; [unfold touch, bind; simpl; rewrite E; reflexivity|done..].
  - destruct HQ. eapply wp_one; [unfold touch, bind; simpl; rewrite E; reflexivity|done..].
Qed.

Lemma wp_sleep P seconds Q w :
  let m := actor (sleeps w) in
  let fs := apply_move m (task_dir w) (files w) in
  P (files w) (Actor m) fs → Q (Done tt) (next_sleep (record (Actor m) fs w)) →
  wp P (sleep seconds) Q w.
Proof.
  intros m fs HP HQ. exists [(Actor m, fs)]. done.
Qed.

Lemma wp_set_task_dir P dir Q w :
  Q (Done tt) {| task_dir := dir; files := files w; hist := hist w;
                 stamps := stamps w; clock_reads := clock_reads w;
                 sleeps := sleeps w |} →
  wp P (set_task_dir dir) Q w.
Proof. intros. by eapply wp_still. Qed.

(** *** The bridge's own helpers *)

Lemma wp_write_json_atomic P dir name tmpname data Q w :
  with_suffix (dir, name) ".tmp" = ok (dir, tmpname) →
  replacing P dir name tmpname (json_dumps data) (files w) →
  Q (Done tt) (replaced dir name tmpname (json_dumps data) w) →
  wp P (write_json_atomic (dir, name) data) Q w.
Proof.
  intros Hs (H1 & H2 & H3) HQ. unfold write_json_atomic.
  apply wp_bind, wp_lift. rewrite Hs. simpl.
  apply wp_bind, wp_write_text; [done..|]. simpl.
  apply wp_rename. simpl. rewrite lookup_insert_eq. done.
Qed.

Lemma wp_write_status P dir status detail Q w :
  let text := json_dumps (status_record status detail (isoformat_now (stamps w)) getpid) in
  replacing P dir "status.json" "status.tmp" text (files w) →
  Q (Done tt) (replaced dir "status.json" "status.tmp" text (next_stamp w)) →
  wp P (write_status dir status detail) Q w.
Proof.
  intros text HP HQ. unfold write_status.
  apply wp_bind, wp_now_isoformat. simpl.
  by apply (wp_write_json_atomic _ _ _ "status.tmp").
Qed.

Lemma wp_read_json P (p : path) Q w :
  match files w !! p with
  | Some text =>
      match json_loads text with
      | Some v => Q (Done v) w
      | None => Q (Raised JSONDecodeError) w
      end
  | None => Q (Done PNone) w
  end → wp P (read_json p) Q w.
Proof.
  intros HQ. unfold read_json. apply wp_bind, wp_exists. simpl.
  destruct (files w !! p) as [text|] eqn:E; simpl.
  - apply wp_bind, wp_read_text. rewrite E. simpl.
    destruct (json_loads text); [by apply wp_ret | by apply wp_raise].
  - by apply wp_ret.
Qed.

Lemma files_replaced dir name tmpname text w :
  files (replaced dir name tmpname text w)
  = <[(dir, name) := text]> (delete (dir, tmpname) (files w)).
Proof.
  unfold replaced. simpl. f_equal.
  by rewrite delete_insert_eq, delete_insert_eq.
Qed.

Lemma bind_done {A B} (m : M A) (k : A → M B) w a w' :
  m w = (Done a, w') → bind m k w = k a w'.
Proof. intros Hm. unfold bind. by rewrite Hm. Qed.

Lemma write_json_atomic_run dir name tmpname data w :
  with_suffix (dir, name) ".tmp" = ok (dir, tmpname) →
  write_json_atomic (dir, name) data w
  = (Done tt, replaced dir name tmpname (json_dumps data) w).
Proof.
  intros Hs. unfold write_json_atomic. rewrite Hs. simpl.
  unfold bind, write_text, extend, rename, bind, get_files, commit. simpl.
  rewrite !lookup_insert_eq. done.
Qed.

Lemma write_status_run dir status detail w :
  write_status dir status detail w
  = (Done tt,
     replaced dir "status.json" "status.tmp"
       (json_dumps (status_record status detail (isoformat_now (stamps w)) getpid))
       (next_stamp w)).
Proof.
  unfold write_status. erewrite bind_done by reflexivity.
  by rewrite (write_json_atomic_run _ _ "status.tmp").
Qed.

Lemma unlink_run_some (p : path) missing_ok w text :
  files w !! p = Some text →
  unlink p missing_ok w = (Done tt, record (Unlink p) (delete p (files w)) w).
Proof. intros E. unfold unlink, bind, get_files. by rewrite E. Qed.

Lemma replacing_any dir name tmpname text fs :
  replacing any_step dir name tmpname text fs.
Proof. done. Qed.

End FileRules.

(** ** One wait, round by round *)

Section Polling.
Context `{Codec} `{Host}.
Implicit Types w : world.

(** A round that finds neither an answer nor the deadline passed sleeps
    and leaves the rest to the next round. *)
Lemma poll_round_idle fuel qs d st w :
  task_dir w = d →
  files w !! (d, "answer.json") = None →
  timed_out st (time_time (clock_reads w)) = false →
  poll (S fuel) qs (d, "answer.json") st w
  = poll fuel qs (d, "answer.json") st
      (next_sleep (record (Actor (actor (sleeps w)))
                     (apply_move (actor (sleeps w)) d (files w))
                     (next_clock_read w))).
Proof.
  intros Hd Ha Ht. cbn [poll]. unfold bind at 1. unfold exists_, bind, get_files, ret.
  rewrite Ha. simpl. unfold time_now. rewrite Ht. unfold sleep. simpl. rewrite Hd. done.
Qed.

Lemma poll_waits k : ∀ fuel qs d st w,
  task_dir w = d →
  files w !! (d, "answer.json") = None →
  (∀ i, (i < k)%nat →
     timed_out st (time_time (clock_reads w + i)) = false
     ∧ quiet (actor (sleeps w + i)) = true) →
  ∃ w', poll (k + fuel) qs (d, "answer.json") st w = poll fuel qs (d, "answer.json") st w'
        ∧ task_dir w' = d
        ∧ files w' !! (d, "answer.json") = None
        ∧ sleeps w' = (sleeps w + k)%nat
        ∧ clock_reads w' = (clock_reads w + k)%nat.
Proof.
  induction k as [|k IH]; intros fuel qs d st w Hd Ha Hk.
  - exists w. rewrite !Nat.add_0_r. done.
  - destruct (Hk 0%nat ltac:(lia)) as [Ht Hq]. rewrite Nat.add_0_r in Ht, Hq.
    change (S k + fuel)%nat with (S (k + fuel)).
    rewrite (poll_round_idle _ _ d) by done.
    set (w1 := next_sleep _).
    destruct (IH fuel qs d st w1) as (w' & Hp & ? & ? & Hs & Hc).
    + done.
    + simpl. destruct (actor (sleeps w)); simpl in *; [done|done|].
      by rewrite lookup_delete_eq.
    + intros i Hi. simpl.
      replace (S (clock_reads w + i)) with (clock_reads w + S i)%nat by lia.
      replace (S (sleeps w + i)) with (sleeps w + S i)%nat by lia.
      apply Hk. lia.
    + exists w'. simpl in Hs, Hc. repeat split; try done; lia.
Qed.

Lemma handle_unfold fuel input_data w :
  handle_ask_user_question fuel input_data w
  = poll fuel (questions_of input_data) (task_dir w, "answer.json")
      (time_time (clock_reads w)) (listening input_data w).
Proof.
  unfold handle_ask_user_question.
  erewrite bind_done by reflexivity.
  erewrite bind_done by reflexivity.
  erewrite bind_done by (by apply (write_json_atomic_run _ _ "question.tmp")).
  erewrite bind_done by reflexivity.
  erewrite bind_done by apply write_status_run.
  erewrite bind_done by reflexivity.
  erewrite bind_done by reflexivity.
  fold (questions_of input_data). simpl task_dir.
  fold (asked input_data w).
  unfold listening.
  destruct (files (asked input_data w) !! (task_dir w, "answer.json")) as [old|] eqn:E.
  - rewrite bool_decide_eq_true_2 by eauto.
    erewrite bind_done by (by eapply unlink_run_some).
    by erewrite bind_done by reflexivity.
  - rewrite bool_decide_eq_false_2 by (by intros [? ?]).
    erewrite bind_done by reflexivity.
    by erewrite bind_done by reflexivity.
Qed.

Lemma listening_facts input_data w :
  let w0 := listening input_data w in
  task_dir w0 = task_dir w
  ∧ files w0 !! (task_dir w, "answer.json") = None
  ∧ sleeps w0 = sleeps w
  ∧ clock_reads w0 = S (clock_reads w).
Proof.
  unfold listening.
  destruct (files (asked input_data w) !! (task_dir w, "answer.json")) eqn:E;
    simpl; rewrite ?lookup_delete_eq; done.
Qed.

Lemma asked_hist input_data w :
  let d := task_dir w in
  ∃ early qtext stext,
    hist (asked input_data w)
    = (Rename (d, "status.tmp") (d, "status.json"), files (asked input_data w))
      :: early ++ hist w
    ∧ early.*1 = [Extend (d, "status.tmp") stext;
                  Truncate (d, "status.tmp");
                  Rename (d, "question.tmp") (d, "question.json");
                  Extend (d, "question.tmp") qtext;
                  Truncate (d, "question.tmp")].
Proof. intros d. unfold asked, replaced. simpl. by eexists [_; _; _; _; _], _, _. Qed.

Lemma listening_hist input_data w :
  let answer_path := (task_dir w, "answer.json") in
  hist (listening input_data w)
  = match files (asked input_data w) !! answer_path with
    | Some _ => [(Unlink answer_path, delete answer_path (files (asked input_data w)))]
    | None => []
    end ++ hist (asked input_data w).
Proof. unfold listening. by case_match. Qed.

Lemma wp_outcome {A} P (m : M A) Q w : wp P m Q w → Q (m w).1 (m w).2.
Proof. by intros (? & ? & ? & ? & ?). Qed.

(** A round that finds the answer file. *)
Lemma poll_round_observed fuel qs d st w text :
  task_dir w = d →
  files w !! (d, "answer.json") = Some text →
  (poll (S fuel) qs (d, "answer.json") st w).1 = observe qs text.
Proof.
  intros Hd Ha.
  apply (wp_outcome any_step _ (λ r _, r = observe qs text)).
  cbn [poll]. apply wp_bind, wp_exists. rewrite Ha. simpl.
  apply wp_bind, wp_read_json. rewrite Ha. unfold observe.
  destruct (json_loads text) as [v|]; [|done]. simpl.
  apply wp_bind, wp_task_path. simpl.
  apply wp_bind, wp_unlink.
  assert (∀ w', wp any_step
     (_ <- unlink (d, "answer.json") true;;
      dir <- get_task_dir;;
      _ <- write_status dir "running" "Received answer, continuing";;
      answers <- lift (resolve_answers qs v);;
      ret (PermissionResultAllow (updated qs answers)))
     (λ r _, r = match resolve_answers qs v with
                 | inl e => Raised e
                 | inr answers => Done (PermissionResultAllow (updated qs answers))
                 end) w') as Hrest.
  { intros w'. apply wp_bind, wp_unlink.
    assert (∀ w'', after any_step
              (λ _ : (),
                 dir <- get_task_dir;;
                 _ <- write_status dir "running" "Received answer, continuing";;
                 answers <- lift (resolve_answers qs v);;
                 ret (PermissionResultAllow (updated qs answers)))
              (λ r _, r = match resolve_answers qs v with
                          | inl e => Raised e
                          | inr answers => Done (PermissionResultAllow (updated qs answers))
                          end) (Done tt) w'') as Hrest.
    { intros w''. simpl. apply wp_bind, wp_get_task_dir. simpl.
      apply wp_bind, wp_write_status; [done|]. simpl.
      apply wp_bind, wp_lift. destruct (resolve_answers qs v); simpl; [done|].
      by apply wp_ret. }
    destruct (files w' !! (d, "answer.json")); [split; [done|]|]; apply Hrest. }
  destruct (files w !! (task_dir w, "question.json")); [split; [done|]|]; simpl; apply Hrest.
Qed.

(** A round that finds no answer file and the deadline passed. *)
Lemma poll_round_expired fuel qs d st w :
  task_dir w = d →
  files w !! (d, "answer.json") = None →
  timed_out st (time_time (clock_reads w)) = true →
  (poll (S fuel) qs (d, "answer.json") st w).1 = expire qs.
Proof.
  intros Hd Ha Ht.
  apply (wp_outcome any_step _ (λ r _, r = expire qs)).
  cbn [poll]. apply wp_bind, wp_exists. rewrite Ha. simpl.
  apply wp_bind, wp_time_now. simpl. rewrite Ht.
  apply wp_bind, wp_task_path. simpl.
  assert (∀ w', after any_step
            (λ _ : (),
               dir <- get_task_dir;;
               _ <- write_status dir "running" "Answer timed out, continuing with default";;
               qs0 <- lift (py_iter qs);;
               answers <- lift (default_answers qs0 []);;
               ret (PermissionResultAllow (updated qs (PDict answers))))
            (λ r _, r = expire qs) (Done tt) w') as Hrest.
  { intros w'. simpl. apply wp_bind, wp_get_task_dir. simpl.
    apply wp_bind, wp_write_status; [done|]. simpl. unfold expire.
    apply wp_bind, wp_lift. destruct (py_iter qs) as [|l]; simpl; [done|].
    apply wp_bind, wp_lift. destruct (default_answers l []); simpl; [done|].
    by apply wp_ret. }
  apply wp_bind, wp_unlink. simpl.
  destruct (files w !! (task_dir w, "question.json")); [split; [done|]|]; apply Hrest.
Qed.

End Polling.

(** ** Dicts with string keys *)

Section Dicts.
Implicit Types d : pydict.

Lemma key_eqb_str x s : key_eqb x (PStr s) = true ↔ x = PStr s.
Proof.
  destruct x; simpl; try (split; [discriminate|intros [=]]).
  rewrite String.eqb_eq. split; [by intros ->|by intros [= ->]].
Qed.

Lemma dict_lookup_store_eq s v d :
  dict_lookup (PStr s) (dict_store (PStr s) v d) = Some v.
Proof.
  induction d as [|[k x] d IH]; simpl.
  - by rewrite String.eqb_refl.
  - destruct (key_eqb k (PStr s)) eqn:E; simpl; rewrite E; done.
Qed.

Lemma dict_lookup_store_ne s t v d :
  s ≠ t → dict_lookup (PStr t) (dict_store (PStr s) v d) = dict_lookup (PStr t) d.
Proof.
  intros Hne. induction d as [|[k x] d IH]; simpl.
  - destruct (String.eqb s t) eqn:E; [|done]. by apply String.eqb_eq in E.
  - destruct (key_eqb k (PStr s)) eqn:E; simpl.
    + apply key_eqb_str in E as ->. simpl.
      destruct (String.eqb s t) eqn:E'; [|done]. by apply String.eqb_eq in E'.
    + by rewrite IH.
Qed.

Lemma dict_store_keys k v d key : key ∈ (dict_store k v d).*1 → key = k ∨ key ∈ d.*1.
Proof.
  induction d as [|[k' x] d IH]; simpl.
  - rewrite list_elem_of_singleton. auto.
  - destruct (key_eqb k' k); simpl; rewrite !elem_of_cons; [tauto|].
    intros [->|Hin]; [tauto|]. destruct (IH Hin); tauto.
Qed.

Lemma dict_lookup_contains k d :
  existsb (λ kv, key_eqb kv.1 k) d = bool_decide (is_Some (dict_lookup k d)).
Proof.
  induction d as [|[k' x] d IH]; simpl; [done|].
  by destruct (key_eqb k' k).
Qed.

Lemma py_contains_dict s d :
  py_contains s (PDict d) = ok (bool_decide (is_Some (dict_lookup (PStr s) d))).
Proof. unfold py_contains. by rewrite dict_lookup_contains. Qed.

Lemma dict_lookup_truthy k d v : dict_lookup k d = Some v → truthy (PDict d) = true.
Proof. by destruct d. Qed.

End Dicts.

(** ** The defaults of a well-formed question set *)

Section Defaults.
Context `{Codec}.
Implicit Types acc : pydict.

Lemma default_answers_wf qs : ∀ acc,
  forallb sub_question_ok qs = true →
  default_answers qs acc = ok (foldl bind_default acc qs).
Proof.
  induction qs as [|q qs IH]; intros acc Hwf; [done|].
  simpl in Hwf. apply andb_prop in Hwf as [Hq Hqs].
  cbn [default_answers foldl]. rewrite <- (IH _ Hqs). clear IH Hqs.
  unfold bind_default, expected_default, text_of, options_of.
  destruct q as [| | | | |?|d]; try discriminate. simpl in *.
  destruct (dict_lookup (PStr "question") d) as [[| | | |text| |]|]; try discriminate.
  destruct (dict_lookup (PStr "options") d) as [[| | | | |opts|]|]; try discriminate;
    simpl; [|done].
  destruct opts as [|o opts]; simpl; [done|].
  simpl in Hq. apply andb_prop in Hq as [Ho _].
  destruct o as [| | | | | |od]; try discriminate. simpl in *.
  destruct (dict_lookup (PStr "label") od); [done|].
  by rewrite bool_decide_eq_false_2 in Ho by (by intros [? ?]).
Qed.

Lemma foldl_bind_default_other t qs : ∀ acc,
  (∀ q, q ∈ qs → text_of q ≠ t) →
  dict_lookup (PStr t) (foldl bind_default acc qs) = dict_lookup (PStr t) acc.
Proof.
  induction qs as [|q qs IH]; intros acc Hne; [done|]. simpl.
  rewrite IH by (intros; apply Hne; by right).
  apply dict_lookup_store_ne, Hne. by left.
Qed.

Lemma foldl_bind_default_lookup qs : ∀ acc i q,
  qs !! i = Some q →
  (∀ j q', (i < j)%nat → qs !! j = Some q' → text_of q' ≠ text_of q) →
  dict_lookup (PStr (text_of q)) (foldl bind_default acc qs) = Some (expected_default q).
Proof.
  induction qs as [|q0 qs IH]; intros acc i q Hi Hlater; [done|].
  destruct i as [|i]; simpl in *.
  - injection Hi as ->.
    rewrite foldl_bind_default_other.
    + apply dict_lookup_store_eq.
    + intros q' [j Hj]%list_elem_of_lookup. apply (Hlater (S j)); [lia|done].
  - apply (IH _ i); [done|]. intros j q' Hj. apply (Hlater (S j)). lia.
Qed.

Lemma foldl_bind_default_keys qs : ∀ acc key,
  key ∈ (foldl bind_default acc qs).*1 →
  key ∈ acc.*1 ∨ ∃ q, q ∈ qs ∧ key = PStr (text_of q).
Proof.
  induction qs as [|q0 qs IH]; intros acc key Hin; simpl in *; [by left|].
  destruct (IH _ _ Hin) as [Hk|(q & ? & ?)].
  - apply dict_store_keys in Hk as [->|?]; [|by left].
    right. exists q0. split; [by left|done].
  - right. exists q. split; [by right|done].
Qed.

End Defaults.

(** ** The two ways a wait ends *)

Section Waits.
Context `{Codec} `{Host}.

Lemma handle_answered input_data w k text extra :
  answered w k text →
  (handle_ask_user_question (k + (2 + extra)) input_data w).1
  = observe (questions_of input_data) text.
Proof.
  intros (Hw & Ht & Ha). rewrite handle_unfold.
  destruct (listening_facts input_data w) as (Hd & Hf & Hs & Hc).
  destruct (poll_waits k (2 + extra) (questions_of input_data) (task_dir w)
              (time_time (clock_reads w)) (listening input_data w))
    as (w1 & -> & Hd1 & Hf1 & Hs1 & Hc1); [done|done| |].
  { intros i Hi. rewrite Hs, Hc.
    replace (S (clock_reads w) + i)%nat with (clock_reads w + 1 + i)%nat by lia.
    apply (Hw i Hi). }
  rewrite Hs in Hs1. rewrite Hc in Hc1.
  change (2 + extra)%nat with (S (S extra)).
  rewrite (poll_round_idle _ _ (task_dir w)); [|done|done|].
  - apply poll_round_observed; [by simpl|].
    simpl. rewrite Hs1, Ha. simpl. by rewrite lookup_insert_eq.
  - rewrite Hc1. by replace (S (clock_reads w) + k)%nat with (clock_reads w + 1 + k)%nat by lia.
Qed.

Lemma handle_expired input_data w k extra :
  expires w k →
  (handle_ask_user_question (k + S extra) input_data w).1
  = expire (questions_of input_data).
Proof.
  intros (Hw & Ht). rewrite handle_unfold.
  destruct (listening_facts input_data w) as (Hd & Hf & Hs & Hc).
  destruct (poll_waits k (S extra) (questions_of input_data) (task_dir w)
              (time_time (clock_reads w)) (listening input_data w))
    as (w1 & -> & Hd1 & Hf1 & Hs1 & Hc1); [done|done| |].
  { intros i Hi. rewrite Hs, Hc.
    replace (S (clock_reads w) + i)%nat with (clock_reads w + 1 + i)%nat by lia.
    apply (Hw i Hi). }
  apply poll_round_expired; [done|done|]. rewrite Hc1, Hc.
  by replace (S (clock_reads w) + k)%nat with (clock_reads w + 1 + k)%nat by lia.
Qed.

End Waits.

(** ** Both files are gone when the callback returns *)

Section Cleanup.
Context `{Codec} `{Host}.

Lemma keeps_gone d prev op next :
  next !! (d, "question.json") = None → keeps_waiting d prev op next.
Proof. intros Hq _. by left. Qed.

Lemma keeps_actor d prev m : keeps_waiting d prev (Actor m) (apply_move m d prev).
Proof.
  intros [Hq|(detail & stamp & pid & Hs)]; [left|right; exists detail, stamp, pid];
    destruct m; simpl; try done;
    try (by rewrite lookup_insert_ne by (intros [=]));
    by rewrite lookup_delete_ne by (intros [=]).
Qed.

Lemma keeps_unlink_answer d prev :
  keeps_waiting d prev (Unlink (d, "answer.json")) (delete (d, "answer.json") prev).
Proof.
  intros [Hq|(detail & stamp & pid & Hs)]; [left|right; exists detail, stamp, pid];
    by rewrite lookup_delete_ne by (intros [=]).
Qed.

Lemma replacing_keeps d text fs :
  fs !! (d, "question.json") = None →
  replacing (keeps_waiting d) d "status.json" "status.tmp" text fs.
Proof.
  intros Hq. repeat split; apply keeps_gone;
    repeat first [rewrite lookup_insert_ne by (intros [=])
                 |rewrite lookup_delete_ne by (intros [=])]; done.
Qed.

Lemma clean_replaced_status d text w :
  clean d (files w) → clean d (files (replaced d "status.json" "status.tmp" text w)).
Proof.
  intros [Hq Ha]. rewrite files_replaced.
  split; (rewrite lookup_insert_ne by (intros [=]));
    (rewrite lookup_delete_ne by (intros [=])); done.
Qed.

Lemma wp_status_then_clean d status detail (k : M permission) w :
  task_dir w = d →
  clean d (files w) →
  (∀ w', clean d (files w') → wp (keeps_waiting d) k (returns_clean d) w') →
  wp (keeps_waiting d) (dir <- get_task_dir;; _ <- write_status dir status detail;; k)
    (returns_clean d) w.
Proof.
  intros Hd Hc Hk. apply wp_bind, wp_get_task_dir. simpl. rewrite Hd.
  apply wp_bind, wp_write_status; [apply replacing_keeps, Hc|]. simpl.
  apply Hk. by apply clean_replaced_status.
Qed.

Lemma poll_returns_clean fuel : ∀ qs d st w,
  task_dir w = d →
  wp (keeps_waiting d) (poll fuel qs (d, "answer.json") st) (returns_clean d) w.
Proof.
  induction fuel as [|fuel IH]; intros qs d st w Hd.
  { by eapply wp_still. }
  cbn [poll]. apply wp_bind, wp_exists.
  destruct (files w !! (d, "answer.json")) as [text|] eqn:Ea; simpl.
  - apply wp_bind, wp_read_json. rewrite Ea.
    destruct (json_loads text) as [v|]; [|done]. simpl.
    apply wp_bind, wp_task_path. simpl. rewrite Hd.
    assert (∀ w1, task_dir w1 = d → files w1 !! (d, "question.json") = None →
              after (keeps_waiting d)
                (λ _ : (),
                   _ <- unlink (d, "answer.json") true;;
                   dir <- get_task_dir;;
                   _ <- write_status dir "running" "Received answer, continuing";;
                   answers <- lift (resolve_answers qs v);;
                   ret (PermissionResultAllow (updated qs answers)))
                (returns_clean d) (Done tt) w1) as Hrest.
    { intros w1 Hd1 Hq1. simpl. apply wp_bind, wp_unlink.
      assert (∀ w2, task_dir w2 = d → clean d (files w2) →
                after (keeps_waiting d)
                  (λ _ : (),
                     dir <- get_task_dir;;
                     _ <- write_status dir "running" "Received answer, continuing";;
                     answers <- lift (resolve_answers qs v);;
                     ret (PermissionResultAllow (updated qs answers)))
                  (returns_clean d) (Done tt) w2) as Hrest.
      { intros w2 Hd2 Hc2. simpl. apply wp_status_then_clean; [done..|].
        intros w3 Hc3. apply wp_bind, wp_lift.
        destruct (resolve_answers qs v); simpl; [done|]. by apply wp_ret. }
      destruct (files w1 !! (d, "answer.json")) eqn:Ea1.
      - split; [apply keeps_unlink_answer|]. apply Hrest; [done|]. simpl.
        split; [by rewrite lookup_delete_ne by (intros [=])|by rewrite lookup_delete_eq].
      - by apply Hrest. }
    apply wp_bind, wp_unlink.
    destruct (files w !! (d, "question.json")) eqn:Eq.
    + split; [apply keeps_gone, lookup_delete_eq|].
      apply Hrest; [done|]. simpl. by rewrite lookup_delete_eq.
    + by apply Hrest.
  - apply wp_bind, wp_time_now. simpl.
    destruct (timed_out st (time_time (clock_reads w))).
    + apply wp_bind, wp_task_path. simpl. rewrite Hd.
      assert (∀ w1, task_dir w1 = d → clean d (files w1) →
                after (keeps_waiting d)
                  (λ _ : (),
                     dir <- get_task_dir;;
                     _ <- write_status dir "running"
                            "Answer timed out, continuing with default";;
                     qs0 <- lift (py_iter qs);;
                     answers <- lift (default_answers qs0 []);;
                     ret (PermissionResultAllow (updated qs (PDict answers))))
                  (returns_clean d) (Done tt) w1) as Hrest.
      { intros w1 Hd1 Hc1. simpl. apply wp_status_then_clean; [done..|].
        intros w2 Hc2. apply wp_bind, wp_lift.
        destruct (py_iter qs) as [|l]; simpl; [done|].
        apply wp_bind, wp_lift. destruct (default_answers l []); simpl; [done|].
        by apply wp_ret. }
      apply wp_bind, wp_unlink. simpl.
      destruct (files w !! (d, "question.json")) eqn:Eq.
      * split; [apply keeps_gone, lookup_delete_eq|]. apply Hrest; [done|]. simpl.
        split; [by rewrite lookup_delete_eq|by rewrite lookup_delete_ne by (intros [=])].
      * by apply Hrest.
    + apply wp_bind, wp_sleep; [simpl; rewrite Hd; apply keeps_actor|]. simpl. by apply IH.
Qed.

(** An invariant that every step keeps holds after every step. *)
Lemma linked_invariant (I : gmap path string → Prop) new fs0 :
  linked (λ prev _ next, I prev → I next) new fs0 → I fs0 →
  Forall (λ s, I s.2) new ∧ I (latest new fs0).
Proof.
  induction new as [|s new IH]; simpl; [done|].
  intros [Hs Hnew] Hinit. destruct (IH Hnew Hinit) as [Hall Hlast].
  split; [constructor|]; auto.
Qed.

End Cleanup.

(** ** Every write of an artifact is atomic *)

#[local] Arguments resolve_answers : simpl never.
#[local] Arguments default_answers : simpl never.
#[local] Arguments py_iter : simpl never.

Section Atomic.
Context `{Codec} `{Host}.
Implicit Types w : world.

Lemma wp_seq_in_dir {A B} P (m : M A) (k : A → M B) d w :
  wp P m (in_dir d) w →
  (∀ a w', task_dir w' = d → wp P (k a) (in_dir d) w') →
  wp P (bind m k) (in_dir d) w.
Proof.
  intros Hm Hk. apply wp_bind. eapply wp_mono; [exact Hm|].
  intros [a|e|] w' Hd; simpl; [by apply Hk|done|done].
Qed.

Lemma wp_try_except_in_dir {A} P (body : M A) handler d w :
  wp P body (in_dir d) w →
  (∀ e w', task_dir w' = d → wp P (handler e) (in_dir d) w') →
  wp P (try_except body handler) (in_dir d) w.
Proof.
  intros (new1 & Hh & Hl & Hf & Hd) Hk. unfold try_except, wp.
  destruct (body w) as [[a|e|] w1]; simpl in *; try (by exists new1).
  destruct (is_Exception e); [|by exists new1].
  destruct (Hk e w1 Hd) as (new2 & Hh2 & Hl2 & Hf2 & Hd2).
  rewrite Hf in Hl2. destruct (linked_app P new1 new2 (files w) Hl Hl2) as [? Hlat].
  exists (new2 ++ new1). rewrite Hh2, Hh, Hf2, Hf, Hlat, app_assoc. done.
Qed.

Lemma wp_deliver_in_dir {A} P (m : M A) d w :
  wp P m (in_dir d) w → wp P (deliver m) (in_dir d) w.
Proof.
  intros (new & Hh & Hl & Hf & Hd). unfold deliver, wp.
  destruct (m w) as [[a|e|] w1]; simpl in *; by exists new.
Qed.

Lemma atomic_insert prev op (p : path) text :
  durable p.2 = false → atomic_step prev op (<[p := text]> prev).
Proof.
  intros Hp dir name Hn. left. apply lookup_insert_ne. intros ->. simpl in Hp. congruence.
Qed.

Lemma atomic_unlink prev (p : path) : atomic_step prev (Unlink p) (delete p prev).
Proof.
  intros dir name Hn. destruct (decide (p = (dir, name))) as [->|Hne].
  - right. left. by rewrite lookup_delete_eq.
  - left. by apply lookup_delete_ne.
Qed.

Lemma atomic_actor prev m dir : atomic_step prev (Actor m) (apply_move m dir prev).
Proof.
  intros dir' name Hn. left. destruct m; simpl; [done| |].
  - apply lookup_insert_ne. intros [= _ <-]. done.
  - apply lookup_delete_ne. intros [= _ <-]. done.
Qed.

Lemma replacing_atomic dir name tmpname data fs :
  with_suffix (dir, name) ".tmp" = ok (dir, tmpname) →
  durable tmpname = false →
  replacing atomic_step dir name tmpname (json_dumps data) fs.
Proof.
  intros Hs Ht. split; [|split].
  - by apply atomic_insert.
  - by apply atomic_insert.
  - intros dir' name' Hn. destruct (decide ((dir, name) = (dir', name'))) as [[= <- <-]|Hne].
    + right. right. exists tmpname, data. by rewrite !lookup_insert_eq.
    + left. rewrite lookup_insert_ne by done. apply lookup_delete_ne.
      intros [= _ <-]. congruence.
Qed.

Lemma wp_unlink_atomic (p : path) missing_ok dir w :
  task_dir w = dir → wp atomic_step (unlink p missing_ok) (in_dir dir) w.
Proof.
  intros Hd. apply wp_unlink. destruct (files w !! p); [split; [apply atomic_unlink|done]|].
  by destruct missing_ok.
Qed.

Lemma write_status_atomic d status detail dir w :
  task_dir w = dir → wp atomic_step (write_status d status detail) (in_dir dir) w.
Proof. intros Hd. apply wp_write_status; [by apply replacing_atomic|done]. Qed.

Lemma append_log_atomic d text dir w :
  task_dir w = dir → wp atomic_step (append_log d text) (in_dir dir) w.
Proof.
  intros Hd. unfold append_log. apply wp_bind, wp_touch.
  destruct (files w !! (d, "output.log")); [|split; [by apply atomic_insert|]]; simpl;
    (apply wp_extend; [by apply atomic_insert|done]).
Qed.

Lemma poll_atomic fuel : ∀ qs d st dir w,
  task_dir w = dir →
  wp atomic_step (poll fuel qs (d, "answer.json") st) (in_dir dir) w.
Proof.
  induction fuel as [|fuel IH]; intros qs d st dir w Hd.
  { by eapply wp_still. }
  cbn [poll]. apply wp_bind, wp_exists.
  destruct (files w !! (d, "answer.json")) as [text|] eqn:Ea.
  - simpl. apply wp_bind, wp_read_json. rewrite Ea.
    destruct (json_loads text) as [v|]; [|done]. simpl.
    apply wp_bind, wp_task_path. simpl.
    apply wp_seq_in_dir; [by apply wp_unlink_atomic|]. intros _ w1 Hd1.
    apply wp_seq_in_dir; [by apply wp_unlink_atomic|]. intros _ w2 Hd2.
    apply wp_bind, wp_get_task_dir. simpl.
    apply wp_seq_in_dir; [by apply write_status_atomic|]. intros _ w3 Hd3.
    apply wp_bind, wp_lift. destruct (resolve_answers qs v); simpl; [done|].
    by apply wp_ret.
  - simpl. apply wp_bind, wp_time_now. simpl.
    destruct (timed_out _ _).
    + apply wp_bind, wp_task_path. simpl.
      apply wp_seq_in_dir; [by apply wp_unlink_atomic|]. intros _ w1 Hd1.
      apply wp_bind, wp_get_task_dir. simpl.
      apply wp_seq_in_dir; [by apply write_status_atomic|]. intros _ w2 Hd2.
      apply wp_bind, wp_lift. destruct (py_iter qs) as [|l]; simpl; [done|].
      apply wp_bind, wp_lift. destruct (default_answers l []); simpl; [done|].
      by apply wp_ret.
    + apply wp_bind, wp_sleep; [apply atomic_actor|]. simpl. by apply IH.
Qed.

Lemma handle_atomic fuel input_data dir w :
  task_dir w = dir →
  wp atomic_step (handle_ask_user_question fuel input_data) (in_dir dir) w.
Proof.
  intros Hd. unfold handle_ask_user_question.
  apply wp_bind, wp_task_path. simpl.
  apply wp_bind, wp_now_isoformat. simpl.
  apply wp_bind, (wp_write_json_atomic _ _ _ "question.tmp");
    [done|by apply replacing_atomic|]. simpl.
  apply wp_bind, wp_get_task_dir. simpl.
  apply wp_seq_in_dir; [by apply write_status_atomic|]. intros _ w1 Hd1.
  apply wp_bind, wp_task_path. simpl.
  apply wp_bind, wp_exists. simpl.
  apply wp_seq_in_dir.
  { destruct (files w1 !! (task_dir w1, "answer.json")) eqn:E; simpl; [|by apply wp_ret].
    by apply wp_unlink_atomic. }
  intros _ w2 Hd2. apply wp_bind, wp_time_now. simpl. by apply poll_atomic.
Qed.

Lemma can_use_tool_atomic fuel tool_name input_data dir w :
  task_dir w = dir →
  wp atomic_step (can_use_tool fuel tool_name input_data) (in_dir dir) w.
Proof.
  intros Hd. unfold can_use_tool.
  destruct (String.eqb _ _); [by apply handle_atomic|by apply wp_ret].
Qed.

Lemma on_message_atomic m dir w :
  task_dir w = dir → wp atomic_step (on_message m) (in_dir dir) w.
Proof.
  intros Hd. destruct m as [content|r|]; simpl; [| |by apply wp_ret].
  - revert w Hd. induction content as [|b content IH]; intros w Hd; simpl;
      [by apply wp_ret|].
    apply wp_seq_in_dir; [|intros _ w' Hd'; by apply IH].
    destruct b; simpl; [| |by apply wp_ret];
      (apply wp_bind, wp_get_task_dir; simpl; by apply append_log_atomic).
  - apply wp_bind, wp_now_isoformat. simpl.
    apply wp_bind, wp_task_path. simpl.
    apply wp_bind, (wp_write_json_atomic _ _ _ "result.tmp");
      [done|by apply replacing_atomic|]. simpl.
    apply wp_bind, wp_get_task_dir. simpl.
    destruct (truthy _); by apply write_status_atomic.
Qed.

Lemma session_loop_atomic fuel events : ∀ dir w,
  task_dir w = dir → wp atomic_step (session_loop fuel events) (in_dir dir) w.
Proof.
  induction events as [|ev events IH]; intros dir w Hd; simpl; [by apply wp_ret|].
  destruct ev as [m|tool_name input_data|f].
  - apply wp_seq_in_dir; [by apply on_message_atomic|intros _ w' Hd'; by apply IH].
  - apply wp_seq_in_dir; [|intros _ w' Hd'; by apply IH].
    by apply wp_deliver_in_dir, can_use_tool_atomic.
  - by apply wp_raise.
Qed.

Lemma run_bridge_atomic fuel task_id workdir prompt w :
  wp atomic_step (run_bridge fuel task_id workdir prompt)
    (in_dir (joinpath TASKS_DIR task_id)) w.
Proof.
  unfold run_bridge.
  apply wp_bind, wp_set_task_dir. simpl.
  apply wp_bind, wp_get_task_dir. simpl.
  apply wp_bind, wp_ret. simpl.
  apply wp_bind, wp_task_path. simpl.
  apply wp_bind, wp_write_text; [by apply atomic_insert..|]. simpl.
  apply wp_bind, wp_task_path. simpl.
  apply wp_bind, wp_now_isoformat. simpl.
  apply wp_bind, (wp_write_json_atomic _ _ _ "task.tmp");
    [done|by apply replacing_atomic|]. simpl.
  apply wp_bind, wp_get_task_dir. simpl.
  apply wp_seq_in_dir; [by apply write_status_atomic|]. intros _ w1 Hd1.
  apply wp_bind, wp_task_path. simpl.
  apply wp_seq_in_dir.
  { apply wp_touch. destruct (files w1 !! (task_dir w1, "output.log"));
      [done|]. split; [by apply atomic_insert|done]. }
  intros _ w2 Hd2. apply wp_bind, wp_get_task_dir. simpl.
  apply wp_seq_in_dir; [by apply write_status_atomic|]. intros _ w3 Hd3.
  apply wp_try_except_in_dir; [by apply session_loop_atomic|].
  intros e w4 Hd4. apply wp_bind, wp_get_task_dir. simpl.
  apply wp_seq_in_dir; [by apply write_status_atomic|]. intros _ w5 Hd5.
  apply wp_bind, wp_get_task_dir. simpl.
  apply wp_seq_in_dir; [by apply append_log_atomic|]. intros _ w6 Hd6.
  by apply wp_raise.
Qed.

End Atomic.

(** ** The run around the session *)

Section Run.
Context `{Codec} `{Host}.

Lemma touch_run (p : path) w :
  touch p w
  = (Done tt,
     match files w !! p with
     | Some _ => w
     | None => record (Touch p) (<[p := EmptyString]> (files w)) w
     end).
Proof. unfold touch, bind, get_files. by destruct (files w !! p). Qed.

Lemma write_text_run (p : path) text w :
  write_text p text w
  = (Done tt,
     record (Extend p text) (<[p := text]> (<[p := EmptyString]> (files w)))
       (record (Truncate p) (<[p := EmptyString]> (files w)) w)).
Proof.
  unfold write_text, extend, bind, get_files, commit. simpl.
  by rewrite lookup_insert_eq.
Qed.

Lemma run_bridge_unfold fuel task_id workdir prompt w :
  run_bridge fuel task_id workdir prompt w
  = try_except (session_loop fuel (query prompt workdir)) on_fault
      (entered task_id workdir prompt w).
Proof.
  unfold run_bridge.
  do 4 (erewrite bind_done by reflexivity).
  erewrite bind_done by apply write_text_run.
  do 2 (erewrite bind_done by reflexivity).
  erewrite bind_done by (by apply (write_json_atomic_run _ _ "task.tmp")).
  erewrite bind_done by reflexivity.
  erewrite bind_done by apply write_status_run.
  erewrite bind_done by reflexivity.
  erewrite bind_done by apply touch_run.
  erewrite bind_done by reflexivity.
  erewrite bind_done by apply write_status_run.
  unfold entered. simpl. case_match; reflexivity.
Qed.

Lemma entered_dir task_id workdir prompt w :
  task_dir (entered task_id workdir prompt w) = joinpath TASKS_DIR task_id.
Proof. unfold entered. simpl. by case_match. Qed.

Lemma append_log_run dir text w :
  ∃ w', append_log dir text w = (Done tt, w')
        ∧ task_dir w' = task_dir w
        ∧ files w'
          = <[(dir, "output.log") := default EmptyString (files w !! (dir, "output.log")) +:+ text]>
              (files w).
Proof.
  unfold append_log. rewrite (bind_done _ _ _ _ _ (touch_run _ _)).
  unfold extend, bind, get_files, commit.
  destruct (files w !! (dir, "output.log")) as [old|] eqn:E; simpl.
  - rewrite E. simpl. eauto.
  - rewrite lookup_insert_eq. simpl. eexists. split; [done|]. split; [done|]. simpl.
    by rewrite insert_insert_eq.
Qed.

Lemma session_loop_fault fuel f rest before : ∀ w w1,
  session_loop fuel before w = (Done tt, w1) →
  session_loop fuel (before ++ Faults f :: rest) w = (Raised (Foreign f), w1).
Proof.
  induction before as [|ev before IH]; intros w w1 Hrun; simpl in *.
  - by injection Hrun as <-.
  - destruct ev as [m|tool_name input_data|f']; [| |done]; unfold bind in *.
    + destruct (on_message m w) as [[[]|e|] w']; [by apply IH|done|done].
    + destruct (deliver _ w) as [[[]|e|] w']; [by apply IH|done|done].
Qed.

Lemma on_fault_run e w :
  ∃ w', on_fault e w = (Raised e, w')
        ∧ files w' !! (task_dir w, "status.json")
          = Some (json_dumps (status_record "error" (type_name e +:+ ": " +:+ str_of e)
                                (isoformat_now (stamps w)) getpid))
        ∧ files w' !! (task_dir w, "output.log")
          = Some (default EmptyString (files w !! (task_dir w, "output.log"))
                  +:+ nl +:+ "[BRIDGE ERROR] " +:+ type_name e +:+ ": " +:+ str_of e +:+ nl).
Proof.
  unfold on_fault.
  erewrite bind_done by reflexivity.
  erewrite bind_done by apply write_status_run.
  erewrite bind_done by reflexivity.
  set (w1 := replaced _ _ _ _ _).
  destruct (append_log_run (task_dir w1)
              (nl +:+ "[BRIDGE ERROR] " +:+ type_name e +:+ ": " +:+ str_of e +:+ nl) w1)
    as (w' & Hrun & Hd & Hf).
  exists w'. erewrite bind_done by exact Hrun. split; [done|].
  rewrite Hf. subst w1. simpl task_dir. rewrite files_replaced. split.
  - rewrite lookup_insert_ne by (intros [=]). by rewrite lookup_insert_eq.
  - rewrite lookup_insert_eq. rewrite lookup_insert_ne by (intros [=]).
    by rewrite lookup_delete_ne by (intros [=]).
Qed.

End Run.

(** * Properties of the protocol *)

Section Properties.
Context `{Codec} `{Host}.

Lemma outcome_run {A} (m : M A) w r : (m w).1 = r → ∃ w', m w = (r, w').
Proof. intros <-. exists (m w).2. by destruct (m w). Qed.

(** C1.  When the wait times out with no answer file having appeared,
    [handle_ask_user_question] returns an allow result whose answers bind,
    for every sub-question of a well-formed question set, the question text
    to the label of the first listed option, or to ["No preference"] when
    the sub-question lists no option; and the answers have no other key.
    The answers are a mapping keyed by question text, so of several
    sub-questions with one text the last decides the entry: the binding is
    stated for every sub-question whose text no later sub-question repeats,
    which is every sub-question when the texts are distinct. *)
Theorem timeout_defaults input_data w k fuel qs :
  expires w k →
  (k < fuel)%nat →
  questions_of input_data = PList qs →
  forallb sub_question_ok qs = true →
  ∃ answers w',
    handle_ask_user_question fuel input_data w
    = (Done (PermissionResultAllow (updated (PList qs) (PDict answers))), w')
    ∧ (∀ i q,
         qs !! i = Some q →
         (∀ j q', (i < j)%nat → qs !! j = Some q' → text_of q' ≠ text_of q) →
         dict_lookup (PStr (text_of q)) answers
         = Some (match options_of q with
                 | o :: _ => label_of o
                 | [] => PStr "No preference"
                 end))
    ∧ (∀ key, key ∈ answers.*1 → ∃ q, q ∈ qs ∧ key = PStr (text_of q)).
Proof.
  intros Hex Hfuel Hqs Hwf.
  exists (foldl bind_default [] qs).
  destruct (outcome_run (handle_ask_user_question fuel input_data) w
              (expire (questions_of input_data))) as [w' Hrun].
  { replace fuel with (k + S (fuel - S k))%nat by lia. by apply handle_expired. }
  exists w'. split; [|split].
  - rewrite Hrun, Hqs. unfold expire. simpl. by rewrite default_answers_wf.
  - intros i q Hi Hlater. by apply (foldl_bind_default_lookup qs [] i).
  - intros key Hkey. apply foldl_bind_default_keys in Hkey as [Hk|?]; [|done].
    by apply elem_of_nil in Hk.
Qed.

(** C2.  If an answer file that decodes to a dict with an ["answers"]
    entry appears before the deadline has passed, whatever the clock shows
    until then, [handle_ask_user_question] returns an allow result whose
    answers are exactly the value of that entry. *)
Theorem explicit_mapping_returned input_data w k fuel text d mapping :
  answered w k text →
  (k + 2 ≤ fuel)%nat →
  json_loads text = Some (PDict d) →
  dict_lookup (PStr "answers") d = Some mapping →
  ∃ w',
    handle_ask_user_question fuel input_data w
    = (Done (PermissionResultAllow (updated (questions_of input_data) mapping)), w').
Proof.
  intros Hans Hfuel Hload Hd. apply outcome_run.
  replace fuel with (k + (2 + (fuel - (k + 2))))%nat by lia.
  rewrite (handle_answered _ _ _ text) by done.
  unfold observe, resolve_answers.
  rewrite Hload, (dict_lookup_truthy _ _ _ Hd), py_contains_dict, Hd. simpl.
  by rewrite Hd.
Qed.

(** C3.  If an answer file that decodes to a dict with a ["text"] entry
    and no ["answers"] entry is observed for a question set that is not
    empty, the answers returned hold exactly one entry, which binds the
    question text of the first sub-question to the value of ["text"]; no
    sub-question with another text has an entry. *)
Theorem free_text_binds_first input_data w k fuel text d free q dq first rest :
  answered w k text →
  (k + 2 ≤ fuel)%nat →
  json_loads text = Some (PDict d) →
  dict_lookup (PStr "answers") d = None →
  dict_lookup (PStr "text") d = Some free →
  questions_of input_data = PList (q :: rest) →
  q = PDict dq →
  dict_lookup (PStr "question") dq = Some (PStr first) →
  ∃ w',
    handle_ask_user_question fuel input_data w
    = (Done (PermissionResultAllow
               (updated (PList (q :: rest)) (PDict [(PStr first, free)]))), w')
    ∧ ∀ q', q' ∈ rest → text_of q' ≠ first →
        dict_lookup (PStr (text_of q')) [(PStr first, free)] = None.
Proof.
  intros Hans Hfuel Hload Hno Htext Hqs -> Hq.
  destruct (outcome_run (handle_ask_user_question fuel input_data) w
              (Done (PermissionResultAllow
                       (updated (PList (PDict dq :: rest)) (PDict [(PStr first, free)])))))
    as [w' Hrun].
  - replace fuel with (k + (2 + (fuel - (k + 2))))%nat by lia.
    rewrite (handle_answered _ _ _ text) by done.
    unfold observe, resolve_answers.
    rewrite Hload, Hqs, (dict_lookup_truthy _ _ _ Htext), !py_contains_dict, Hno, Htext.
    simpl. by rewrite Hq, Htext.
  - exists w'. split; [done|]. intros q' _ Hne. simpl.
    destruct (String.eqb first (text_of q')) eqn:E; [|done].
    apply String.eqb_eq in E. by subst.
Qed.

(** C10.  If the question set is empty and the observed answer file
    decodes to a dict with a ["text"] entry and no ["answers"] entry,
    [handle_ask_user_question] returns an allow result with empty answers:
    the free text is dropped, and nothing is raised. *)
Theorem free_text_dropped_without_questions input_data w k fuel text d free :
  answered w k text →
  (k + 2 ≤ fuel)%nat →
  json_loads text = Some (PDict d) →
  dict_lookup (PStr "answers") d = None →
  dict_lookup (PStr "text") d = Some free →
  questions_of input_data = PList [] →
  ∃ w',
    handle_ask_user_question fuel input_data w
    = (Done (PermissionResultAllow (updated (PList []) (PDict []))), w').
Proof.
  intros Hans Hfuel Hload Hno Htext Hqs. apply outcome_run.
  replace fuel with (k + (2 + (fuel - (k + 2))))%nat by lia.
  rewrite (handle_answered _ _ _ text) by done.
  unfold observe, resolve_answers.
  by rewrite Hload, Hqs, (dict_lookup_truthy _ _ _ Htext), !py_contains_dict, Hno, Htext.
Qed.

(** C6, as the code has it.  If the observed answer file holds valid JSON
    that decodes to a falsy value, or to a dict with neither an
    ["answers"] nor a ["text"] entry, [handle_ask_user_question] returns
    an allow result with empty answers. *)
Theorem unrecognized_answer_gives_empty input_data w k fuel text v :
  answered w k text →
  (k + 2 ≤ fuel)%nat →
  json_loads text = Some v →
  (truthy v = false
   ∨ ∃ d, v = PDict d
          ∧ dict_lookup (PStr "answers") d = None
          ∧ dict_lookup (PStr "text") d = None) →
  ∃ w',
    handle_ask_user_question fuel input_data w
    = (Done (PermissionResultAllow (updated (questions_of input_data) (PDict []))), w').
Proof.
  intros Hans Hfuel Hload Hv. apply outcome_run.
  replace fuel with (k + (2 + (fuel - (k + 2))))%nat by lia.
  rewrite (handle_answered _ _ _ text) by done.
  unfold observe, resolve_answers. rewrite Hload.
  destruct Hv as [Hfalsy|(d & -> & Hno & Hnot)].
  - by rewrite Hfalsy.
  - rewrite !py_contains_dict, Hno, Hnot. by destruct (truthy (PDict d)).
Qed.

(** Whenever the callback returns, the files of the exchange are gone. *)
Lemma return_is_clean fuel input_data w r w' :
  handle_ask_user_question fuel input_data w = (Done r, w') →
  files w' !! (task_dir w, "question.json") = None
  ∧ files w' !! (task_dir w, "answer.json") = None.
Proof.
  intros Hrun. rewrite handle_unfold in Hrun.
  destruct (listening_facts input_data w) as (Hd & _).
  pose proof (wp_outcome _ _ _ _
    (poll_returns_clean fuel (questions_of input_data) (task_dir w)
       (time_time (clock_reads w)) (listening input_data w) Hd)) as Hc.
  by rewrite Hrun in Hc.
Qed.

(** Each resolution makes the callback return. *)
Lemma resolution_returns input_data w k fuel :
  resolution input_data w k →
  (k + 2 ≤ fuel)%nat →
  ∃ p, (handle_ask_user_question fuel input_data w).1 = Done p.
Proof.
  intros Hres Hfuel.
  destruct Hres as [text d mapping Hans Hload Hd
                   |text d free dq first rest Hans Hload Hno Htext Hqs Hq
                   |text d free Hans Hload Hno Htext Hqs
                   |qs Hex Hqs Hwf].
  - replace fuel with (k + (2 + (fuel - (k + 2))))%nat by lia.
    rewrite (handle_answered _ _ _ text) by done.
    unfold observe, resolve_answers.
    rewrite Hload, (dict_lookup_truthy _ _ _ Hd), py_contains_dict, Hd. simpl.
    rewrite Hd. by eexists.
  - replace fuel with (k + (2 + (fuel - (k + 2))))%nat by lia.
    rewrite (handle_answered _ _ _ text) by done.
    unfold observe, resolve_answers.
    rewrite Hload, Hqs, (dict_lookup_truthy _ _ _ Htext), !py_contains_dict, Hno, Htext.
    simpl. rewrite Hq, Htext. by eexists.
  - replace fuel with (k + (2 + (fuel - (k + 2))))%nat by lia.
    rewrite (handle_answered _ _ _ text) by done.
    unfold observe, resolve_answers.
    rewrite Hload, Hqs, (dict_lookup_truthy _ _ _ Htext), !py_contains_dict, Hno, Htext.
    by eexists.
  - replace fuel with (k + S (fuel - S k))%nat by lia.
    rewrite handle_expired by done. rewrite Hqs. unfold expire. simpl.
    rewrite default_answers_wf by done. by eexists.
Qed.

(** C4.  For every resolution of a question, by an answer file with an
    explicit mapping, by an answer file with free text or by the timeout,
    [handle_ask_user_question] returns, from whatever the task directory
    holds when it is called, and at that moment neither [question.json]
    nor [answer.json] is in the task directory.  And on whatever other path
    and after however many rounds it returns, the two files are gone as
    well. *)
Theorem both_files_gone_on_return input_data w k fuel :
  resolution input_data w k →
  (k + 2 ≤ fuel)%nat →
  (∃ p w',
     handle_ask_user_question fuel input_data w = (Done p, w')
     ∧ files w' !! (task_dir w, "question.json") = None
     ∧ files w' !! (task_dir w, "answer.json") = None)
  ∧ (∀ rounds p w',
       handle_ask_user_question rounds input_data w = (Done p, w') →
       files w' !! (task_dir w, "question.json") = None
       ∧ files w' !! (task_dir w, "answer.json") = None).
Proof.
  intros Hres Hfuel. split; [|intros rounds p w'; apply return_is_clean].
  destruct (resolution_returns input_data w k fuel Hres Hfuel) as [p Hp].
  destruct (outcome_run _ _ _ Hp) as [w' Hrun].
  exists p, w'. split; [done|]. by apply (return_is_clean fuel input_data w p).
Qed.

(** C5, as the code has it.  [handle_ask_user_question] writes the
    question before it writes the status: its first five steps write
    [question.json] and the temporary file of the status.  At every state
    of the directory from its sixth step on, which renames the status into
    place, until it returns, [question.json] is absent or [status.json]
    holds a status record with the state [waiting_for_answer]; so the state
    leaves [waiting_for_answer] only once the question file is removed. *)
Theorem waiting_once_status_is_written fuel input_data w :
  let d := task_dir w in
  ∃ early later qtext stext,
    hist (handle_ask_user_question fuel input_data w).2 = later ++ early ++ hist w
    ∧ early.*1 = [Extend (d, "status.tmp") stext;
                  Truncate (d, "status.tmp");
                  Rename (d, "question.tmp") (d, "question.json");
                  Extend (d, "question.tmp") qtext;
                  Truncate (d, "question.tmp")]
    ∧ fst <$> last later = Some (Rename (d, "status.tmp") (d, "status.json"))
    ∧ Forall (λ s, waiting_or_gone d s.2) later.
Proof.
  intros d. rewrite handle_unfold. fold d.
  destruct (listening_facts input_data w) as (Hd & _).
  destruct (poll_returns_clean fuel (questions_of input_data) d
              (time_time (clock_reads w)) (listening input_data w) Hd)
    as (new & Hh & Hl & _ & _).
  assert (waiting_or_gone d (files (asked input_data w))) as Hasked.
  { right. do 3 eexists. unfold asked. rewrite files_replaced. apply lookup_insert_eq. }
  assert (waiting_or_gone d (files (listening input_data w))) as Hlistening.
  { unfold listening. fold d.
    destruct (files (asked input_data w) !! (d, "answer.json")); [|done].
    by apply keeps_unlink_answer. }
  destruct (linked_invariant (waiting_or_gone d) new _ Hl Hlistening) as [Hnew _].
  destruct (asked_hist input_data w) as (early & qtext & stext & Hasked_hist & Hearly).
  rewrite listening_hist, Hasked_hist in Hh. fold d in Hh.
  exists early, (new ++ match files (asked input_data w) !! (d, "answer.json") with
                        | Some _ => [(Unlink (d, "answer.json"),
                                      delete (d, "answer.json") (files (asked input_data w)))]
                        | None => []
                        end
                   ++ [(Rename (d, "status.tmp") (d, "status.json"),
                        files (asked input_data w))]), qtext, stext.
  split; [|split; [done|split]].
  - rewrite Hh, <- !app_assoc. by case_match.
  - by rewrite app_assoc, last_snoc.
  - rewrite !Forall_app. split; [done|]. split; [|by constructor].
    case_match; [|done]. constructor; [|done]. by apply keeps_unlink_answer.
Qed.

(** C7.  If the session raises an exception that derives from
    [Exception], the session having run that far, [run_bridge] writes a
    status record with the state [error] whose detail is the class name and
    the message of the exception, appends the same to the output log, and
    raises that exception again. *)
Theorem fault_recorded_and_reraised fuel task_id workdir prompt w before f rest w1 :
  query prompt workdir = before ++ Faults f :: rest →
  fault_is_Exception f = true →
  session_loop fuel before (entered task_id workdir prompt w) = (Done tt, w1) →
  let d := joinpath TASKS_DIR task_id in
  ∃ w',
    run_bridge fuel task_id workdir prompt w = (Raised (Foreign f), w')
    ∧ files w' !! (d, "status.json")
      = Some (json_dumps
                (status_record "error" (fault_class f +:+ ": " +:+ fault_text f)
                   (isoformat_now (stamps w1)) getpid))
    ∧ files w' !! (d, "output.log")
      = Some (default EmptyString (files w1 !! (d, "output.log"))
              +:+ nl +:+ "[BRIDGE ERROR] " +:+ fault_class f +:+ ": " +:+ fault_text f
              +:+ nl).
Proof.
  intros Hq Hex Hrun d.
  assert (task_dir w1 = d) as Hd.
  { pose proof (wp_outcome _ _ _ _
      (session_loop_atomic fuel before d (entered task_id workdir prompt w)
         (entered_dir _ _ _ _))) as Hdir.
    by rewrite Hrun in Hdir. }
  destruct (on_fault_run (Foreign f) w1) as (w' & Hf & Hs & Hl).
  exists w'. rewrite run_bridge_unfold, Hq. unfold try_except.
  rewrite (session_loop_fault _ _ _ _ _ _ Hrun). simpl. rewrite Hex.
  rewrite Hd in Hs, Hl. done.
Qed.

(** C8.  Over a whole run of [run_bridge], callbacks included, every step
    leaves each of [status.json], [question.json], [task.json] and
    [result.json] as it was, removes it, or renames over it its temporary
    file, which then holds a complete serialization: none of them ever
    holds a partly written text.  And [write_json_atomic] on such an
    artifact is exactly the three steps that empty the temporary file, give
    it the whole text and rename it into place. *)
Theorem artifact_writes_atomic :
  (∀ fuel task_id workdir prompt w,
     ∃ new,
       hist (run_bridge fuel task_id workdir prompt w).2 = new ++ hist w
       ∧ linked atomic_step new (files w))
  ∧ (∀ dir name data w,
       durable name = true →
       ∃ tmpname,
         durable tmpname = false
         ∧ write_json_atomic (dir, name) data w
           = (Done tt, replaced dir name tmpname (json_dumps data) w)).
Proof.
  split.
  - intros fuel task_id workdir prompt w.
    destruct (run_bridge_atomic fuel task_id workdir prompt w) as (new & ? & ? & _).
    by exists new.
  - intros dir name data w Hn. unfold durable in Hn. simpl in Hn.
    repeat (apply orb_prop in Hn as [Hn|Hn]); try discriminate;
      apply String.eqb_eq in Hn as ->;
      eexists; (split; [|by apply write_json_atomic_run]); done.
Qed.

(** C9.  For a tool other than [AskUserQuestion], [can_use_tool] returns
    an allow result with the tool input as it came and leaves the world as
    it was: no question, no status, no relay.  And the loop of
    [run_bridge] puts the line [[Tool: name]] at the end of the output log
    for a tool-use block, whatever else the log holds. *)
Theorem other_tools_allowed_and_logged tool_name :
  tool_name ≠ "AskUserQuestion" →
  (∀ fuel input_data w,
     can_use_tool fuel tool_name input_data w
     = (Done (PermissionResultAllow (PDict input_data)), w))
  ∧ (∀ input w,
       ∃ w',
         on_message (AssistantMessage [ToolUseBlock tool_name input]) w = (Done tt, w')
         ∧ files w'
           = <[(task_dir w, "output.log") :=
                 default EmptyString (files w !! (task_dir w, "output.log"))
                 +:+ "[Tool: " +:+ tool_name +:+ "]" +:+ nl]> (files w)).
Proof.
  intros Hne. split.
  - intros fuel input_data w. unfold can_use_tool.
    destruct (String.eqb tool_name "AskUserQuestion") eqn:E; [|done].
    by apply String.eqb_eq in E.
  - intros input w. simpl.
    destruct (append_log_run (task_dir w) ("[Tool: " +:+ tool_name +:+ "]" +:+ nl) w)
      as (w' & Hrun & _ & Hf).
    exists w'. split; [|done].
    erewrite bind_done; [reflexivity|].
    erewrite bind_done by reflexivity. exact Hrun.
Qed.

End Properties.

(** * The properties on examples *)

Lemma waits_check_spec `{Host} w k : waits_check w k = true → waits w k.
Proof.
  unfold waits_check, waits. rewrite forallb_forall. intros Hall i Hi.
  specialize (Hall i). rewrite in_seq in Hall.
  assert (negb (timed_out (time_time (clock_reads w)) (time_time (clock_reads w + 1 + i)))
          && quiet (actor (sleeps w + i)) = true) as Hi' by (apply Hall; lia).
  apply andb_prop in Hi' as [Ht Hq]. by apply negb_true_iff in Ht.
Qed.

Lemma run_pair {A} (m : M A) w r : (m w).1 = r → m w = (r, (m w).2).
Proof. intros <-. by destruct (m w). Qed.

(** Nobody answers: after three hundred rounds, ten minutes, the three
    hundred and first finds the deadline passed, and the defaults are
    returned. *)
Lemma timeout_defaults_witness :
  ∃ answers w',
    @handle_ask_user_question example_codec (example_host 0 Idle []) 301 two_questions blank
    = (Done (PermissionResultAllow (updated (PList [proceed; colour]) (PDict answers))), w')
    ∧ (∀ i q,
         [proceed; colour] !! i = Some q →
         (∀ j q', (i < j)%nat → [proceed; colour] !! j = Some q' →
                  text_of q' ≠ text_of q) →
         dict_lookup (PStr (text_of q)) answers
         = Some (match options_of q with
                 | o :: _ => label_of o
                 | [] => PStr "No preference"
                 end))
    ∧ (∀ key, key ∈ answers.*1 → ∃ q, q ∈ [proceed; colour] ∧ key = PStr (text_of q)).
Proof.
  apply (@timeout_defaults example_codec (example_host 0 Idle []) two_questions blank 300).
  - split; [apply waits_check_spec|]; vm_compute; reflexivity.
  - lia.
  - reflexivity.
  - reflexivity.
Defined.

(** Two sub-questions with one text: the entry is the default of the
    later one. *)
Example repeated_text_keeps_last :
  @expire example_codec
    (PList [PDict [(PStr "question", PStr "Which?");
                   (PStr "options", PList [PDict [(PStr "label", PStr "A")]])];
            PDict [(PStr "question", PStr "Which?");
                   (PStr "options", PList [PDict [(PStr "label", PStr "B")]])]])
  = Done (PermissionResultAllow
            (updated
               (PList [PDict [(PStr "question", PStr "Which?");
                              (PStr "options", PList [PDict [(PStr "label", PStr "A")]])];
                       PDict [(PStr "question", PStr "Which?");
                              (PStr "options", PList [PDict [(PStr "label", PStr "B")]])]])
               (PDict [(PStr "Which?", PStr "B")]))).
Proof. reflexivity. Qed.

(** The answer with a mapping arrives during the third sleep. *)
Lemma explicit_mapping_returned_witness :
  ∃ w',
    @handle_ask_user_question example_codec (example_host 2 (Supply mapping_text) [])
      5 two_questions blank
    = (Done (PermissionResultAllow
               (updated (questions_of two_questions)
                  (PDict [(PStr "Proceed?", PStr "No")]))), w').
Proof.
  apply (@explicit_mapping_returned example_codec (example_host 2 (Supply mapping_text) [])
           two_questions blank 2 5 mapping_text
           [(PStr "answers", PDict [(PStr "Proceed?", PStr "No")])]).
  - split; [apply waits_check_spec; vm_compute; reflexivity|].
    split; [vm_compute; reflexivity|reflexivity].
  - lia.
  - vm_compute. reflexivity.
  - reflexivity.
Defined.

(** Scenario C of the specification. *)
Lemma free_text_binds_first_witness :
  ∃ w',
    @handle_ask_user_question example_codec (example_host 0 (Supply free_text) [])
      2 two_questions blank
    = (Done (PermissionResultAllow
               (updated (PList [proceed; colour])
                  (PDict [(PStr "Proceed?", PStr "Blue")]))), w')
    ∧ ∀ q', q' ∈ [colour] → text_of q' ≠ "Proceed?" →
        dict_lookup (PStr (text_of q')) [(PStr "Proceed?", PStr "Blue")] = None.
Proof.
  apply (@free_text_binds_first example_codec (example_host 0 (Supply free_text) [])
           two_questions blank 0 2 free_text [(PStr "text", PStr "Blue")] (PStr "Blue")
           proceed
           [(PStr "question", PStr "Proceed?");
            (PStr "options", PList [PDict [(PStr "label", PStr "Yes")];
                                    PDict [(PStr "label", PStr "No")]])]).
  - split; [intros i Hi; lia|]. split; [vm_compute; reflexivity|reflexivity].
  - lia.
  - vm_compute. reflexivity.
  - reflexivity.
  - reflexivity.
  - reflexivity.
  - reflexivity.
  - reflexivity.
Defined.

Lemma free_text_dropped_without_questions_witness :
  ∃ w',
    @handle_ask_user_question example_codec (example_host 0 (Supply free_text) [])
      2 no_questions blank
    = (Done (PermissionResultAllow (updated (PList []) (PDict []))), w').
Proof.
  apply (@free_text_dropped_without_questions example_codec
           (example_host 0 (Supply free_text) []) no_questions blank 0 2 free_text
           [(PStr "text", PStr "Blue")] (PStr "Blue")).
  - split; [intros i Hi; lia|]. split; [vm_compute; reflexivity|reflexivity].
  - lia.
  - vm_compute. reflexivity.
  - reflexivity.
  - reflexivity.
  - reflexivity.
Defined.

Lemma unrecognized_answer_gives_empty_witness :
  ∃ w',
    @handle_ask_user_question example_codec (example_host 0 (Supply other_text) [])
      2 two_questions blank
    = (Done (PermissionResultAllow (updated (questions_of two_questions) (PDict []))), w').
Proof.
  apply (@unrecognized_answer_gives_empty example_codec
           (example_host 0 (Supply other_text) []) two_questions blank 0 2 other_text
           (PDict [(PStr "comment", PStr "later")])).
  - split; [intros i Hi; lia|]. split; [vm_compute; reflexivity|reflexivity].
  - lia.
  - vm_compute. reflexivity.
  - right. exists [(PStr "comment", PStr "later")]. repeat split.
Defined.

(** An answer file that was caught half written is not valid JSON:
    [json.loads] raises, and the error leaves the callback, with the
    question and the answer still in the directory. *)
Lemma torn_answer_raises :
  @json_loads example_codec torn_text = None
  ∧ ∃ w',
      @handle_ask_user_question example_codec (example_host 0 (Supply torn_text) [])
        2 two_questions blank
      = (Raised JSONDecodeError, w')
      ∧ files w' !! (task_dir blank, "question.json") ≠ None
      ∧ files w' !! (task_dir blank, "answer.json") = Some torn_text.
Proof.
  split; [vm_compute; reflexivity|].
  exists (@handle_ask_user_question example_codec (example_host 0 (Supply torn_text) [])
            2 two_questions blank).2.
  split; [apply run_pair; vm_compute; reflexivity|].
  split; vm_compute; [discriminate|reflexivity].
Qed.

(** An answer file that holds a number: [5 and "answers" in 5] raises
    [TypeError]. *)
Example number_answer_raises :
  (@handle_ask_user_question example_codec (example_host 0 (Supply "5") [])
     2 two_questions blank).1
  = Raised TypeError.
Proof. vm_compute. reflexivity. Qed.

(** A question and an answer from before lie in the directory; the
    answer that counts, with free text, arrives during the first sleep. *)
Lemma both_files_gone_on_return_witness :
  (∃ p w',
     @handle_ask_user_question example_codec (example_host 0 (Supply free_text) [])
       2 two_questions littered = (Done p, w')
     ∧ files w' !! (task_dir littered, "question.json") = None
     ∧ files w' !! (task_dir littered, "answer.json") = None)
  ∧ (∀ rounds p w',
       @handle_ask_user_question example_codec (example_host 0 (Supply free_text) [])
         rounds two_questions littered = (Done p, w') →
       files w' !! (task_dir littered, "question.json") = None
       ∧ files w' !! (task_dir littered, "answer.json") = None).
Proof.
  apply (@both_files_gone_on_return example_codec (example_host 0 (Supply free_text) [])
           two_questions littered 0 2).
  - apply (@by_free_text example_codec (example_host 0 (Supply free_text) [])
             two_questions littered 0 free_text [(PStr "text", PStr "Blue")] (PStr "Blue")
             [(PStr "question", PStr "Proceed?");
              (PStr "options", PList [PDict [(PStr "label", PStr "Yes")];
                                      PDict [(PStr "label", PStr "No")]])]
             "Proceed?" [colour]).
    + split; [intros i Hi; lia|]. split; [vm_compute; reflexivity|reflexivity].
    + vm_compute. reflexivity.
    + reflexivity.
    + reflexivity.
    + reflexivity.
    + reflexivity.
  - lia.
Defined.

(** What that call leaves of the two files. *)
Example littered_directory_cleaned :
  files (@handle_ask_user_question example_codec (example_host 0 (Supply free_text) [])
           2 two_questions littered).2 !! (task_dir littered, "question.json") = None
  ∧ files (@handle_ask_user_question example_codec (example_host 0 (Supply free_text) [])
             2 two_questions littered).2 !! (task_dir littered, "answer.json") = None
  ∧ (@handle_ask_user_question example_codec (example_host 0 (Supply free_text) [])
       2 two_questions littered).1
    = Done (PermissionResultAllow
              (updated (PList [proceed; colour]) (PDict [(PStr "Proceed?", PStr "Blue")]))).
Proof. repeat split; vm_compute; reflexivity. Qed.

Lemma default_lookup_elem {A} (l : list A) i d :
  (i < length l)%nat → default d (l !! i) ∈ l.
Proof.
  intros Hi. destruct (lookup_lt_is_Some_2 l i Hi) as [x Hx]. rewrite Hx. simpl.
  by apply list_elem_of_lookup_2 with i.
Qed.

(** In a run in which the agent asks its question, the directory goes
    through a state in which [question.json] is there while [status.json]
    still says [running]: the state the rename of the question leaves. *)
Lemma question_out_before_status_waits :
  ∃ s,
    s ∈ hist asking_run
    ∧ s.1 = Rename (task_dir blank, "question.tmp") (task_dir blank, "question.json")
    ∧ s.2 !! (task_dir blank, "question.json") ≠ None
    ∧ @status_is example_codec (task_dir blank) "running" s.2
    ∧ ¬ @status_is example_codec (task_dir blank) "waiting_for_answer" s.2.
Proof.
  exists (default (Actor Idle, ∅) (hist asking_run !! 9%nat)).
  split; [apply default_lookup_elem; vm_compute; lia|].
  split; [vm_compute; reflexivity|].
  split; [vm_compute; discriminate|].
  split.
  - exists "Claude Code session active", "2026-01-01T00:00:2", 4242.
    vm_compute. reflexivity.
  - intros (detail & stamp & pid & E). vm_compute in E. discriminate E.
Qed.

Lemma waiting_once_status_is_written_witness :
  ∃ early later qtext stext,
    hist (@handle_ask_user_question example_codec asking_host 5 two_questions blank).2
    = later ++ early ++ hist blank
    ∧ early.*1 = [Extend (task_dir blank, "status.tmp") stext;
                  Truncate (task_dir blank, "status.tmp");
                  Rename (task_dir blank, "question.tmp") (task_dir blank, "question.json");
                  Extend (task_dir blank, "question.tmp") qtext;
                  Truncate (task_dir blank, "question.tmp")]
    ∧ fst <$> last later
      = Some (Rename (task_dir blank, "status.tmp") (task_dir blank, "status.json"))
    ∧ Forall (λ s, @waiting_or_gone example_codec (task_dir blank) s.2) later.
Proof.
  apply (@waiting_once_status_is_written example_codec asking_host 5 two_questions blank).
Defined.

Lemma artifact_writes_atomic_witness :
  ∃ tmpname,
    durable tmpname = false
    ∧ @write_json_atomic example_codec (task_dir blank, "status.json") (PDict []) blank
      = (Done tt,
         replaced (task_dir blank) "status.json" tmpname
           (@json_dumps example_codec (PDict [])) blank).
Proof.
  apply (proj2 (@artifact_writes_atomic example_codec asking_host)). reflexivity.
Defined.

(** A session that breaks after the agent has spoken and run a tool. *)
Lemma fault_recorded_and_reraised_witness :
  ∃ w',
    @run_bridge example_codec broken_host 0 "t1" "/work" "Fix it" blank
    = (Raised (Foreign connection_lost), w')
    ∧ files w' !! (joinpath (@TASKS_DIR broken_host) "t1", "status.json")
      = Some (@json_dumps example_codec
                (status_record "error"
                   (fault_class connection_lost +:+ ": " +:+ fault_text connection_lost)
                   (@isoformat_now broken_host
                      (stamps (@session_loop example_codec broken_host 0 before_fault
                                 (@entered example_codec broken_host
                                    "t1" "/work" "Fix it" blank)).2))
                   (@getpid broken_host)))
    ∧ files w' !! (joinpath (@TASKS_DIR broken_host) "t1", "output.log")
      = Some (default EmptyString
                (files (@session_loop example_codec broken_host 0 before_fault
                          (@entered example_codec broken_host "t1" "/work" "Fix it" blank)).2
                 !! (joinpath (@TASKS_DIR broken_host) "t1", "output.log"))
              +:+ nl +:+ "[BRIDGE ERROR] " +:+ fault_class connection_lost +:+ ": "
              +:+ fault_text connection_lost +:+ nl).
Proof.
  apply (@fault_recorded_and_reraised example_codec broken_host 0 "t1" "/work" "Fix it"
           blank before_fault connection_lost []).
  - reflexivity.
  - reflexivity.
  - apply run_pair. vm_compute. reflexivity.
Defined.

(** An interrupt derives from [BaseException] alone: [except Exception]
    lets it pass, and the status stays [running]. *)
Example interrupt_passes_unrecorded :
  (@run_bridge example_codec
     (example_host 0 Idle [Faults (Fault "KeyboardInterrupt" EmptyString false)])
     0 "t1" "/work" "Fix it" blank).1
  = Raised (Foreign (Fault "KeyboardInterrupt" EmptyString false))
  ∧ files (@run_bridge example_codec
             (example_host 0 Idle [Faults (Fault "KeyboardInterrupt" EmptyString false)])
             0 "t1" "/work" "Fix it" blank).2
    !! (task_dir blank, "status.json")
    = Some (@json_dumps example_codec
              (status_record "running" "Claude Code session active"
                 "2026-01-01T00:00:2" 4242)).
Proof. split; vm_compute; reflexivity. Qed.

(** What that run leaves in the status and in the log. *)
Example broken_run_status :
  files (@run_bridge example_codec broken_host 0 "t1" "/work" "Fix it" blank).2
  !! (task_dir blank, "status.json")
  = Some (@json_dumps example_codec
            (status_record "error" "RuntimeError: connection lost" "2026-01-01T00:00:3" 4242)).
Proof. vm_compute. reflexivity. Qed.

Example broken_run_log :
  files (@run_bridge example_codec broken_host 0 "t1" "/work" "Fix it" blank).2
  !! (task_dir blank, "output.log")
  = Some ("Looking." +:+ nl +:+ "[Tool: Bash]" +:+ nl +:+ nl
          +:+ "[BRIDGE ERROR] RuntimeError: connection lost" +:+ nl).
Proof. vm_compute. reflexivity. Qed.

Lemma other_tools_allowed_and_logged_witness :
  (∀ fuel input_data w,
     @can_use_tool example_codec broken_host fuel "Bash" input_data w
     = (Done (PermissionResultAllow (PDict input_data)), w))
  ∧ (∀ input w,
       ∃ w',
         @on_message example_codec broken_host
           (AssistantMessage [ToolUseBlock "Bash" input]) w = (Done tt, w')
         ∧ files w'
           = <[(task_dir w, "output.log") :=
                 default EmptyString (files w !! (task_dir w, "output.log"))
                 +:+ "[Tool: " +:+ "Bash" +:+ "]" +:+ nl]> (files w)).
Proof.
  apply (@other_tools_allowed_and_logged example_codec broken_host "Bash").
  discriminate.
Defined.

(** * Further properties of the bridge *)

(** ** Every step of a run is a step of its phase *)

Section Phases.
Context `{Codec} `{Host}.
Implicit Types w : world.

Lemma linked_mono (P Q : gmap path string → fs_op → gmap path string → Prop) h fs0 :
  (∀ prev op next, P prev op next → Q prev op next) → linked P h fs0 → linked Q h fs0.
Proof.
  intros HPQ. induction h as [|s h IH]; simpl; [done|].
  intros [Hs Hh]. split; auto.
Qed.

Lemma status_artifact ph : ("status.json", "status.tmp") ∈ artifacts ph.
Proof. unfold artifacts. set_solver. Qed.

Lemma question_artifact ph : ("question.json", "question.tmp") ∈ artifacts ph.
Proof. unfold artifacts. set_solver. Qed.

Lemma result_artifact ph : ph ≠ Wait → ("result.json", "result.tmp") ∈ artifacts ph.
Proof. unfold artifacts. destruct ph; [done|set_solver..]. Qed.

Lemma written_status ph tag detail stamp :
  tag ∈ tags ph → written ph "status.json" (status_record tag detail stamp getpid).
Proof. intros Ht _. by exists tag, detail, stamp. Qed.

Lemma written_other ph name data : name ≠ "status.json" → written ph name data.
Proof. by intros Hne ?. Qed.

Lemma replacing_step ph d name tmpname data fs :
  (name, tmpname) ∈ artifacts ph → written ph name data →
  replacing (bridge_step ph d) d name tmpname (json_dumps data) fs.
Proof.
  intros Ha Hw. split; [|split].
  - by apply step_open with name.
  - by apply step_fill with name.
  - apply step_replace; [done..|]. by rewrite lookup_insert_eq.
Qed.

Lemma write_status_step ph d tag detail w :
  tag ∈ tags ph → task_dir w = d →
  wp (bridge_step ph d) (write_status d tag detail) (in_dir d) w.
Proof.
  intros Ht Hd. apply wp_write_status; [|done].
  apply replacing_step; [apply status_artifact|by apply written_status].
Qed.

Lemma unlink_step ph d name missing_ok w :
  name = "question.json" ∨ name = "answer.json" → task_dir w = d →
  wp (bridge_step ph d) (unlink (d, name) missing_ok) (in_dir d) w.
Proof.
  intros Hn Hd. apply wp_unlink.
  destruct (files w !! (d, name)); [split; [by apply step_unlink|done]|].
  by destruct missing_ok.
Qed.

Lemma append_log_step ph d text w :
  ph ≠ Wait → task_dir w = d →
  wp (bridge_step ph d) (append_log d text) (in_dir d) w.
Proof.
  intros Hph Hd. unfold append_log. apply wp_bind, wp_touch.
  destruct (files w !! (d, "output.log")) eqn:E; [|split; [by apply step_touch|]]; simpl;
    (apply wp_extend; [by apply step_log|done]).
Qed.

Lemma poll_step ph fuel : ∀ qs d st w,
  task_dir w = d →
  wp (bridge_step ph d) (poll fuel qs (d, "answer.json") st) (in_dir d) w.
Proof.
  assert ("running" ∈ tags ph) as Hrun by (unfold tags; set_solver).
  induction fuel as [|fuel IH]; intros qs d st w Hd.
  { by eapply wp_still. }
  cbn [poll]. apply wp_bind, wp_exists.
  destruct (files w !! (d, "answer.json")) as [text|] eqn:Ea.
  - simpl. apply wp_bind, wp_read_json. rewrite Ea.
    destruct (json_loads text) as [v|]; [|done]. simpl.
    apply wp_bind, wp_task_path. simpl. rewrite Hd.
    apply wp_seq_in_dir; [apply unlink_step; auto|]. intros _ w1 Hd1.
    apply wp_seq_in_dir; [apply unlink_step; auto|]. intros _ w2 Hd2.
    apply wp_bind, wp_get_task_dir. simpl. rewrite Hd2.
    apply wp_seq_in_dir; [by apply write_status_step|]. intros _ w3 Hd3.
    apply wp_bind, wp_lift. destruct (resolve_answers qs v); simpl; [done|].
    by apply wp_ret.
  - simpl. apply wp_bind, wp_time_now. simpl.
    destruct (timed_out _ _).
    + apply wp_bind, wp_task_path. simpl. rewrite Hd.
      apply wp_seq_in_dir; [apply unlink_step; auto|]. intros _ w1 Hd1.
      apply wp_bind, wp_get_task_dir. simpl. rewrite Hd1.
      apply wp_seq_in_dir; [by apply write_status_step|]. intros _ w2 Hd2.
      apply wp_bind, wp_lift. destruct (py_iter qs) as [|l]; simpl; [done|].
      apply wp_bind, wp_lift. destruct (default_answers l []); simpl; [done|].
      by apply wp_ret.
    + apply wp_bind, wp_sleep; [simpl; rewrite Hd; apply step_actor|]. simpl. by apply IH.
Qed.

Lemma handle_step ph fuel input_data d w :
  task_dir w = d →
  wp (bridge_step ph d) (handle_ask_user_question fuel input_data) (in_dir d) w.
Proof.
  intros Hd. unfold handle_ask_user_question.
  apply wp_bind, wp_task_path. simpl. rewrite Hd.
  apply wp_bind, wp_now_isoformat. simpl.
  apply wp_bind, (wp_write_json_atomic _ _ _ "question.tmp"); [done| |].
  { apply replacing_step; [apply question_artifact|by apply written_other]. }
  simpl. apply wp_bind, wp_get_task_dir. simpl. rewrite Hd.
  apply wp_seq_in_dir.
  { apply write_status_step; [unfold tags; set_solver|done]. }
  intros _ w1 Hd1.
  apply wp_bind, wp_task_path. simpl. rewrite Hd1.
  apply wp_bind, wp_exists. simpl.
  apply wp_seq_in_dir.
  { destruct (files w1 !! (d, "answer.json")) eqn:E; simpl; [|by apply wp_ret].
    apply unlink_step; auto. }
  intros _ w2 Hd2. apply wp_bind, wp_time_now. simpl. by apply poll_step.
Qed.

Lemma can_use_tool_step ph fuel tool_name input_data d w :
  task_dir w = d →
  wp (bridge_step ph d) (can_use_tool fuel tool_name input_data) (in_dir d) w.
Proof.
  intros Hd. unfold can_use_tool.
  destruct (String.eqb _ _); [by apply handle_step|by apply wp_ret].
Qed.

Lemma on_message_step ph m d w :
  ph ≠ Wait → task_dir w = d → wp (bridge_step ph d) (on_message m) (in_dir d) w.
Proof.
  intros Hph Hd. destruct m as [content|r|]; simpl; [| |by apply wp_ret].
  - revert w Hd. induction content as [|b content IH]; intros w Hd; simpl;
      [by apply wp_ret|].
    apply wp_seq_in_dir; [|intros _ w' Hd'; by apply IH].
    destruct b; simpl; [| |by apply wp_ret];
      (apply wp_bind, wp_get_task_dir; simpl; rewrite Hd; by apply append_log_step).
  - apply wp_bind, wp_now_isoformat. simpl.
    apply wp_bind, wp_task_path. simpl. rewrite Hd.
    apply wp_bind, (wp_write_json_atomic _ _ _ "result.tmp"); [done| |].
    { apply replacing_step; [by apply result_artifact|by apply written_other]. }
    simpl. apply wp_bind, wp_get_task_dir. simpl. rewrite Hd.
    destruct (truthy _); (apply write_status_step; [|done]);
      unfold tags; destruct ph; set_solver.
Qed.

Lemma session_loop_step ph fuel events : ∀ d w,
  ph ≠ Wait → task_dir w = d →
  wp (bridge_step ph d) (session_loop fuel events) (in_dir d) w.
Proof.
  induction events as [|ev events IH]; intros d w Hph Hd; simpl; [by apply wp_ret|].
  destruct ev as [m|tool_name input_data|f].
  - apply wp_seq_in_dir; [by apply on_message_step|intros _ w' Hd'; by apply IH].
  - apply wp_seq_in_dir; [|intros _ w' Hd'; by apply IH].
    by apply wp_deliver_in_dir, can_use_tool_step.
  - by apply wp_raise.
Qed.

Lemma on_fault_step ph e d w :
  ph ≠ Wait → task_dir w = d → wp (bridge_step ph d) (on_fault e) (in_dir d) w.
Proof.
  intros Hph Hd. unfold on_fault.
  apply wp_bind, wp_get_task_dir. simpl. rewrite Hd.
  apply wp_seq_in_dir.
  { apply write_status_step; [|done]. unfold tags. destruct ph; set_solver. }
  intros _ w1 Hd1. apply wp_bind, wp_get_task_dir. simpl. rewrite Hd1.
  apply wp_seq_in_dir; [by apply append_log_step|]. intros _ w2 Hd2.
  by apply wp_raise.
Qed.

Lemma guarded_session_step ph fuel events d w :
  ph ≠ Wait → task_dir w = d →
  wp (bridge_step ph d) (try_except (session_loop fuel events) on_fault) (in_dir d) w.
Proof.
  intros Hph Hd. apply wp_try_except_in_dir; [by apply session_loop_step|].
  intros e w' Hd'. by apply on_fault_step.
Qed.

Lemma run_bridge_step fuel task_id workdir prompt w :
  wp (bridge_step Startup (joinpath TASKS_DIR task_id))
    (run_bridge fuel task_id workdir prompt) (in_dir (joinpath TASKS_DIR task_id)) w.
Proof.
  set (d := joinpath TASKS_DIR task_id). unfold run_bridge. fold d.
  apply wp_bind, wp_set_task_dir. simpl.
  apply wp_bind, wp_get_task_dir. simpl.
  apply wp_bind, wp_ret. simpl.
  apply wp_bind, wp_task_path. simpl.
  apply wp_bind, wp_write_text; [by apply step_pid_open|by apply step_pid|]. simpl.
  apply wp_bind, wp_task_path. simpl.
  apply wp_bind, wp_now_isoformat. simpl.
  apply wp_bind, (wp_write_json_atomic _ _ _ "task.tmp"); [done| |].
  { apply replacing_step; [unfold artifacts; set_solver|by apply written_other]. }
  simpl. apply wp_bind, wp_get_task_dir. simpl.
  apply wp_seq_in_dir.
  { apply write_status_step; [unfold tags; set_solver|done]. }
  intros _ w1 Hd1.
  apply wp_bind, wp_task_path. simpl. rewrite Hd1.
  apply wp_seq_in_dir.
  { apply wp_touch. destruct (files w1 !! (d, "output.log")) eqn:E; [done|].
    split; [by apply step_touch|done]. }
  intros _ w2 Hd2. apply wp_bind, wp_get_task_dir. simpl. rewrite Hd2.
  apply wp_seq_in_dir.
  { apply write_status_step; [unfold tags; set_solver|done]. }
  intros _ w3 Hd3.
  change (wp (bridge_step Startup d) (try_except (session_loop fuel (query prompt workdir))
                                       on_fault) (in_dir d) w3).
  by apply guarded_session_step.
Qed.

End Phases.

(** ** What every step of a run keeps *)

Section Kept.
Context `{Codec} `{Host}.
Implicit Types w : world.

Lemma append_empty_r (s : string) : s +:+ EmptyString = s.
Proof.
  induction s as [|c s IH]; [done|].
  change (String c (s +:+ EmptyString) = String c s). by rewrite IH.
Qed.

Lemma append_assoc (s t u : string) : (s +:+ t) +:+ u = s +:+ (t +:+ u).
Proof.
  induction s as [|c s IH]; [done|].
  change (String c ((s +:+ t) +:+ u) = String c (s +:+ (t +:+ u))). by rewrite IH.
Qed.

Lemma artifacts_cases ph name tmpname :
  (name, tmpname) ∈ artifacts ph →
  (name, tmpname) ∈ [("status.json", "status.tmp"); ("question.json", "question.tmp");
                     ("result.json", "result.tmp"); ("task.json", "task.tmp")].
Proof.
  unfold artifacts. destruct ph; simpl; rewrite ?elem_of_cons, ?elem_of_nil; tauto.
Qed.

Lemma tags_startup ph tag : tag ∈ tags ph → tag ∈ tags Startup.
Proof. unfold tags. destruct ph; simpl; rewrite ?elem_of_cons, ?elem_of_nil; tauto. Qed.

(** What holds of the files when a computation starts, and is kept by
    every step it may take, holds after each of its steps and at its
    end. *)
Lemma wp_invariant {A : Type} (P : gmap path string → fs_op → gmap path string → Prop)
    (m : M A) (Q : outcome A → world → Prop) w (I : gmap path string → Prop) :
  wp P m Q w →
  (∀ prev op next, P prev op next → I prev → I next) →
  I (files w) →
  ∃ new, hist (m w).2 = new ++ hist w
         ∧ Forall (λ s, I s.2) new
         ∧ I (files (m w).2).
Proof.
  intros (new & Hh & Hl & Hf & _) Hstep Hinit. exists new. split; [done|].
  rewrite Hf. apply linked_invariant; [|done].
  by apply (linked_mono P).
Qed.

Ltac look :=
  repeat first [rewrite lookup_insert_eq
               |rewrite lookup_delete_eq
               |rewrite lookup_insert_ne by (intros [=])
               |rewrite lookup_delete_ne by (intros [=])].

Ltac each_artifact Ha :=
  apply artifacts_cases in Ha;
  repeat (apply elem_of_cons in Ha as [[= -> ->]|Ha]); [..|by apply elem_of_nil in Ha].

Lemma step_keeps_log ph d prev op next :
  bridge_step ph d prev op next → log_kept d prev op next.
Proof.
  intros Hstep text Hlog.
  destruct Hstep as [name tmpname fs Ha|name tmpname data fs Ha _|name tmpname data fs Ha _ _
                    |name fs [->| ->]|m fs|fs _ Hno|more fs _|fs _|fs _];
    try each_artifact Ha;
    try (exists EmptyString; rewrite append_empty_r; look; done).
  - exists EmptyString. rewrite append_empty_r. destruct m; simpl; look; done.
  - congruence.
  - exists more. look. by rewrite Hlog.
Qed.



Lemma step_keeps_status ph d prev op next :
  bridge_step ph d prev op next → status_valid d prev → status_valid d next.
Proof.
  intros Hstep (tag & detail & stamp & Ht & Hs).
  destruct Hstep as [name tmpname fs Ha|name tmpname data fs Ha _|name tmpname data fs Ha Hw _
                    |name fs [->| ->]|m fs|fs _ Hno|more fs _|fs _|fs _];
    try each_artifact Ha;
    try (destruct (Hw eq_refl) as (tag' & detail' & stamp' & Ht' & ->);
         exists tag', detail', stamp'; split; [by eapply tags_startup|by look]);
    try (exists tag, detail, stamp; split; [done|];
         try (destruct m; simpl); look; done).
Qed.

Lemma step_keeps_marks ph d prev op next (p : path) :
  ph ≠ Startup →
  p = (d, "bridge.pid") ∨ p = (d, "task.json") →
  bridge_step ph d prev op next → next !! p = prev !! p.
Proof.
  intros Hph Hp Hstep.
  destruct Hstep as [name tmpname fs Ha|name tmpname data fs Ha _|name tmpname data fs Ha _ _
                    |name fs [->| ->]|m fs|fs _ Hno|more fs _|fs ?|fs ?];
    try done;
    try (unfold artifacts in Ha; destruct ph; [| |done];
         repeat (apply elem_of_cons in Ha as [[= -> ->]|Ha]); try (by apply elem_of_nil in Ha));
    try (destruct m; simpl);
    destruct Hp as [-> | ->]; look; done.
Qed.

Lemma wait_keeps_log d prev op next :
  bridge_step Wait d prev op next → next !! (d, "output.log") = prev !! (d, "output.log").
Proof.
  intros Hstep.
  destruct Hstep as [name tmpname fs Ha|name tmpname data fs Ha _|name tmpname data fs Ha _ _
                    |name fs [->| ->]|m fs|fs ? Hno|more fs ?|fs ?|fs ?];
    try done;
    try each_artifact Ha;
    try (destruct m; simpl); look; done.
Qed.

End Kept.

(** ** Whole runs *)

Section Runs.
Context `{Codec} `{Host}.
Implicit Types w : world.

Ltac look :=
  repeat first [rewrite lookup_insert_eq
               |rewrite lookup_delete_eq
               |rewrite lookup_insert_ne by (intros [=])
               |rewrite lookup_delete_ne by (intros [=])].

(** The files with which [run_bridge] enters its [try] block. *)
Lemma entered_files task_id workdir prompt w :
  let d := joinpath TASKS_DIR task_id in
  let fs := files (entered task_id workdir prompt w) in
  marked task_id workdir prompt w fs
  ∧ fs !! (d, "status.json")
    = Some (json_dumps (status_record "running" "Claude Code session active"
                          (isoformat_now (S (S (stamps w)))) getpid))
  ∧ fs !! (d, "output.log") = Some (default EmptyString (files w !! (d, "output.log"))).
Proof.
  intros d fs. subst fs. unfold entered, marked. fold d. simpl.
  case_match eqn:E; simpl; simpl in E;
    repeat first [rewrite lookup_insert_ne in E by (intros [=])
                 |rewrite lookup_delete_ne in E by (intros [=])];
    repeat split; look; by rewrite ?E.
Qed.

(** X1.  The output log is append-only over a whole run of [run_bridge],
    callbacks and the [except] clause included: every step leaves the text
    the log holds where it is, at most with more after it, so a log that
    is there when the run starts is never truncated and its text is the
    beginning of the log the run leaves. *)
Theorem log_only_grows fuel task_id workdir prompt w :
  let d := joinpath TASKS_DIR task_id in
  let w' := (run_bridge fuel task_id workdir prompt w).2 in
  ∃ new,
    hist w' = new ++ hist w
    ∧ linked (log_kept d) new (files w)
    ∧ (∀ text, files w !! (d, "output.log") = Some text →
         ∃ more, files w' !! (d, "output.log") = Some (text +:+ more)).
Proof.
  intros d w'.
  destruct (run_bridge_step fuel task_id workdir prompt w) as (new & Hh & Hl & Hf & _).
  fold d in Hl. exists new. split; [done|]. split.
  - apply linked_mono with (bridge_step Startup d); [apply step_keeps_log|done].
  - intros text Ht. subst w'. rewrite Hf.
    apply (linked_invariant
             (λ fs, ∃ more, fs !! (d, "output.log") = Some (text +:+ more)) new (files w)).
    + apply linked_mono with (bridge_step Startup d); [|done].
      intros prev op next Hs [more Hp].
      destruct (step_keeps_log _ _ _ _ _ Hs _ Hp) as [more' Hn].
      exists (more +:+ more'). by rewrite <- append_assoc.
    + exists EmptyString. by rewrite append_empty_r.
Qed.


(** X3.  Once [run_bridge] has entered its [try] block, [status.json]
    holds at every state of the directory, and when the run ends however
    it ends, a status record of this process whose state is one of
    [starting], [running], [waiting_for_answer], [complete] and [error]. *)
Theorem status_always_a_record fuel task_id workdir prompt w :
  let d := joinpath TASKS_DIR task_id in
  let w' := (run_bridge fuel task_id workdir prompt w).2 in
  ∃ new,
    hist w' = new ++ hist (entered task_id workdir prompt w)
    ∧ Forall (λ s, status_valid d s.2) new
    ∧ status_valid d (files w').
Proof.
  intros d w'. subst w'. rewrite run_bridge_unfold.
  apply (wp_invariant (bridge_step Session d) _ (in_dir d)).
  - apply guarded_session_step; [done|apply entered_dir].
  - intros prev op next. apply step_keeps_status.
  - destruct (entered_files task_id workdir prompt w) as (_ & Hs & _).
    exists "running", "Claude Code session active", (isoformat_now (S (S (stamps w)))).
    split; [|done]. unfold tags. simpl. rewrite !elem_of_cons. tauto.
Qed.

(** X4.  The pid file and the task metadata are written once: from the
    moment [run_bridge] enters its [try] block, at every state of the
    directory and when the run ends, [bridge.pid] holds the process id and
    [task.json] the metadata written at startup, whatever the session and
    the external actor do. *)
Theorem marker_and_metadata_stay fuel task_id workdir prompt w :
  let w' := (run_bridge fuel task_id workdir prompt w).2 in
  ∃ new,
    hist w' = new ++ hist (entered task_id workdir prompt w)
    ∧ Forall (λ s, marked task_id workdir prompt w s.2) new
    ∧ marked task_id workdir prompt w (files w').
Proof.
  intros w'. subst w'. rewrite run_bridge_unfold.
  set (d := joinpath TASKS_DIR task_id).
  apply (wp_invariant (bridge_step Session d) _ (in_dir d)).
  - apply guarded_session_step; [done|apply entered_dir].
  - intros prev op next Hs [Hpid Htask]. unfold marked. fold d.
    rewrite (step_keeps_marks Session d prev op next (d, "bridge.pid")) by auto.
    rewrite (step_keeps_marks Session d prev op next (d, "task.json")) by auto.
    done.
  - by destruct (entered_files task_id workdir prompt w) as (? & _).
Qed.

End Runs.

(** ** What the log receives *)

Section Transcript.
Context `{Codec} `{Host}.
Implicit Types w : world.

Ltac look :=
  repeat first [rewrite lookup_insert_eq
               |rewrite lookup_delete_eq
               |rewrite lookup_insert_ne by (intros [=])
               |rewrite lookup_delete_ne by (intros [=])].

(** The blocks of an assistant message touch the log only, and add their
    lines to it in order. *)
Lemma blocks_run content : ∀ w,
  ∃ w',
    for_each on_block content w = (Done tt, w')
    ∧ task_dir w' = task_dir w
    ∧ (∀ p, p ≠ (task_dir w, "output.log") → files w' !! p = files w !! p)
    ∧ default EmptyString (files w' !! (task_dir w, "output.log"))
      = default EmptyString (files w !! (task_dir w, "output.log"))
        +:+ message_lines (AssistantMessage content)
    ∧ (is_Some (files w !! (task_dir w, "output.log")) →
       is_Some (files w' !! (task_dir w, "output.log"))).
Proof.
  induction content as [|b content IH]; intros w.
  { exists w. simpl. by rewrite append_empty_r. }
  assert (∃ w1, on_block b w = (Done tt, w1)
                ∧ task_dir w1 = task_dir w
                ∧ (∀ p, p ≠ (task_dir w, "output.log") → files w1 !! p = files w !! p)
                ∧ default EmptyString (files w1 !! (task_dir w, "output.log"))
                  = default EmptyString (files w !! (task_dir w, "output.log"))
                    +:+ log_line b
                ∧ (is_Some (files w !! (task_dir w, "output.log")) →
                   is_Some (files w1 !! (task_dir w, "output.log")))) as (w1 & Hb & Hd & Hf & Hl & Hs).
  { destruct b as [text|name input|]; simpl.
    - destruct (append_log_run (task_dir w) (text +:+ nl) w) as (w1 & Hrun & Hd & Hf).
      exists w1. erewrite bind_done by reflexivity. rewrite Hf.
      split; [done|]. split; [done|]. split; [|split].
      + intros p Hp. by rewrite lookup_insert_ne.
      + by rewrite lookup_insert_eq.
      + intros _. by rewrite lookup_insert_eq.
    - destruct (append_log_run (task_dir w) ("[Tool: " +:+ name +:+ "]" +:+ nl) w)
        as (w1 & Hrun & Hd & Hf).
      exists w1. erewrite bind_done by reflexivity. rewrite Hf.
      split; [done|]. split; [done|]. split; [|split].
      + intros p Hp. by rewrite lookup_insert_ne.
      + by rewrite lookup_insert_eq.
      + intros _. by rewrite lookup_insert_eq.
    - exists w. by rewrite append_empty_r. }
  destruct (IH w1) as (w' & Hrun & Hd' & Hf' & Hl' & Hs'). rewrite Hd in *.
  exists w'. split; [|split; [|split; [|split]]].
  - simpl. by erewrite bind_done by exact Hb.
  - done.
  - intros p Hp. by rewrite Hf', Hf.
  - rewrite Hl', Hl. simpl. by rewrite append_assoc.
  - auto.
Qed.

(** A message adds its lines to the log; a result message and the
    messages of other kinds have none. *)
Lemma on_message_run m w :
  ∃ w',
    on_message m w = (Done tt, w')
    ∧ task_dir w' = task_dir w
    ∧ default EmptyString (files w' !! (task_dir w, "output.log"))
      = default EmptyString (files w !! (task_dir w, "output.log")) +:+ message_lines m
    ∧ (is_Some (files w !! (task_dir w, "output.log")) →
       is_Some (files w' !! (task_dir w, "output.log"))).
Proof.
  destruct m as [content|r|].
  - destruct (blocks_run content w) as (w' & ? & ? & _ & ? & ?). by exists w'.
  - unfold on_message.
    destruct (truthy (default (PBool false) (is_error r))); eexists;
      (erewrite bind_done by reflexivity);
      (erewrite bind_done by reflexivity);
      (erewrite bind_done by (by apply (write_json_atomic_run _ _ "result.tmp")));
      (erewrite bind_done by reflexivity);
      (split; [apply write_status_run|]);
      rewrite append_empty_r, !files_replaced; simpl; look; done.
  - exists w. simpl. by rewrite append_empty_r.
Qed.

Lemma deliver_world {A : Type} (m : M A) w : (deliver m w).2 = (m w).2.
Proof. unfold deliver. by destruct (m w) as [[a|e|] w']. Qed.

(** The permission callback leaves the log alone. *)
Lemma callback_keeps_log fuel tool_name input_data w :
  let w' := (deliver (can_use_tool fuel tool_name input_data) w).2 in
  task_dir w' = task_dir w
  ∧ files w' !! (task_dir w, "output.log") = files w !! (task_dir w, "output.log").
Proof.
  intros w'. subst w'. rewrite deliver_world.
  pose proof (can_use_tool_step Wait fuel tool_name input_data (task_dir w) w eq_refl)
    as Hwp.
  split; [exact (wp_outcome _ _ _ _ Hwp)|].
  destruct (wp_invariant _ _ _ _
              (λ fs, fs !! (task_dir w, "output.log") = files w !! (task_dir w, "output.log"))
              Hwp) as (_ & _ & _ & Hend); [|done|done].
  intros prev op next Hs <-. exact (wait_keeps_log _ _ _ _ Hs).
Qed.

(** A session that ends leaves in the log what was there, followed by
    the lines of its messages. *)
Lemma session_loop_log fuel events : ∀ w w',
  session_loop fuel events w = (Done tt, w') →
  task_dir w' = task_dir w
  ∧ default EmptyString (files w' !! (task_dir w, "output.log"))
    = default EmptyString (files w !! (task_dir w, "output.log")) +:+ transcript events
  ∧ (is_Some (files w !! (task_dir w, "output.log")) →
     is_Some (files w' !! (task_dir w, "output.log"))).
Proof.
  induction events as [|ev events IH]; intros w w' Hrun; simpl in Hrun.
  { injection Hrun as <-. simpl. by rewrite append_empty_r. }
  destruct ev as [m|tool_name input_data|f]; [| |done].
  - destruct (on_message_run m w) as (w1 & Hm & Hd & Hl & Hs).
    rewrite (bind_done _ _ _ _ _ Hm) in Hrun.
    destruct (IH _ _ Hrun) as (Hd' & Hl' & Hs'). rewrite Hd in *.
    split; [done|]. split; [|auto].
    rewrite Hl', Hl. simpl. by rewrite append_assoc.
  - destruct (callback_keeps_log fuel tool_name input_data w) as [Hd Hl].
    unfold bind in Hrun.
    destruct (deliver _ w) as [[[]|e|] w1]; [|done|done]. simpl in Hd, Hl.
    destruct (IH _ _ Hrun) as (Hd' & Hl' & Hs'). rewrite Hd in *. rewrite Hl in *.
    done.
Qed.

(** X5.  When [run_bridge] returns, the output log holds what it held
    before the run, followed by the lines of the assistant messages of the
    session in the order of the session: the text of a text block and
    [[Tool: name]] for a tool-use block, each ended by a newline.  Nothing
    else is written to the log: not by a result message, not by the
    permission callback, not by the startup. *)
Theorem log_is_transcript fuel task_id workdir prompt w :
  (run_bridge fuel task_id workdir prompt w).1 = Done tt →
  files (run_bridge fuel task_id workdir prompt w).2
    !! (joinpath TASKS_DIR task_id, "output.log")
  = Some (default EmptyString (files w !! (joinpath TASKS_DIR task_id, "output.log"))
          +:+ transcript (query prompt workdir)).
Proof.
  rewrite run_bridge_unfold. unfold try_except.
  destruct (session_loop fuel (query prompt workdir) (entered task_id workdir prompt w))
    as [[[]|e|] w1] eqn:E; simpl; [|destruct (is_Exception e); [|done]|done].
  - intros _. destruct (session_loop_log _ _ _ _ E) as (_ & Hl & Hs).
    rewrite entered_dir in Hl, Hs.
    destruct (entered_files task_id workdir prompt w) as (_ & _ & Hlog).
    rewrite Hlog in Hl, Hs. simpl in Hl.
    destruct Hs as [text Ht]; [by eexists|]. rewrite Ht in Hl. simpl in Hl.
    by rewrite Ht, Hl.
  - destruct (on_fault_run e w1) as (w' & -> & _). done.
Qed.

(** A session of silent events returns and changes nothing but the
    log. *)
Lemma silent_session fuel events : ∀ w,
  forallb silent events = true →
  ∃ w',
    session_loop fuel events w = (Done tt, w')
    ∧ task_dir w' = task_dir w
    ∧ (∀ p, p ≠ (task_dir w, "output.log") → files w' !! p = files w !! p).
Proof.
  induction events as [|ev events IH]; intros w Hall; simpl in *.
  { by exists w. }
  apply andb_prop in Hall as [Hev Hall].
  assert (∃ w1, (match ev with
                 | Yields m => on_message m
                 | Permission tool_name input_data =>
                     deliver (can_use_tool fuel tool_name input_data)
                 | Faults f => raise (Foreign f)
                 end) w = (Done tt, w1)
                ∧ task_dir w1 = task_dir w
                ∧ (∀ p, p ≠ (task_dir w, "output.log") → files w1 !! p = files w !! p))
    as (w1 & Hone & Hd & Hf).
  { destruct ev as [[content|r|]|tool_name input_data|f]; try done.
    - destruct (blocks_run content w) as (w1 & ? & ? & ? & _). by exists w1.
    - by exists w.
    - exists w. unfold can_use_tool, deliver.
      apply negb_true_iff in Hev. by rewrite Hev. }
  destruct (IH w1 Hall) as (w' & Hrun & Hd' & Hf'). rewrite Hd in *.
  exists w'. split; [|split; [done|]].
  - destruct ev as [m|tool_name input_data|f]; [| |discriminate Hone];
      by erewrite bind_done by exact Hone.
  - intros p Hp. by rewrite Hf', Hf.
Qed.

(** X17.  The terminal states are written for a result message only: a
    session that ends without one, without a fault and without a question
    makes [run_bridge] return with the status still [running], as written
    before the session, and with no result record written. *)
Theorem running_without_result fuel task_id workdir prompt w :
  forallb silent (query prompt workdir) = true →
  let d := joinpath TASKS_DIR task_id in
  ∃ w',
    run_bridge fuel task_id workdir prompt w = (Done tt, w')
    ∧ files w' !! (d, "status.json")
      = Some (json_dumps (status_record "running" "Claude Code session active"
                            (isoformat_now (S (S (stamps w)))) getpid))
    ∧ files w' !! (d, "result.json") = files w !! (d, "result.json").
Proof.
  intros Hall d.
  destruct (silent_session fuel _ (entered task_id workdir prompt w) Hall)
    as (w' & Hrun & _ & Hf).
  exists w'. rewrite run_bridge_unfold. unfold try_except. rewrite Hrun.
  split; [done|]. rewrite entered_dir in Hf. fold d in Hf.
  rewrite !Hf by (intros [=]).
  destruct (entered_files task_id workdir prompt w) as (_ & Hs & _).
  split; [done|].
  unfold entered. fold d. simpl. case_match; simpl; look; done.
Qed.

End Transcript.

(** ** How a wait ends *)

Section Ends.
Context `{Codec} `{Host}.
Implicit Types w : world.

Ltac look :=
  repeat first [rewrite lookup_insert_eq
               |rewrite lookup_delete_eq
               |rewrite lookup_insert_ne by (intros [=])
               |rewrite lookup_delete_ne by (intros [=])].

Lemma observe_ended qs text :
  (∃ p, observe qs text = Done p) ∨ (∃ e, observe qs text = Raised e).
Proof.
  unfold observe. destruct (json_loads text); [|by right; eexists].
  destruct (resolve_answers qs p); [right|left]; by eexists.
Qed.

Lemma expire_ended qs : (∃ p, expire qs = Done p) ∨ (∃ e, expire qs = Raised e).
Proof.
  unfold expire. destruct (py_iter qs) as [|l]; [by right; eexists|].
  destruct (default_answers l []); [right|left]; by eexists.
Qed.

(** A poll that reads a clock past the deadline within its rounds does
    not go on polling. *)
Lemma poll_ends k : ∀ fuel qs d st w,
  task_dir w = d →
  timed_out st (time_time (clock_reads w + k)) = true →
  (k < fuel)%nat →
  let r := (poll fuel qs (d, "answer.json") st w).1 in
  (∃ p, r = Done p) ∨ (∃ e, r = Raised e).
Proof.
  induction k as [|k IH]; intros fuel qs d st w Hd Ht Hk;
    (destruct fuel as [|fuel]; [lia|]);
    (destruct (files w !! (d, "answer.json")) as [text|] eqn:Ea;
       [rewrite (poll_round_observed _ _ d _ _ text) by done; apply observe_ended|]).
  - rewrite Nat.add_0_r in Ht. rewrite poll_round_expired by done. apply expire_ended.
  - destruct (timed_out st (time_time (clock_reads w))) eqn:Hnow.
    + rewrite poll_round_expired by done. apply expire_ended.
    + rewrite (poll_round_idle _ _ d) by done. apply IH; [done| |lia].
      simpl. by replace (S (clock_reads w + k)) with (clock_reads w + S k)%nat by lia.
Qed.

(** X6.  The wait cannot go on forever: if the round [k] after the call
    finds the clock past the deadline, [handle_ask_user_question] has
    returned or raised within [k + 1] rounds of polling, whatever the
    external actor does. *)
Theorem wait_ends_by_deadline fuel input_data w k :
  timed_out (time_time (clock_reads w)) (time_time (clock_reads w + 1 + k)) = true →
  (k < fuel)%nat →
  (∃ p, (handle_ask_user_question fuel input_data w).1 = Done p)
  ∨ (∃ e, (handle_ask_user_question fuel input_data w).1 = Raised e).
Proof.
  intros Ht Hk. rewrite handle_unfold.
  destruct (listening_facts input_data w) as (Hd & _ & _ & Hc).
  apply (poll_ends k); [done| |done]. rewrite Hc.
  by replace (S (clock_reads w) + k)%nat with (clock_reads w + 1 + k)%nat by lia.
Qed.

Lemma running_clean (d : string) (fs : gmap path string) (detail stamp : string) :
  fs !! (d, "question.json") = None →
  fs !! (d, "answer.json") = None →
  let fs' := <[(d, "status.json") := json_dumps (status_record "running" detail stamp getpid)]>
               (delete (d, "status.tmp") fs) in
  clean d fs' ∧ status_is d "running" fs'.
Proof.
  intros Hq Ha fs'. subst fs'. split; [split; by look|].
  exists detail, stamp, getpid. by look.
Qed.

Lemma poll_settles fuel : ∀ qs d st w,
  task_dir w = d →
  is_Some (files w !! (d, "question.json")) →
  status_is d "waiting_for_answer" (files w) →
  wp any_step (poll fuel qs (d, "answer.json") st) (settled d qs) w.
Proof.
  induction fuel as [|fuel IH]; intros qs d st w Hd Hq Hs.
  { by eapply wp_still. }
  cbn [poll]. apply wp_bind, wp_exists.
  destruct Hq as [qtext Hq].
  destruct (files w !! (d, "answer.json")) as [text|] eqn:Ea; simpl.
  - apply wp_bind, wp_read_json. rewrite Ea.
    destruct (json_loads text) as [v|] eqn:El; simpl.
    2: { left. rewrite Hq, Ea. eauto 10. }
    apply wp_bind, wp_task_path. simpl. rewrite Hd.
    apply wp_bind, wp_unlink. rewrite Hq. split; [done|]. simpl.
    apply wp_bind, wp_unlink. simpl. rewrite lookup_delete_ne by (intros [=]).
    rewrite Ea. split; [done|]. simpl.
    apply wp_bind, wp_get_task_dir. simpl. rewrite Hd.
    apply wp_bind, wp_write_status; [apply replacing_any|]. simpl.
    apply wp_bind, wp_lift.
    destruct (resolve_answers qs v) as [e|answers]; simpl.
    + right. apply running_clean; by look.
    + apply wp_ret. simpl. split; [by eexists|].
      apply running_clean; by look.
  - apply wp_bind, wp_time_now. simpl.
    destruct (timed_out st (time_time (clock_reads w))).
    + apply wp_bind, wp_task_path. simpl. rewrite Hd.
      apply wp_bind, wp_unlink. simpl. rewrite Hq. split; [done|]. simpl.
      apply wp_bind, wp_get_task_dir. simpl. rewrite Hd.
      apply wp_bind, wp_write_status; [apply replacing_any|]. simpl.
      apply wp_bind, wp_lift. destruct (py_iter qs) as [e|l]; simpl.
      { right. apply running_clean; by look. }
      apply wp_bind, wp_lift. destruct (default_answers l []) as [e|answers]; simpl.
      { right. apply running_clean; by look. }
      apply wp_ret. simpl. split; [by eexists|].
      apply running_clean; by look.
    + apply wp_bind, wp_sleep; [done|]. simpl. rewrite Hd. apply IH; simpl; [done| |].
      * destruct (actor (sleeps w)); simpl; look; by rewrite Hq.
      * destruct Hs as (detail & stamp & pid & Hs). exists detail, stamp, pid.
        destruct (actor (sleeps w)); simpl; look; done.
Qed.

Lemma listening_waits input_data w :
  let fs := files (listening input_data w) in
  is_Some (fs !! (task_dir w, "question.json"))
  ∧ status_is (task_dir w) "waiting_for_answer" fs.
Proof.
  intros fs. subst fs. unfold listening.
  assert (is_Some (files (asked input_data w) !! (task_dir w, "question.json"))
          ∧ status_is (task_dir w) "waiting_for_answer" (files (asked input_data w)))
    as [Hq Hs].
  { unfold asked. rewrite !files_replaced. simpl. split; [look; eauto|].
    do 3 eexists. by look. }
  destruct (files (asked input_data w) !! (task_dir w, "answer.json")); [|done].
  cbn [files record next_clock_read]. split; [by look|]. destruct Hs as (detail & stamp & pid & Hs).
  exists detail, stamp, pid. by look.
Qed.

Lemma handle_settles fuel input_data w :
  settled (task_dir w) (questions_of input_data)
    (handle_ask_user_question fuel input_data w).1
    (handle_ask_user_question fuel input_data w).2.
Proof.
  rewrite handle_unfold.
  destruct (listening_facts input_data w) as (Hd & _).
  destruct (listening_waits input_data w) as [Hq Hs].
  by apply (wp_outcome any_step), poll_settles.
Qed.

(** X7.  When [handle_ask_user_question] returns, by an answer or by the
    timeout, the result allows the tool, its input carries the questions
    as they came together with the answers, and the status is [running]
    again. *)
Theorem return_allows_and_runs fuel input_data w p w' :
  handle_ask_user_question fuel input_data w = (Done p, w') →
  (∃ answers, p = PermissionResultAllow (updated (questions_of input_data) answers))
  ∧ status_is (task_dir w) "running" (files w').
Proof.
  intros Hrun. pose proof (handle_settles fuel input_data w) as Hs.
  rewrite Hrun in Hs. simpl in Hs. tauto.
Qed.

(** X8.  When [handle_ask_user_question] raises, one of two things has
    happened.  Either the answer file was found and is not a text that
    [json.loads] takes: then nothing was cleaned up, the question and that
    answer are still in the directory and the status still says
    [waiting_for_answer].  Or the error arose while the answers were put
    together, after the cleanup: then both files are gone and the status
    is [running]. *)
Theorem failure_leaves fuel input_data w e w' :
  handle_ask_user_question fuel input_data w = (Raised e, w') →
  let d := task_dir w in
  (is_Some (files w' !! (d, "question.json"))
   ∧ (∃ text, files w' !! (d, "answer.json") = Some text ∧ json_loads text = None)
   ∧ status_is d "waiting_for_answer" (files w'))
  ∨ (clean d (files w') ∧ status_is d "running" (files w')).
Proof.
  intros Hrun d. pose proof (handle_settles fuel input_data w) as Hs.
  rewrite Hrun in Hs. destruct Hs as [(_ & Hq & Ha & Hs)|Hs]; [by left|by right].
Qed.

(** X9.  As long as [handle_ask_user_question] is polling, whatever the
    number of rounds it has gone through, the question file is in the
    directory and the status says [waiting_for_answer]. *)
Theorem question_out_while_polling fuel input_data w w' :
  handle_ask_user_question fuel input_data w = (Pending, w') →
  is_Some (files w' !! (task_dir w, "question.json"))
  ∧ status_is (task_dir w) "waiting_for_answer" (files w').
Proof.
  intros Hrun. pose proof (handle_settles fuel input_data w) as Hs.
  by rewrite Hrun in Hs.
Qed.

(** X10.  The bridge never denies a tool: whatever the tool and its
    input, a permission callback that returns returns an allow result. *)
Theorem never_denies fuel tool_name input_data w p w' :
  can_use_tool fuel tool_name input_data w = (Done p, w') →
  ∃ updated_input, p = PermissionResultAllow updated_input.
Proof.
  unfold can_use_tool. destruct (String.eqb tool_name "AskUserQuestion").
  - intros Hrun. pose proof (handle_settles fuel input_data w) as Hs.
    rewrite Hrun in Hs. destruct Hs as [[answers ->] _]. by eexists.
  - intros [= <- _]. by eexists.
Qed.

End Ends.

(** ** Faults, signals and files *)

Section Edges.
Context `{Codec} `{Host}.
Implicit Types w : world.

Ltac look :=
  repeat first [rewrite lookup_insert_eq
               |rewrite lookup_delete_eq
               |rewrite lookup_insert_ne by (intros [=])
               |rewrite lookup_delete_ne by (intros [=])].

(** X11.  [except Exception] does not take what derives from
    [BaseException] alone, such as [KeyboardInterrupt] or
    [asyncio.CancelledError]: if the session raises such an exception,
    [run_bridge] lets it pass and leaves the world as the session left it,
    with no [error] status written and no line added to the log. *)
Theorem passing_fault_unrecorded fuel task_id workdir prompt w before f rest w1 :
  query prompt workdir = before ++ Faults f :: rest →
  fault_is_Exception f = false →
  session_loop fuel before (entered task_id workdir prompt w) = (Done tt, w1) →
  run_bridge fuel task_id workdir prompt w = (Raised (Foreign f), w1).
Proof.
  intros Hq Hf Hrun. rewrite run_bridge_unfold, Hq. unfold try_except.
  rewrite (session_loop_fault _ _ _ _ _ _ Hrun). simpl. by rewrite Hf.
Qed.

(** X12.  What [write_json_atomic] writes, [read_json] reads back: for a
    path with a name and data that [json.loads] recovers from its
    [json.dumps] text, the file then holds that text, reading it yields
    the data and changes nothing, and the temporary file is not left
    behind. *)
Theorem written_json_reads_back (filepath : path) data w :
  filepath.2 ≠ EmptyString →
  json_loads (json_dumps data) = Some data →
  ∃ tmp w',
    with_suffix filepath ".tmp" = ok tmp
    ∧ write_json_atomic filepath data w = (Done tt, w')
    ∧ files w' !! filepath = Some (json_dumps data)
    ∧ read_json filepath w' = (Done data, w')
    ∧ (tmp ≠ filepath → files w' !! tmp = None).
Proof.
  destruct filepath as [dir name]. simpl. intros Hname Hload.
  assert (∃ tmpname, with_suffix (dir, name) ".tmp" = ok (dir, tmpname)) as [tmpname Htmp].
  { unfold with_suffix. simpl. destruct (String.eqb name EmptyString) eqn:E; [|by eexists].
    by apply String.eqb_eq in E. }
  exists (dir, tmpname), (replaced dir name tmpname (json_dumps data) w).
  split; [done|]. split; [by apply write_json_atomic_run|].
  rewrite files_replaced. split; [by rewrite lookup_insert_eq|]. split.
  - unfold read_json, exists_, read_text, bind, get_files, ret. simpl.
    rewrite lookup_insert_eq. rewrite bool_decide_eq_true_2 by eauto. simpl.
    rewrite ?lookup_insert_eq. by rewrite Hload.
  - intros Hne. rewrite lookup_insert_ne by done. by rewrite lookup_delete_eq.
Qed.

(** X13.  The handler of [SIGTERM]: in whatever state the signal finds
    the task directory, the handler leaves a status record with the state
    [error] and the detail [Process terminated by signal] in
    [status.json] of the directory [run_bridge] works in, written by an
    atomic replacement, and raises [SystemExit] with code 1, which no
    [except Exception] clause takes. *)
Theorem sigterm_records_and_exits task_id w :
  let d := joinpath TASKS_DIR task_id in
  let text := json_dumps (status_record "error" "Process terminated by signal"
                            (isoformat_now (stamps w)) getpid) in
  sigterm_handler task_id w
  = (Raised (Foreign (Fault "SystemExit" "1" false)),
     replaced d "status.json" "status.tmp" text (next_stamp w))
  ∧ files (sigterm_handler task_id w).2 !! (d, "status.json") = Some text
  ∧ (∀ handler, try_except (sigterm_handler task_id) handler w = sigterm_handler task_id w)
  ∧ (∀ fuel workdir prompt w0,
       task_dir (run_bridge fuel task_id workdir prompt w0).2 = d).
Proof.
  intros d text.
  assert (sigterm_handler task_id w
          = (Raised (Foreign (Fault "SystemExit" "1" false)),
             replaced d "status.json" "status.tmp" text (next_stamp w))) as Hrun.
  { unfold sigterm_handler. by erewrite bind_done by apply write_status_run. }
  split; [done|]. split; [|split].
  - rewrite Hrun. simpl. by rewrite lookup_insert_eq.
  - intros handler. unfold try_except. by rewrite Hrun.
  - intros fuel workdir prompt w0.
    exact (wp_outcome _ _ _ _ (run_bridge_step fuel task_id workdir prompt w0)).
Qed.

(** The entries of a result record. *)
Lemma set_if_has_lookup k attr d key :
  dict_lookup (PStr key) (set_if_has k attr d)
  = if String.eqb k key then match attr with Some v => Some v | None => dict_lookup (PStr key) d end
    else dict_lookup (PStr key) d.
Proof.
  unfold set_if_has. destruct (String.eqb k key) eqn:E.
  - apply String.eqb_eq in E as ->. destruct attr; [apply dict_lookup_store_eq|done].
  - apply String.eqb_neq in E. destruct attr; [by apply dict_lookup_store_ne|done].
Qed.

(** X14.  A result message is recorded and ends the task: [result.json]
    receives the subtype, the time of completion and those of [result],
    [session_id], [num_turns], [total_cost_usd] and [is_error] that the
    message has, each under its name, and the status then goes to [error]
    when [is_error] is truthy and to [complete] otherwise, the result
    record being in place before the status changes. *)
Theorem result_recorded r w :
  let d := task_dir w in
  let fields := result_data r (isoformat_now (stamps w)) in
  let w1 := replaced d "result.json" "result.tmp" (json_dumps (PDict fields)) (next_stamp w) in
  let failed := truthy (default (PBool false) (is_error r)) in
  let stext :=
    json_dumps (status_record (if failed then "error" else "complete")
                  (if failed then "Claude Code reported an error"
                   else "Task finished successfully")
                  (isoformat_now (S (stamps w))) getpid) in
  on_message (ResultMessage r) w
  = (Done tt, replaced d "status.json" "status.tmp" stext (next_stamp w1))
  ∧ files (on_message (ResultMessage r) w).2 !! (d, "result.json")
    = Some (json_dumps (PDict fields))
  ∧ files (on_message (ResultMessage r) w).2 !! (d, "status.json") = Some stext
  ∧ dict_lookup (PStr "subtype") fields = Some (subtype r)
  ∧ dict_lookup (PStr "completed_at") fields = Some (PStr (isoformat_now (stamps w)))
  ∧ dict_lookup (PStr "result") fields = result r
  ∧ dict_lookup (PStr "session_id") fields = session_id r
  ∧ dict_lookup (PStr "num_turns") fields = num_turns r
  ∧ dict_lookup (PStr "total_cost_usd") fields = total_cost_usd r
  ∧ dict_lookup (PStr "is_error") fields = is_error r.
Proof.
  intros d fields w1 failed stext.
  assert (on_message (ResultMessage r) w
          = (Done tt, replaced d "status.json" "status.tmp" stext (next_stamp w1))) as Hrun.
  { unfold on_message.
    erewrite bind_done by reflexivity.
    erewrite bind_done by reflexivity.
    erewrite bind_done by (by apply (write_json_atomic_run _ _ "result.tmp")).
    erewrite bind_done by reflexivity.
    subst stext failed. destruct (truthy (default (PBool false) (is_error r)));
      apply write_status_run. }
  split; [done|]. rewrite Hrun. simpl.
  split; [by look|]. split; [by look|].
  subst fields. unfold result_data. rewrite !set_if_has_lookup. simpl.
  repeat split; by case_match.
Qed.

End Edges.

(** ** What the outcome of a wait depends on *)

Section Depends.
Context `{Codec} `{Host}.
Implicit Types w : world.

Lemma poll_outcome_same fuel : ∀ qs d1 d2 st w1 w2,
  task_dir w1 = d1 → task_dir w2 = d2 →
  files w1 !! (d1, "answer.json") = files w2 !! (d2, "answer.json") →
  clock_reads w1 = clock_reads w2 →
  sleeps w1 = sleeps w2 →
  (poll fuel qs (d1, "answer.json") st w1).1 = (poll fuel qs (d2, "answer.json") st w2).1.
Proof.
  induction fuel as [|fuel IH]; intros qs d1 d2 st w1 w2 Hd1 Hd2 Ha Hc Hs; [done|].
  destruct (files w1 !! (d1, "answer.json")) as [text|] eqn:Ea1; symmetry in Ha.
  { by rewrite (poll_round_observed _ _ d1 _ w1 text), (poll_round_observed _ _ d2 _ w2 text). }
  destruct (timed_out st (time_time (clock_reads w1))) eqn:Ht.
  { rewrite (poll_round_expired _ _ d1 _ w1) by done.
    rewrite (poll_round_expired _ _ d2 _ w2) by (by rewrite <- ?Hc). done. }
  rewrite (poll_round_idle _ _ d1 _ w1) by done.
  rewrite (poll_round_idle _ _ d2 _ w2) by (by rewrite <- ?Hc).
  apply IH; simpl; [done|done| |by rewrite Hc|by rewrite Hs].
  rewrite <- Hs. destruct (actor (sleeps w1)); simpl.
  - by rewrite Ea1, Ha.
  - by rewrite !lookup_insert_eq.
  - by rewrite !lookup_delete_eq.
Qed.

(** X16.  What [handle_ask_user_question] returns or raises depends on
    the tool input, on the clock and on what the external actor does
    during the sleeps, and on nothing that is in the directory when it is
    called: neither an answer file left from an earlier question nor any
    other file changes the outcome. *)
Theorem outcome_ignores_directory fuel input_data w1 w2 :
  clock_reads w1 = clock_reads w2 →
  sleeps w1 = sleeps w2 →
  (handle_ask_user_question fuel input_data w1).1
  = (handle_ask_user_question fuel input_data w2).1.
Proof.
  intros Hc Hs. rewrite !handle_unfold.
  destruct (listening_facts input_data w1) as (Hd1 & Ha1 & Hs1 & Hc1).
  destruct (listening_facts input_data w2) as (Hd2 & Ha2 & Hs2 & Hc2).
  rewrite Hc. apply poll_outcome_same; try done.
  - by rewrite Ha1, Ha2.
  - by rewrite Hc1, Hc2, Hc.
  - by rewrite Hs1, Hs2, Hs.
Qed.

Lemma default_answers_cons q rest acc :
  default_answers (q :: rest) acc
  = rbind (rbind (py_get q "options" (PList []))
             (λ options,
                if truthy options then
                  rbind (py_getitem options (PInt 0))
                    (λ o, rbind (py_getitem o (PStr "label"))
                            (λ label, rbind (py_getitem q (PStr "question"))
                                        (λ k, py_setitem acc k label)))
                else
                  rbind (py_getitem q (PStr "question"))
                    (λ k, py_setitem acc k (PStr "No preference"))))
      (default_answers rest).
Proof.
  change (default_answers (q :: rest) acc)
    with (rbind (py_get q "options" (PList []))
            (λ options,
               rbind (if truthy options then
                        rbind (py_getitem options (PInt 0))
                          (λ o, rbind (py_getitem o (PStr "label"))
                                  (λ label, rbind (py_getitem q (PStr "question"))
                                              (λ k, py_setitem acc k label)))
                      else
                        rbind (py_getitem q (PStr "question"))
                          (λ k, py_setitem acc k (PStr "No preference")))
                 (default_answers rest))).
  by destruct (py_get q "options" (PList [])).
Qed.

Lemma default_answers_app good : ∀ rest acc,
  forallb sub_question_ok good = true →
  default_answers (good ++ rest) acc = default_answers rest (foldl bind_default acc good).
Proof.
  induction good as [|q good IH]; intros rest acc Hgood; simpl in *; [done|].
  apply andb_prop in Hgood as [Hq Hgood].
  pose proof (default_answers_wf [q] acc) as Hone. simpl in Hone.
  rewrite Hq in Hone. specialize (Hone eq_refl).
  rewrite default_answers_cons in Hone |- *.
  destruct (rbind (py_get q "options" (PList [])) _) as [e|acc'] eqn:E; [done|].
  simpl in Hone |- *. injection Hone as ->. by apply IH.
Qed.

(** X15.  The question set is not inspected when the question is asked.
    A sub-question that is a dict with neither a ["question"] nor an
    ["options"] entry, after sub-questions that are well formed, is written
    out and waited for like any other; when the wait times out, the
    defaults cannot be built, and [handle_ask_user_question] raises
    [KeyError('question')], the question file being removed and the status
    [running] by then. *)
Theorem question_without_text_fails_late input_data w k fuel good dq rest :
  expires w k →
  (k < fuel)%nat →
  questions_of input_data = PList (good ++ PDict dq :: rest) →
  forallb sub_question_ok good = true →
  dict_lookup (PStr "question") dq = None →
  dict_lookup (PStr "options") dq = None →
  ∃ w',
    handle_ask_user_question fuel input_data w = (Raised (KeyError (PStr "question")), w')
    ∧ clean (task_dir w) (files w')
    ∧ status_is (task_dir w) "running" (files w').
Proof.
  intros Hex Hfuel Hqs Hgood Hq Ho.
  assert ((handle_ask_user_question fuel input_data w).1
          = Raised (KeyError (PStr "question"))) as Hout.
  { replace fuel with (k + S (fuel - S k))%nat by lia.
    rewrite handle_expired by done. rewrite Hqs. unfold expire.
    change (py_iter (PList (good ++ PDict dq :: rest)))
      with (inr (good ++ PDict dq :: rest) : res (list pyval)).
    cbv beta iota. rewrite default_answers_app by done.
    rewrite default_answers_cons. simpl. rewrite Ho. simpl. by rewrite Hq. }
  exists (handle_ask_user_question fuel input_data w).2.
  pose proof (handle_settles fuel input_data w) as Hs. rewrite Hout in Hs.
  split; [by apply run_pair|]. destruct Hs as [[[=] _]|Hs]; done.
Qed.

End Depends.

(** ** How long a wait lasts *)

Section Patience.
Context `{Codec} `{Host}.
Implicit Types w : world.

(** X18.  The bridge does not give up before the deadline.  As long as
    each reading of the clock shows no more than [ANSWER_TIMEOUT] gone
    since the start of the wait and the external actor has supplied
    nothing, [handle_ask_user_question] is still polling: after [k] such
    rounds it has neither returned nor raised, and it has slept [k] times
    and read the clock once at the start and once in each round. *)
Theorem no_early_default input_data w k :
  waits w k →
  let w' := (handle_ask_user_question k input_data w).2 in
  (handle_ask_user_question k input_data w).1 = Pending
  ∧ sleeps w' = (sleeps w + k)%nat
  ∧ clock_reads w' = (clock_reads w + 1 + k)%nat.
Proof.
  intros Hw. rewrite handle_unfold.
  destruct (listening_facts input_data w) as (Hd & Ha & Hs & Hc).
  destruct (poll_waits k 0 (questions_of input_data) (task_dir w)
              (time_time (clock_reads w)) (listening input_data w) Hd Ha)
    as (w1 & Hp & _ & _ & Hs1 & Hc1).
  { intros i Hi. rewrite Hc, Hs.
    replace (S (clock_reads w) + i)%nat with (clock_reads w + 1 + i)%nat by lia.
    by apply Hw. }
  rewrite Nat.add_0_r in Hp. rewrite Hp. simpl. split; [done|]. lia.
Qed.

End Patience.

(** ** The further properties on examples *)

(** The agent speaks and runs a tool, and the session ends. *)
Lemma log_is_transcript_witness :
  files (@run_bridge example_codec speaking_host 0 "t1" "/work" "Fix it" blank).2
    !! (joinpath (@TASKS_DIR speaking_host) "t1", "output.log")
  = Some (default EmptyString
            (files blank !! (joinpath (@TASKS_DIR speaking_host) "t1", "output.log"))
          +:+ transcript (@query speaking_host "Fix it" "/work")).
Proof.
  apply (@log_is_transcript example_codec speaking_host 0 "t1" "/work" "Fix it" blank).
  vm_compute. reflexivity.
Defined.

Example speaking_run_log :
  files (@run_bridge example_codec speaking_host 0 "t1" "/work" "Fix it" blank).2
    !! (task_dir blank, "output.log")
  = Some ("Looking." +:+ nl +:+ "[Tool: Bash]" +:+ nl).
Proof. vm_compute. reflexivity. Qed.

(** Nobody answers, and the clock moves on by two seconds a round. *)
Lemma wait_ends_by_deadline_witness :
  (∃ p, (@handle_ask_user_question example_codec (example_host 0 Idle [])
           301 two_questions blank).1 = Done p)
  ∨ (∃ e, (@handle_ask_user_question example_codec (example_host 0 Idle [])
             301 two_questions blank).1 = Raised e).
Proof.
  apply (@wait_ends_by_deadline example_codec (example_host 0 Idle [])
           301 two_questions blank 300).
  - vm_compute. reflexivity.
  - lia.
Defined.

(** A free-text answer arrives during the first sleep. *)
Lemma return_allows_and_runs_witness :
  (∃ answers,
     PermissionResultAllow
       (updated (PList [proceed; colour]) (PDict [(PStr "Proceed?", PStr "Blue")]))
     = PermissionResultAllow (updated (questions_of two_questions) answers))
  ∧ @status_is example_codec (task_dir blank) "running"
      (files (@handle_ask_user_question example_codec
                (example_host 0 (Supply free_text) []) 2 two_questions blank).2).
Proof.
  apply (@return_allows_and_runs example_codec (example_host 0 (Supply free_text) [])
           2 two_questions blank).
  apply run_pair. vm_compute. reflexivity.
Defined.

(** The answer file is caught half written. *)
Lemma failure_leaves_witness :
  (is_Some (files (@handle_ask_user_question example_codec
                     (example_host 0 (Supply torn_text) []) 2 two_questions blank).2
            !! (task_dir blank, "question.json"))
   ∧ (∃ text,
        files (@handle_ask_user_question example_codec
                 (example_host 0 (Supply torn_text) []) 2 two_questions blank).2
          !! (task_dir blank, "answer.json") = Some text
        ∧ @json_loads example_codec text = None)
   ∧ @status_is example_codec (task_dir blank) "waiting_for_answer"
       (files (@handle_ask_user_question example_codec
                 (example_host 0 (Supply torn_text) []) 2 two_questions blank).2))
  ∨ (clean (task_dir blank)
       (files (@handle_ask_user_question example_codec
                 (example_host 0 (Supply torn_text) []) 2 two_questions blank).2)
     ∧ @status_is example_codec (task_dir blank) "running"
         (files (@handle_ask_user_question example_codec
                   (example_host 0 (Supply torn_text) []) 2 two_questions blank).2)).
Proof.
  apply (@failure_leaves example_codec (example_host 0 (Supply torn_text) [])
           2 two_questions blank JSONDecodeError).
  apply run_pair. vm_compute. reflexivity.
Defined.

(** Three rounds without an answer. *)
Lemma question_out_while_polling_witness :
  is_Some (files (@handle_ask_user_question example_codec (example_host 0 Idle [])
                    3 two_questions blank).2
           !! (task_dir blank, "question.json"))
  ∧ @status_is example_codec (task_dir blank) "waiting_for_answer"
      (files (@handle_ask_user_question example_codec (example_host 0 Idle [])
                3 two_questions blank).2).
Proof.
  apply (@question_out_while_polling example_codec (example_host 0 Idle [])
           3 two_questions blank).
  apply run_pair. vm_compute. reflexivity.
Defined.

Lemma never_denies_witness :
  ∃ updated_input,
    PermissionResultAllow (PDict [(PStr "command", PStr "ls")])
    = PermissionResultAllow updated_input.
Proof.
  apply (@never_denies example_codec speaking_host 0 "Bash"
           [(PStr "command", PStr "ls")] blank _ blank).
  reflexivity.
Defined.

(** The session is interrupted after the agent has spoken. *)
Lemma passing_fault_unrecorded_witness :
  @run_bridge example_codec interrupted_host 0 "t1" "/work" "Fix it" blank
  = (Raised (Foreign interrupt),
     (@session_loop example_codec interrupted_host 0 before_fault
        (@entered example_codec interrupted_host "t1" "/work" "Fix it" blank)).2).
Proof.
  apply (@passing_fault_unrecorded example_codec interrupted_host 0 "t1" "/work" "Fix it"
           blank before_fault interrupt []).
  - reflexivity.
  - reflexivity.
  - apply run_pair. vm_compute. reflexivity.
Defined.

Example interrupted_run_status :
  files (@run_bridge example_codec interrupted_host 0 "t1" "/work" "Fix it" blank).2
    !! (task_dir blank, "status.json")
  = Some (@json_dumps example_codec sample_status).
Proof. vm_compute. reflexivity. Qed.

Lemma written_json_reads_back_witness :
  ∃ tmp w',
    with_suffix (task_dir blank, "status.json") ".tmp" = ok tmp
    ∧ @write_json_atomic example_codec (task_dir blank, "status.json") sample_status blank
      = (Done tt, w')
    ∧ files w' !! (task_dir blank, "status.json")
      = Some (@json_dumps example_codec sample_status)
    ∧ @read_json example_codec (task_dir blank, "status.json") w' = (Done sample_status, w')
    ∧ (tmp ≠ (task_dir blank, "status.json") → files w' !! tmp = None).
Proof.
  apply (@written_json_reads_back example_codec (task_dir blank, "status.json")
           sample_status blank).
  - discriminate.
  - vm_compute. reflexivity.
Defined.

(** The second sub-question has no text, and nobody answers. *)
Lemma question_without_text_fails_late_witness :
  ∃ w',
    @handle_ask_user_question example_codec (example_host 0 Idle [])
      301 untitled_questions blank
    = (Raised (KeyError (PStr "question")), w')
    ∧ clean (task_dir blank) (files w')
    ∧ @status_is example_codec (task_dir blank) "running" (files w').
Proof.
  apply (@question_without_text_fails_late example_codec (example_host 0 Idle [])
           untitled_questions blank 300 301 [proceed] [(PStr "header", PStr "Scope")] []).
  - split; [apply waits_check_spec|]; vm_compute; reflexivity.
  - lia.
  - reflexivity.
  - reflexivity.
  - reflexivity.
  - reflexivity.
Defined.

(** With an explicit mapping the same question set gives no error: the
    questions are handed back as they came. *)
Example untitled_question_answered :
  (@handle_ask_user_question example_codec (example_host 0 (Supply mapping_text) [])
     2 untitled_questions blank).1
  = Done (PermissionResultAllow
            (updated (PList [proceed; untitled]) (PDict [(PStr "Proceed?", PStr "No")]))).
Proof. vm_compute. reflexivity. Qed.

(** An answer left behind in the directory changes nothing. *)
Lemma outcome_ignores_directory_witness :
  (@handle_ask_user_question example_codec asking_host 5 two_questions blank).1
  = (@handle_ask_user_question example_codec asking_host 5 two_questions stale).1.
Proof.
  apply (@outcome_ignores_directory example_codec asking_host 5 two_questions blank stale);
    reflexivity.
Defined.

Example stale_answer_not_returned :
  (@handle_ask_user_question example_codec (example_host 0 (Supply free_text) [])
     2 two_questions stale).1
  = Done (PermissionResultAllow
            (updated (PList [proceed; colour]) (PDict [(PStr "Proceed?", PStr "Blue")]))).
Proof. vm_compute. reflexivity. Qed.

Lemma running_without_result_witness :
  ∃ w',
    @run_bridge example_codec speaking_host 0 "t1" "/work" "Fix it" blank = (Done tt, w')
    ∧ files w' !! (joinpath (@TASKS_DIR speaking_host) "t1", "status.json")
      = Some (@json_dumps example_codec
                (status_record "running" "Claude Code session active"
                   (@isoformat_now speaking_host (S (S (stamps blank))))
                   (@getpid speaking_host)))
    ∧ files w' !! (joinpath (@TASKS_DIR speaking_host) "t1", "result.json")
      = files blank !! (joinpath (@TASKS_DIR speaking_host) "t1", "result.json").
Proof.
  apply (@running_without_result example_codec speaking_host 0 "t1" "/work" "Fix it" blank).
  reflexivity.
Defined.

(** Ten minutes to the second have gone by at the three hundredth round:
    the deadline asks for more. *)
Lemma no_early_default_witness :
  (@handle_ask_user_question example_codec (example_host 0 Idle []) 300 two_questions blank).1
  = Pending
  ∧ sleeps (@handle_ask_user_question example_codec (example_host 0 Idle [])
              300 two_questions blank).2
    = (sleeps blank + 300)%nat
  ∧ clock_reads (@handle_ask_user_question example_codec (example_host 0 Idle [])
                   300 two_questions blank).2
    = (clock_reads blank + 1 + 300)%nat.
Proof.
  apply (@no_early_default example_codec (example_host 0 Idle []) two_questions blank 300).
  apply waits_check_spec. vm_compute. reflexivity.
Defined.
